(** * phockup: the file classification and placement engine

    A shallow embedding of [src/phockup.py].  Every function of the
    script that takes part in classifying and placing one file is
    written as a Rocq function with the name it has in the source, and
    the library calls it makes ([str] methods, [os.path], [re],
    [datetime], [shutil]) are given small executable models.

    Conventions of the model:
    - text is a [string] of ASCII characters; the classes of characters
      ([\d], [\s]) are the ASCII ones;
    - paths are POSIX paths ([os.path.sep] is "/"), and a path string
      names at most one file: no links, no normalisation;
    - the external collaborators (the SHA-256 digest of [hashlib], the
      output of the [exiftool] program, the C library's [strftime], the
      case tables behind [str.lower]) are section variables, so every
      theorem holds for all of them. *)

From Stdlib Require Import ZArith Ascii String List Bool Lia.
From stdpp Require Import base option list gmap strings pretty.

Local Open Scope string_scope.
Local Open Scope Z_scope.

(** ** Python [str] methods *)

Module PyStr.

Definition is_digit (c : ascii) : bool :=
  let n := nat_of_ascii c in (48 <=? n)%nat && (n <=? 57)%nat.

(** [str.isspace] on ASCII: TAB..CR, FS..US and the space. *)
Definition is_space (c : ascii) : bool :=
  let n := nat_of_ascii c in
  ((9 <=? n)%nat && (n <=? 13)%nat) || ((28 <=? n)%nat && (n <=? 32)%nat).

(** [s.startswith(p)] *)
Fixpoint startswith (s p : string) : bool :=
  match p, s with
  | EmptyString, _ => true
  | String a p', String b s' => Ascii.eqb a b && startswith s' p'
  | String _ _, EmptyString => false
  end.

(** [s.endswith(suf)]: [suf] is [s] or a suffix of its tail. *)
Fixpoint endswith (s suf : string) : bool :=
  String.eqb s suf ||
  match s with
  | EmptyString => false
  | String _ s' => endswith s' suf
  end.

(** [c in s] for a character [c]. *)
Fixpoint contains (ch : ascii) (s : string) : bool :=
  match s with
  | EmptyString => false
  | String c s' => Ascii.eqb c ch || contains ch s'
  end.

(** [s[:-1]] *)
Fixpoint drop_last (s : string) : string :=
  match s with
  | EmptyString => EmptyString
  | String c EmptyString => EmptyString
  | String c s' => String c (drop_last s')
  end.

(** The pieces of [s.split(sep)] for a non-empty separator: the first
    piece and the list of the following ones.  [skip] counts the
    characters of a separator that are still to be passed over. *)
Fixpoint split_go (sep : string) (skip : nat) (s : string)
  : string * list string :=
  match s with
  | EmptyString => (EmptyString, [])
  | String c s' =>
      match skip with
      | S k => split_go sep k s'
      | O =>
          if startswith s sep then
            let '(f, r) := split_go sep (String.length sep - 1) s' in
            (EmptyString, f :: r)
          else
            let '(f, r) := split_go sep 0 s' in (String c f, r)
      end
  end.

Definition split (s sep : string) : list string :=
  let '(f, r) := split_go sep 0 s in f :: r.

(** [sep.join(l)] *)
Fixpoint join (sep : string) (l : list string) : string :=
  match l with
  | [] => EmptyString
  | [x] => x
  | x :: l' => x +:+ sep +:+ join sep l'
  end.

Fixpoint lstrip (s : string) : string :=
  match s with
  | EmptyString => EmptyString
  | String c s' => if is_space c then lstrip s' else s
  end.

Fixpoint rstrip (s : string) : string :=
  match s with
  | EmptyString => EmptyString
  | String c s' =>
      match rstrip s' with
      | EmptyString => if is_space c then EmptyString else String c EmptyString
      | r => String c r
      end
  end.

(** [s.strip()] *)
Definition strip (s : string) : string := rstrip (lstrip s).

(** [s.rpartition(ch)] without the separator: the text before and the
    text after the last [ch], or [None] when [ch] does not occur. *)
Fixpoint rpartition (ch : ascii) (s : string) : option (string * string) :=
  match s with
  | EmptyString => None
  | String c s' =>
      match rpartition ch s' with
      | Some (b, a) => Some (String c b, a)
      | None => if Ascii.eqb c ch then Some (EmptyString, s') else None
      end
  end.

(** [s.rstrip(ch)] for one character. *)
Fixpoint rstrip_char (ch : ascii) (s : string) : string :=
  match s with
  | EmptyString => EmptyString
  | String c s' =>
      match rstrip_char ch s' with
      | EmptyString => if Ascii.eqb c ch then EmptyString else String c EmptyString
      | r => String c r
      end
  end.

(** ['%0<w>d' % n] for [0 <= n]: decimal digits, zero padded on the
    left to width [w]; a negative number keeps its sign in front. *)
Fixpoint zeros (n : nat) : string :=
  match n with O => EmptyString | S k => String "0" (zeros k) end.

Definition pad0 (w : nat) (n : Z) : string :=
  if n <? 0 then
    let d := pretty (- n) in "-" +:+ zeros (w - 1 - String.length d) +:+ d
  else
    let d := pretty n in zeros (w - String.length d) +:+ d.

(** [int(s)] for a [str]: surrounding white space, an optional sign,
    then decimal digits, single underscores allowed between digits.
    [None] stands for [ValueError]. *)
Definition digit_val (c : ascii) : Z := Z.of_nat (nat_of_ascii c) - 48.

Fixpoint int_digits (acc : Z) (after_digit : bool) (s : string) : option Z :=
  match s with
  | EmptyString => if after_digit then Some acc else None
  | String c s' =>
      if is_digit c then int_digits (10 * acc + digit_val c) true s'
      else if Ascii.eqb c "_" && after_digit then
        match s' with
        | String d _ => if is_digit d then int_digits acc false s' else None
        | EmptyString => None
        end
      else None
  end.

Definition int (s : string) : option Z :=
  match strip s with
  | String "+" d => int_digits 0 false d
  | String "-" d => Z.opp <$> int_digits 0 false d
  | d => int_digits 0 false d
  end.

(** [s.replace(old, new)] for a non-empty [old]: the occurrences of
    [old] are taken from left to right and do not overlap.  [skip]
    counts the characters of an occurrence that are still to be passed
    over. *)
Fixpoint replace_go (old new : string) (skip : nat) (s : string) : string :=
  match s with
  | EmptyString => EmptyString
  | String c s' =>
      match skip with
      | S k => replace_go old new k s'
      | O =>
          if startswith s old
          then new +:+ replace_go old new (String.length old - 1) s'
          else String c (replace_go old new 0 s')
      end
  end.

Definition replace (s old new : string) : string := replace_go old new 0 s.

Definition TAB : string := String (ascii_of_nat 9) EmptyString.

End PyStr.

(** ** [os.path] on POSIX *)

Module OsPath.
Import PyStr.

Definition sep : string := "/".

(** [os.path.basename(p)]: what follows the last separator. *)
Definition basename (p : string) : string :=
  match rpartition "/" p with
  | Some (_, a) => a
  | None => p
  end.

(** [os.path.dirname(p)]: what precedes the base name, without its
    trailing separators unless it consists of separators only. *)
Definition dirname (p : string) : string :=
  match rpartition "/" p with
  | Some (b, _) =>
      let head := b +:+ "/" in
      match rstrip_char "/" head with
      | EmptyString => head
      | h => h
      end
  | None => EmptyString
  end.

(** [os.path.splitext(p)]: the extension starts at the last dot of
    the base name, provided a character other than a dot precedes it
    there. *)
Fixpoint all_dots (s : string) : bool :=
  match s with
  | EmptyString => true
  | String c s' => Ascii.eqb c "." && all_dots s'
  end.

Definition splitext (p : string) : string * string :=
  let '(d, name) :=
    match rpartition "/" p with
    | Some (b, a) => (b +:+ "/", a)
    | None => (EmptyString, p)
    end in
  match rpartition "." name with
  | Some (b, a) =>
      if all_dots b then (p, EmptyString) else (d +:+ b, "." +:+ a)
  | None => (p, EmptyString)
  end.

(** [os.path.join(a, b)] *)
Definition join (a b : string) : string :=
  if startswith b "/" then b
  else if String.eqb a "" || endswith a "/" then a +:+ b
  else a +:+ "/" +:+ b.

End OsPath.

(** ** Python [re]: a backtracking matcher

    The constructs that occur in the patterns of the script: character
    classes, sequence, ordered alternation, the greedy [?], the greedy
    repetition of a character class ([.*], [\s+]), groups and [$].  The
    matcher passes the continuation of the match along, so that a later
    failure makes an earlier choice fall back to its next alternative,
    longest repetition first, as [re] does. *)

Module Re.
Import PyStr.

Definition nl : ascii := ascii_of_nat 10.
Definition NL : string := String nl EmptyString.

Inductive regex : Type :=
| Eps
| Chr (p : ascii -> bool)
| Cat (r1 r2 : regex)
| Alt (r1 r2 : regex)
| Opt (r : regex)
| Star (p : ascii -> bool)
| Grp (name : string) (r : regex)
| Eol.

(** The groups that took part in a match, the latest first.  A
    numbered group [(...)] is named by its number. *)
Definition groups := list (string * string).

Definition group (g : groups) (name : string) : option string :=
  snd <$> List.find (fun x => String.eqb (fst x) name) g.

(** What was read between the input [s] and the rest [s']. *)
Definition consumed (s s' : string) : string :=
  String.substring 0 (String.length s - String.length s') s.

Fixpoint star {R : Type} (p : ascii -> bool) (s : string)
  (k : string -> option R) : option R :=
  match s with
  | String c s' =>
      if p c then
        match star p s' k with
        | Some x => Some x
        | None => k s
        end
      else k s
  | EmptyString => k s
  end.

Fixpoint run {R : Type} (r : regex) (s : string) (g : groups)
  (k : groups -> string -> option R) : option R :=
  match r with
  | Eps => k g s
  | Chr p =>
      match s with
      | String c s' => if p c then k g s' else None
      | EmptyString => None
      end
  | Cat r1 r2 => run r1 s g (fun g' s' => run r2 s' g' k)
  | Alt r1 r2 =>
      match run r1 s g k with
      | Some x => Some x
      | None => run r2 s g k
      end
  | Opt r1 =>
      match run r1 s g k with
      | Some x => Some x
      | None => k g s
      end
  | Star p => star p s (k g)
  | Grp name r1 => run r1 s g (fun g' s' => k ((name, consumed s s') :: g') s')
  | Eol => if String.eqb s "" || String.eqb s NL then k g s else None
  end.

(** [r.match(s)]: a match at the start of [s]; its groups and the
    text left after it. *)
Definition rmatch (r : regex) (s : string) : option (groups * string) :=
  run r s [] (fun g s' => Some (g, s')).

(** [r.search(s)]: the first position with a match. *)
Fixpoint search (r : regex) (s : string) : option (groups * string) :=
  match rmatch r s with
  | Some m => Some m
  | None =>
      match s with
      | String _ s' => search r s'
      | EmptyString => None
      end
  end.

(** [re.sub(r, repl, s)]: every match, from left to right and not
    overlapping, is replaced by [repl] of its groups.  Each step
    shortens the text, so [S (length s)] steps are enough. *)
Fixpoint sub_go (fuel : nat) (r : regex) (repl : groups -> string)
  (s : string) : string :=
  match fuel with
  | O => s
  | S n =>
      let copy_one :=
        match s with
        | String c s' => String c (sub_go n r repl s')
        | EmptyString => EmptyString
        end in
      match rmatch r s with
      | Some (g, rest) =>
          if (String.length rest <? String.length s)%nat
          then repl g +:+ sub_go n r repl rest
          else repl g +:+ copy_one
      | None => copy_one
      end
  end.

Definition sub (r : regex) (repl : groups -> string) (s : string) : string :=
  sub_go (S (String.length s)) r repl s.

(** Names of the groups of a pattern in the order they open. *)
Fixpoint group_names (r : regex) : list string :=
  match r with
  | Grp name r1 => name :: group_names r1
  | Cat r1 r2 | Alt r1 r2 => group_names r1 ++ group_names r2
  | Opt r1 => group_names r1
  | Eps | Chr _ | Star _ | Eol => []
  end.

Definition is_numbered (name : string) : bool :=
  match name with
  | String c _ => is_digit c
  | EmptyString => true
  end.

(** [m.groupdict()]: every named group of the pattern, with [None]
    for a group that took no part in the match. *)
Definition groupdict (r : regex) (g : groups) : list (string * option string) :=
  (fun name => (name, group g name)) <$>
    List.filter (fun name => negb (is_numbered name)) (group_names r).

(** Building blocks. *)
Definition seq (l : list regex) : regex := List.fold_right Cat Eps l.
Definition rep (n : nat) (r : regex) : regex := seq (List.repeat r n).
Definition chr (c : ascii) : regex := Chr (Ascii.eqb c).
Definition not_nl (c : ascii) : bool := negb (Ascii.eqb c nl).
Definition dot : regex := Chr not_nl.
Definition digit : regex := Chr is_digit.
Definition between (lo hi : ascii) : regex :=
  Chr (fun c => (nat_of_ascii lo <=? nat_of_ascii c)%nat
                && (nat_of_ascii c <=? nat_of_ascii hi)%nat).
(** A text of the pattern language taken literally, except that [.]
    keeps its meaning "any character but a line break". *)
Fixpoint text (s : string) : regex :=
  match s with
  | EmptyString => Eps
  | String c s' => Cat (if Ascii.eqb c "." then dot else chr c) (text s')
  end.

End Re.

(** ** Results of calls that can raise *)

Inductive exn : Type :=
| KeyError | ValueError | TypeError | AttributeError | OverflowError | OSError.

(** [SysExit] is [sys.exit], which no [except Exception] catches;
    [OutOfFuel] marks a loop cut short by the model's step bound. *)
Inductive res (A : Type) : Type :=
| Ok (a : A)
| Raise (e : exn)
| SysExit
| OutOfFuel.
Arguments Ok {A} a.
Arguments Raise {A} e.
Arguments SysExit {A}.
Arguments OutOfFuel {A}.

Definition res_bind {A B : Type} (m : res A) (k : A -> res B) : res B :=
  match m with
  | Ok a => k a
  | Raise e => Raise e
  | SysExit => SysExit
  | OutOfFuel => OutOfFuel
  end.

(** ** [datetime] *)

Module Calendar.
Import PyStr Re.

Record datetime : Type := mk_datetime
  { year : Z; month : Z; day : Z; hour : Z; minute : Z; second : Z }.

Definition is_leap (y : Z) : bool :=
  (y mod 4 =? 0) && (negb (y mod 100 =? 0) || (y mod 400 =? 0)).

Definition days_in_month (y m : Z) : Z :=
  if m =? 2 then (if is_leap y then 29 else 28)
  else if (m =? 4) || (m =? 6) || (m =? 9) || (m =? 11) then 30
  else 31.

Definition valid_datetime (y mo d h mi sc : Z) : bool :=
  (1 <=? y) && (y <=? 9999) && (1 <=? mo) && (mo <=? 12)
  && (1 <=? d) && (d <=? days_in_month y mo)
  && (0 <=? h) && (h <=? 23) && (0 <=? mi) && (mi <=? 59)
  && (0 <=? sc) && (sc <=? 59).

Definition fits_c_int (v : Z) : bool := (- 2 ^ 31 <=? v) && (v <? 2 ^ 31).

(** [datetime(y, mo, d, h, mi, sc)]: [OverflowError] for an argument
    that is no C [int], [ValueError] for one out of its range. *)
Definition datetime_new (y mo d h mi sc : Z) : res datetime :=
  if negb (List.forallb fits_c_int [y; mo; d; h; mi; sc]) then Raise OverflowError
  else if valid_datetime y mo d h mi sc then Ok (mk_datetime y mo d h mi sc)
  else Raise ValueError.

(** The pattern [_strptime] builds for ["%Y<c>%m<c>%d %H:%M:%S"]. *)
Definition strptime_regex (c : ascii) : regex :=
  seq [ Grp "Y" (rep 4 digit);
        chr c;
        Grp "m" (Alt (Cat (chr "1") (between "0" "2"))
                (Alt (Cat (chr "0") (between "1" "9"))
                     (between "1" "9")));
        chr c;
        Grp "d" (Alt (Cat (chr "3") (between "0" "1"))
                (Alt (Cat (between "1" "2") digit)
                (Alt (Cat (chr "0") (between "1" "9"))
                (Alt (between "1" "9")
                     (Cat (chr " ") (between "1" "9"))))));
        Chr is_space; Star is_space;
        Grp "H" (Alt (Cat (chr "2") (between "0" "3"))
                (Alt (Cat (between "0" "1") digit)
                     digit));
        chr ":";
        Grp "M" (Alt (Cat (between "0" "5") digit) digit);
        chr ":";
        Grp "S" (Alt (Cat (chr "6") (between "0" "1"))
                (Alt (Cat (between "0" "5") digit)
                     digit)) ].

Definition group_int (g : groups) (name : string) : option Z :=
  group g name ≫= int.

(** [datetime.strptime(s, "%Y<c>%m<c>%d %H:%M:%S")]; [None] stands
    for [ValueError]: no match, text left over, or no such date. *)
Definition strptime (c : ascii) (s : string) : option datetime :=
  match rmatch (strptime_regex c) s with
  | Some (g, EmptyString) =>
      match group_int g "Y", group_int g "m", group_int g "d",
            group_int g "H", group_int g "M", group_int g "S" with
      | Some y, Some mo, Some d, Some h, Some mi, Some sc =>
          match datetime_new y mo d h mi sc with
          | Ok dt => Some dt
          | _ => None
          end
      | _, _, _, _, _, _ => None
      end
  | _ => None
  end.

End Calendar.

(** ** The file system and the calls that change it *)

(** The content of every regular file and the set of directories, by
    path. *)
Record FS : Type := mkFS { files : gmap string string; dirs : gset string }.

(** A computation that reads and changes the file system and may
    raise: the state reached is kept in every case. *)
Definition M (A : Type) : Type := FS -> FS * res A.

Definition ret {A : Type} (a : A) : M A := fun fs => (fs, Ok a).

Definition bind {A B : Type} (m : M A) (k : A -> M B) : M B :=
  fun fs =>
    match m fs with
    | (fs', Ok a) => k a fs'
    | (fs', Raise e) => (fs', Raise e)
    | (fs', SysExit) => (fs', SysExit)
    | (fs', OutOfFuel) => (fs', OutOfFuel)
    end.

(** A call that raises or returns without touching the file system. *)
Definition lift {A : Type} (r : res A) : M A := fun fs => (fs, r).

Declare Scope fs_scope.
Delimit Scope fs_scope with fs.
Notation "x <- m ;; k" := (bind m (fun x => k))
  (at level 100, m at next level, right associativity) : fs_scope.
Notation "m ;;; k" := (bind m (fun _ => k))
  (at level 100, right associativity) : fs_scope.
Local Open Scope fs_scope.

Module Os.
Import PyStr OsPath.

(** [os.path.isfile], [os.path.isdir], [os.path.exists] *)
Definition isfile (p : string) (fs : FS) : bool :=
  bool_decide (is_Some (files fs !! p)).
Definition isdir (p : string) (fs : FS) : bool :=
  bool_decide (p ∈ dirs fs).
Definition exists_ (p : string) (fs : FS) : bool :=
  isfile p fs || isdir p fs.

(** The directories above [p]: its prefixes that end just before a
    separator. *)
Fixpoint prefixes (pre s : string) : list string :=
  match s with
  | EmptyString => []
  | String c s' =>
      (if Ascii.eqb c "/" && negb (String.eqb pre "") && negb (endswith pre "/")
       then [pre] else [])
      ++ prefixes (pre +:+ String c EmptyString) s'
  end.
Definition ancestors (p : string) : list string := prefixes "" p.

(** [os.makedirs(p)]: [None] when it raises, that is when [p] exists
    already or a file is in the way; access rights are not modelled. *)
Definition makedirs (p : string) (fs : FS) : option FS :=
  if String.eqb p "" || exists_ p fs
     || List.existsb (fun a => isfile a fs) (ancestors p)
  then None
  else Some (mkFS (files fs) (dirs fs ∪ {[ p ]} ∪ list_to_set (ancestors p))).

(** The directory a new entry [p] goes into is there: the current
    directory, the root, or a known directory. *)
Definition parent_exists (p : string) (fs : FS) : bool :=
  let d := dirname p in
  String.eqb (rstrip_char "/" d) "" || isdir d fs.

(** [open(dst, 'wb').write(c)] *)
Definition write_file (dst c : string) : M unit := fun fs =>
  if isdir dst fs || negb (parent_exists dst fs) then (fs, Raise OSError)
  else (mkFS (<[dst := c]> (files fs)) (dirs fs), Ok tt).

(** Where [shutil.copy2(src, dst)] writes: into [dst] when it is a
    directory. *)
Definition copy_dst (src dst : string) (fs : FS) : string :=
  if isdir dst fs then join dst (basename src) else dst.

(** [shutil.copy2(src, dst)]; an existing file at the destination is
    overwritten. *)
Definition copy2 (src dst : string) : M unit := fun fs =>
  match files fs !! src with
  | None => (fs, Raise OSError)
  | Some c =>
      if String.eqb src (copy_dst src dst fs) then (fs, Raise OSError)
      else write_file (copy_dst src dst fs) c fs
  end.

(** [os.rename(src, dst)] for a regular file [src]. *)
Definition rename (src dst : string) : M unit := fun fs =>
  match files fs !! src with
  | None => (fs, Raise OSError)
  | Some c =>
      if isdir dst fs || negb (parent_exists dst fs) then (fs, Raise OSError)
      else (mkFS (<[dst := c]> (delete src (files fs))) (dirs fs), Ok tt)
  end.

(** Where [shutil.move(src, dst)] moves to: into [dst] when it is a
    directory. *)
Definition move_dst (src dst : string) (fs : FS) : string :=
  if isdir dst fs then join dst (basename (rstrip_char "/" src)) else dst.

(** [shutil.move(src, dst)] for a regular file [src]; inside a
    directory [dst] the name must be free. *)
Definition move (src dst : string) : M unit := fun fs =>
  if isdir dst fs && exists_ (move_dst src dst fs) fs then (fs, Raise OSError)
  else rename src (move_dst src dst fs) fs.

End Os.

(** ** The script *)

(** [get_date] returns [None] or a dictionary with the keys ['date']
    and ['subseconds']. *)
Record ResolvedDate : Type := mkResolved
  { date : option Calendar.datetime; subseconds : string }.

(** The keys of the [count] dictionary of [main]. *)
Inductive status : Type := copied | moved | duplicate | error | other.

Global Instance status_eq_dec : EqDecision status.
Proof. solve_decision. Defined.

Section Phockup.
Import PyStr OsPath Re Calendar Os.

(** [hashlib.sha256(content).hexdigest()] *)
Variable sha256 : string -> string.
(** The decoded output of [check_output(['exiftool', file])], or
    [None] when the program fails ([CalledProcessError]). *)
Variable exiftool : FS -> string -> option string.
(** [d.strftime(fmt)] of the C library, [None] when it raises. *)
Variable strftime : datetime -> string -> option string.
(** [s.lower()]: the method of [str], which lower-cases every cased
    letter of Unicode by the tables of the interpreter. *)
Variable lower : string -> string.

Definition ignored_files : list string := [".DS_Store"; "Thumbs.db"].

(** Lines 134-144. *)
Definition parse_date_format (date : string) : string :=
  let date := replace date "YYYY" "%Y" in
  let date := replace date "YY" "%y" in
  let date := replace date "m" "%b" in
  let date := replace date "MM" "%m" in
  let date := replace date "M" "%B" in
  let date := replace date "DDD" "%j" in
  let date := replace date "DD" "%d" in
  let date := replace date "\" OsPath.sep in
  let date := replace date "/" OsPath.sep in
  date.

(** Lines 147-158. *)
Definition exif (file : string) : M (option (gmap string string)) := fun fs =>
  match exiftool fs file with
  | None => (fs, Ok None)
  | Some out =>
      let data := split (List.hd "" (split (strip out) "\n")) NL in
      (fs, Ok (Some (List.fold_left
                       (fun exif_data row =>
                          let opt := split row ":" in
                          <[strip (List.hd "" opt) := strip (PyStr.join ":" (List.tl opt))]> exif_data)
                       data ∅)))
  end.

(** The pattern of line 181: any text, then a sign, two digits, a
    colon and two digits. *)
Definition tz_search : regex :=
  Cat (Grp "1" (Star not_nl))
      (Grp "2" (seq [Chr (fun c => Ascii.eqb c "+" || Ascii.eqb c "-");
                     digit; digit; chr ":"; digit; digit])).

(** The pattern of line 201. *)
Definition is_sep (c : ascii) : bool := Ascii.eqb c "_" || Ascii.eqb c "-".
Definition default_regex : regex :=
  seq [ Star not_nl; Chr is_sep;
        Grp "year" (rep 4 digit); Grp "month" (rep 2 digit);
        Grp "day" (rep 2 digit);
        Opt (Chr is_sep);
        Grp "hour" (rep 2 digit); Grp "minute" (rep 2 digit);
        Grp "second" (rep 2 digit) ].

(** Line 208: [int(x)] for every named group in turn; [int(None)]
    raises [TypeError], a text that is no number [ValueError]. *)
Fixpoint ints_of (l : list (string * option string)) : res (list (string * Z)) :=
  match l with
  | [] => Ok []
  | (a, x) :: l' =>
      match x with
      | None => Raise TypeError
      | Some x =>
          match int x with
          | None => Raise ValueError
          | Some v => res_bind (ints_of l') (fun r => Ok ((a, v) :: r))
          end
      end
  end.

(** [match_dir[key]] on the dictionary built from those pairs: the
    last pair of a key counts. *)
Definition item (match_dir : list (string * Z)) (key : string) : res Z :=
  match List.find (fun x => String.eqb (fst x) key) (List.rev match_dir) with
  | Some (_, v) => Ok v
  | None => Raise KeyError
  end.

Definition keys (use_modification_date : bool) : list string :=
  (["Create Date"; "Date/Time Original"; "Media created"]
   ++ (if use_modification_date then ["File Modification Date/Time"] else []))%list.

(** Lines 167-170: the value of the first key that is present. *)
Fixpoint first_present (ks : list string) (exif_data : gmap string string)
  : option string :=
  match ks with
  | [] => None
  | key :: ks' =>
      match exif_data !! key with
      | Some v => Some v
      | None => first_present ks' exif_data
      end
  end.

(** Lines 161-220. *)
Definition get_date (file : string) (exif_data : gmap string string)
  (user_regex : option regex) (use_modification_date : bool)
  : res (option ResolvedDate) :=
  let datestr := first_present (keys use_modification_date) exif_data in
  match datestr with
  | Some (String _ _ as datestr) =>
      let datestr := split datestr "." in
      let date := List.hd "" datestr in
      let subseconds :=
        match datestr with
        | _ :: s :: _ => s
        | _ => ""
        end in
      let date :=
        match search tz_search date with
        | Some _ => sub tz_search (fun g => default "" (group g "1")) date
        | None => date
        end in
      let parsed_date_time :=
        match strptime ":" date with
        | Some d => Some d
        | None => strptime "-" date
        end in
      Ok (Some (mkResolved parsed_date_time subseconds))
  | _ =>
      let regex := default default_regex user_regex in
      match search regex (basename file) with
      | Some (g, _) =>
          let date :=
            res_bind (ints_of (groupdict regex g)) (fun match_dir =>
            res_bind (item match_dir "year") (fun y =>
            res_bind (item match_dir "month") (fun mo =>
            res_bind (item match_dir "day") (fun d =>
            res_bind (item match_dir "hour") (fun h =>
            res_bind (item match_dir "minute") (fun mi =>
            res_bind (item match_dir "second") (fun sc =>
            datetime_new y mo d h mi sc))))))) in
          match date with
          | Ok date => Ok (Some (mkResolved (Some date) ""))
          | Raise KeyError | Raise ValueError => Ok None
          | Raise e => Raise e
          | SysExit => SysExit
          | OutOfFuel => OutOfFuel
          end
      | None => Ok None
      end
  end.

(** Lines 223-248.  [date] is what [get_date] returned, or [None]
    for the [False] the callers pass; [sys.exit] when the directory
    cannot be made. *)
Definition get_output_dir (date : option ResolvedDate)
  (outputdir dir_format : string) : M string := fun fs =>
  let outputdir :=
    if endswith outputdir OsPath.sep then drop_last outputdir else outputdir in
  let path :=
    match date with
    | Some (mkResolved (Some d) _) =>
        match strftime d dir_format with
        | Some s => [outputdir; s]
        | None => [outputdir; "unknown"]
        end
    | _ => [outputdir; "unknown"]
    end in
  let fullpath := PyStr.join OsPath.sep path in
  if isdir fullpath fs then (fs, Ok fullpath)
  else
    match makedirs fullpath fs with
    | Some fs' => (fs', Ok fullpath)
    | None => (fs, SysExit)
    end.

(** Lines 251-269. *)
Definition get_file_name (file : string) (date : option ResolvedDate) : string :=
  match date with
  | Some (mkResolved (Some d) subseconds) =>
      let filename :=
        ([ pad0 4 (year d); pad0 2 (month d); pad0 2 (day d); "-";
           pad0 2 (hour d); pad0 2 (minute d); pad0 2 (second d) ]
         ++ (if String.eqb subseconds "" then [] else [subseconds]))%list in
      PyStr.join "" filename +:+ snd (splitext file)
  | _ => basename file
  end.

(** The pattern of line 273. *)
Definition mime_pattern : regex :=
  Cat (Grp "1" (Alt (Cat (text "image/") (Cat dot (Star not_nl)))
               (Alt (Cat (text "video/") (Cat dot (Star not_nl)))
                    (text "application/vnd.adobe.photoshop"))))
      Eol.

(** The truth value of what [exif] returned: [None] and the empty
    dictionary are false. *)
Definition truthy (exif_data : option (gmap string string)) : bool :=
  match exif_data with
  | Some d => negb (bool_decide (d = ∅))
  | None => false
  end.

(** Lines 272-276.  [exif_data['MIME Type']] raises [KeyError] when
    the key is missing. *)
Definition is_image_or_video (exif_data : option (gmap string string)) : res bool :=
  if truthy exif_data then
    match default ∅ exif_data !! "MIME Type" with
    | None => Raise KeyError
    | Some v => Ok (bool_decide (is_Some (rmatch mime_pattern v)))
    end
  else Ok false.

(** Lines 389-394. *)
Definition sha256_checksum (filename : string) : M string := fun fs =>
  match files fs !! filename with
  | Some c => (fs, Ok (sha256 c))
  | None => (fs, Raise OSError)
  end.

Definition copy_or_move (move_files : bool) (src dst : string) : M status :=
  if move_files then (move src dst ;;; ret moved)
  else (copy2 src dst ;;; ret copied).

(** Lines 363-386. *)
Definition handle_file_xmp (source_file photo_name : string) (suffix : nat)
  (exif_output_dir : string) (move_files : bool) : M unit := fun fs =>
  let xmp_original_with_ext := source_file +:+ ".xmp" in
  let xmp_original_without_ext := fst (splitext source_file) +:+ ".xmp" in
  let suffix := if (1 <? suffix)%nat then "-" +:+ pretty suffix else "" in
  let found :=
    if isfile xmp_original_with_ext fs then
      Some (xmp_original_with_ext, photo_name +:+ suffix +:+ ".xmp")
    else if isfile xmp_original_without_ext fs then
      Some (xmp_original_without_ext,
            fst (splitext photo_name) +:+ suffix +:+ ".xmp")
    else None in
  match found with
  | Some (xmp_original, xmp_target) =>
      let xmp_path := PyStr.join OsPath.sep [exif_output_dir; xmp_target] in
      if move_files then move xmp_original xmp_path fs
      else copy2 xmp_original xmp_path fs
  | None => (fs, Ok tt)
  end.

(** Line 321: the candidate for [suffix]. *)
Definition suffixed (target_file_path : string) (suffix : nat) : string :=
  let target_split := splitext target_file_path in
  fst target_split +:+ "-" +:+ pretty suffix +:+ snd target_split.

(** Lines 301-321: the loop, [fuel] bounding its number of turns. *)
Fixpoint place (fuel : nat) (source_file target_file_path target_file_name
    output_dir : string) (move_files : bool) (suffix : nat)
    (target_file : string) : M status :=
  match fuel with
  | O => lift OutOfFuel
  | S fuel' => fun fs =>
      if isfile target_file fs then
        (a <- sha256_checksum source_file ;;
         b <- sha256_checksum target_file ;;
         if String.eqb a b then ret duplicate
         else
           let suffix := S suffix in
           place fuel' source_file target_file_path target_file_name
             output_dir move_files suffix (suffixed target_file_path suffix)) fs
      else
        (st <- copy_or_move move_files source_file target_file ;;
         handle_file_xmp source_file target_file_name suffix output_dir move_files ;;;
         ret st) fs
  end.

(** Lines 280-297: the directory and the name the file should get. *)
Definition plan (source_file outputdir dir_format : string)
  (date_regex : option regex) : M (string * string) :=
  exif_data <- exif source_file ;;
  media <- (if truthy exif_data
            then lift (is_image_or_video exif_data) else ret false) ;;
  if media : bool then
    date <- lift (get_date source_file (default ∅ exif_data) date_regex false) ;;
    output_dir <- get_output_dir date outputdir dir_format ;;
    ret (output_dir, lower (get_file_name source_file date))
  else
    output_dir <- get_output_dir None outputdir dir_format ;;
    ret (output_dir, basename source_file).

(** The candidate path the loop looks at when its counter is
    [suffix]: the planned path itself on the first turn. *)
Definition candidate (target_file_path : string) (suffix : nat) : string :=
  if (suffix <=? 1)%nat then target_file_path
  else suffixed target_file_path suffix.

(** Lines 299-323.  Every turn of the loop but the last finds one
    more file of the tree, so one turn more than there are files is
    enough. *)
Definition place_file (source_file target_file_path target_file_name
    output_dir : string) (move_files : bool) : M status := fun fs =>
  place (S (size (files fs))) source_file target_file_path
    target_file_name output_dir move_files 1 target_file_path fs.

(** Lines 279-323. *)
Definition handle_file (source_file outputdir dir_format : string)
  (move_files : bool) (date_regex : option regex) : M status :=
  if endswith source_file ".xmp" then ret other
  else
    p <- plan source_file outputdir dir_format date_regex ;;
    let target_file_path := PyStr.join OsPath.sep [fst p; snd p] in
    place_file source_file target_file_path (snd p) (fst p) move_files.

(** Lines 333-344: the directory and the name in digest-rename mode;
    the name of a picture or video is the digest of its content
    followed by its extension. *)
Definition plan2 (source_file outputdir dir_format : string)
  (date_regex : option regex) : M (string * string) :=
  exif_data <- exif source_file ;;
  let target_file_name := basename source_file in
  source_sha256 <- sha256_checksum source_file ;;
  media <- lift (is_image_or_video exif_data) ;;
  if media : bool then
    date <- lift (get_date source_file (default ∅ exif_data) date_regex true) ;;
    output_dir <- get_output_dir date outputdir dir_format ;;
    let ext := snd (splitext target_file_name) in
    ret (output_dir, source_sha256 +:+ ext)
  else
    output_dir <- get_output_dir None outputdir dir_format ;;
    ret (output_dir, target_file_name).

(** Lines 325-360. *)
Definition handle_file2 (source_file outputdir dir_format : string)
  (move_files : bool) (date_regex : option regex) : M status :=
  p <- plan2 source_file outputdir dir_format date_regex ;;
  let target_file := PyStr.join OsPath.sep [fst p; snd p] in
  fun fs =>
    if isfile target_file fs then (fs, Ok duplicate)
    else copy_or_move move_files source_file target_file fs.

(** Lines 93-110, one turn of the loop of [main] over the files of
    [root]: the count of the outcome goes up by one, an exception
    counts as [error], an ignored name counts as nothing. *)
Definition incr (count : status -> nat) (st : status) : status -> nat :=
  fun k => if decide (k = st) then S (count k) else count k.

Definition main_step (sha_rename : bool) (root filename outputdir dir_format : string)
  (move_files : bool) (date_regex : option regex) (count : status -> nat)
  : M (status -> nat) := fun fs =>
  if bool_decide (filename ∈ ignored_files) then (fs, Ok count)
  else
    let handler := if sha_rename then handle_file2 else handle_file in
    match handler (OsPath.join root filename) outputdir dir_format
            move_files date_regex fs with
    | (fs', Ok st) => (fs', Ok (incr count st))
    | (fs', Raise _) => (fs', Ok (incr count error))
    | (fs', SysExit) => (fs', SysExit)
    | (fs', OutOfFuel) => (fs', OutOfFuel)
    end.

(** Lines 92-110: the loop over the [files] that [os.walk] lists for
    one directory [root]. *)
Fixpoint main_files (sha_rename : bool) (root : string) (files : list string)
    (outputdir dir_format : string) (move_files : bool)
    (date_regex : option regex) (count : status -> nat) : M (status -> nat) :=
  match files with
  | [] => ret count
  | filename :: files' =>
      count' <- main_step sha_rename root filename outputdir dir_format
                  move_files date_regex count ;;
      main_files sha_rename root files' outputdir dir_format move_files
        date_regex count'
  end.

End Phockup.

(** ** The summary *)

(** Line 87: the keys of [count] in the order of the dictionary. *)
Definition statuses : list status := [copied; moved; duplicate; error; other].

Definition status_name (st : status) : string :=
  match st with
  | copied => "copied"
  | moved => "moved"
  | duplicate => "duplicate"
  | error => "error"
  | other => "other"
  end.

Definition zero_count : status -> nat := fun _ => O.

(** How [print_summary] ends: it returns, or the division of line 123
    raises. *)
Inductive summary_end : Type := Returned | ZeroDivisionError.

Section Summary.
Import PyStr.

(** ['%.0f' % (a / b)] for integers [a] and [b <> 0]: the quotient as
    a float, rounded to an integer by the C library. *)
Variable format_quotient : nat -> nat -> string.

Definition summary_line (key value percent : string) : string :=
  key +:+ ":" +:+ TAB +:+ value +:+ TAB +:+ percent +:+ "%".

(** Lines 118-124: the lines written to the standard output and the
    way the call ends. *)
Definition print_summary (summary : status -> nat) : list string * summary_end :=
  let total := sum_list (summary <$> statuses) in
  let head := summary_line "total" (pretty total) "100" in
  if (total =? 0)%nat then ([head], ZeroDivisionError)
  else
    (head :: ((fun key =>
                 summary_line (status_name key) (pretty (summary key))
                   (format_quotient (100 * summary key) total)) <$> statuses),
     Returned).

End Summary.

(** ** A sample world

    Concrete collaborators and trees on which the theorems are tried:
    the digest of a content spells its characters in hexadecimal (no
    two contents collide), [exiftool] prints the content of the file
    it is given or knows no file at all, [strftime] knows the
    directives of the default template, and texts are lower-cased as
    ASCII texts are. *)

Module Sample.
Import PyStr OsPath Re Calendar Os.

Definition hex_digit (n : nat) : ascii :=
  List.nth n (list_ascii_of_string "0123456789abcdef") "0"%char.

Fixpoint hex_digest (c : string) : string :=
  match c with
  | EmptyString => EmptyString
  | String a c' =>
      String (hex_digit (nat_of_ascii a / 16))
        (String (hex_digit (nat_of_ascii a mod 16)) (hex_digest c'))
  end.

(** Lower-casing of the letters [A] to [Z], which is what [str.lower]
    does on a text of ASCII characters. *)
Definition is_upper (c : ascii) : bool :=
  let n := nat_of_ascii c in (65 <=? n)%nat && (n <=? 90)%nat.

Definition lower_char (c : ascii) : ascii :=
  if is_upper c then ascii_of_nat (nat_of_ascii c + 32) else c.

Fixpoint ascii_lower (s : string) : string :=
  match s with
  | EmptyString => EmptyString
  | String c s' => String (lower_char c) (ascii_lower s')
  end.

Definition no_metadata (fs : FS) (p : string) : option string := None.

Definition printed_metadata (fs : FS) (p : string) : option string :=
  files fs !! p.

Fixpoint ymd_format (d : datetime) (f : string) : string :=
  match f with
  | String "%" (String "Y" f') => pad0 4 (year d) +:+ ymd_format d f'
  | String "%" (String "m" f') => pad0 2 (month d) +:+ ymd_format d f'
  | String "%" (String "d" f') => pad0 2 (day d) +:+ ymd_format d f'
  | String c f' => String c (ymd_format d f')
  | EmptyString => EmptyString
  end.
Definition ymd (d : datetime) (f : string) : option string :=
  Some (ymd_format d f).

(** The quotient of two numbers rounded to the nearest integer, a tie
    to the even one. *)
Definition rounded_quotient (a b : nat) : string :=
  let q := (a / b)%nat in
  let r := (a mod b)%nat in
  pretty (if (2 * r <? b)%nat then q
          else if (b <? 2 * r)%nat then S q
          else if Nat.even q then q else S q).

Definition run_handle_file := handle_file hex_digest printed_metadata ymd ascii_lower.
Definition run_handle_file2 := handle_file2 hex_digest printed_metadata ymd.

(** What [exiftool] prints for two pictures, a text file and a
    file it knows nothing about. *)
Definition picture_may : string :=
  "MIME Type : image/jpeg" +:+ NL +:+ "Create Date : 2021:05:04 10:11:12".
Definition picture_undated : string := "MIME Type : image/jpeg".
Definition plain_text : string := "MIME Type : text/plain".
Definition no_mime : string := "File Size : 12 kB".

Definition tree (l : list (string * string)) (ds : list string) : FS :=
  mkFS (list_to_map l) (list_to_set ds).

(** A sidecar on its own. *)
Definition tree_sidecar : FS := tree [("in/a.xmp", "x")] ["in"; "out"].

(** A file whose metadata has no MIME type. *)
Definition tree_no_mime : FS := tree [("in/a.bin", no_mime)] ["in"; "out"].

(** A picture without any date, its name in upper case. *)
Definition tree_undated : FS :=
  tree [("in/IMG.JPG", picture_undated)] ["in"; "out"].

(** A picture taken in May that was organized before. *)
Definition tree_placed : FS :=
  tree [("in/a.jpg", picture_may);
        ("out/2021/05/04/20210504-101112.jpg", picture_may)]
       ["in"; "out"; "out/2021"; "out/2021/05"; "out/2021/05/04"].

(** A picture, and in the [unknown] bucket a file with other content
    under the name the digest of the picture gives. *)
Definition tree_foreign : FS :=
  tree [("in/a.jpg", picture_undated);
        ("out/unknown/" +:+ hex_digest picture_undated +:+ ".jpg", plain_text)]
       ["in"; "out"; "out/unknown"].

(** Four files called [photo.jpg], the third with the content of the
    first, the second with a sidecar. *)
Definition tree_photos : FS :=
  tree [("a/photo.jpg", "first"); ("b/photo.jpg", "second");
        ("b/photo.jpg.xmp", "notes"); ("c/photo.jpg", "first");
        ("d/photo.jpg", "third")]
       ["a"; "b"; "c"; "d"; "out"; "out/unknown"].

End Sample.

(** ** Vocabulary of the statements *)

(** Every character of [s] is in the class [p]. *)
Fixpoint all_of (p : ascii -> bool) (s : string) : bool :=
  match s with
  | EmptyString => true
  | String c s' => p c && all_of p s'
  end.

(** The last character of a text. *)
Fixpoint last_char (s : string) : option ascii :=
  match s with
  | EmptyString => None
  | String c EmptyString => Some c
  | String _ s' => last_char s'
  end.

(** [fs'] differs from [fs] at most in files whose path ends in
    [.xmp]. *)
Definition xmp_frame (fs fs' : FS) : Prop :=
  dirs fs' = dirs fs
  /\ forall p, PyStr.endswith p ".xmp" = false -> files fs' !! p = files fs !! p.


Section Sequences.
Variable sha256 : string -> string.




End Sequences.


(** [s] consists of [n] decimal digits. *)
Definition digits (n : nat) (s : string) : Prop :=
  String.length s = n /\ all_of PyStr.is_digit s = true.

(** The number a text of decimal digits denotes. *)
Fixpoint decimal_from (acc : Z) (s : string) : Z :=
  match s with
  | EmptyString => acc
  | String c s' => decimal_from (10 * acc + PyStr.digit_val c) s'
  end.
Definition decimal (s : string) : Z := decimal_from 0 s.




Definition found (g : Re.groups) (s : string) : option (Re.groups * string) :=
  Some (g, s).


(** The paths of all files and directories of a tree. *)
Definition paths (fs : FS) : list string :=
  ((map_to_list (files fs)).*1 ++ elements (dirs fs))%list.

(** The number of files counted so far: the sum of the values of
    [count]. *)
Definition processed (count : status -> nat) : nat :=
  sum_list (count <$> statuses).

(** The names of a listing that the loop of [main] does not skip. *)
Definition handled (files : list string) : list string :=
  List.filter (fun filename => negb (bool_decide (filename ∈ ignored_files))) files.

(** [s] has the shape of [pat], a dot of [pat] standing for any one
    character. *)
Fixpoint like (pat s : string) : bool :=
  match pat, s with
  | EmptyString, EmptyString => true
  | String p pat', String c s' =>
      (Ascii.eqb p "." || Ascii.eqb p c) && like pat' s'
  | _, _ => false
  end.

(** The MIME types of pictures and videos: [image/] or [video/]
    followed by at least one character, or the type of Photoshop
    files, whose dots the pattern of line 273 leaves open. *)
Definition media_type (v : string) : bool :=
  (PyStr.startswith v "image/" && (6 <? String.length v)%nat)
  || (PyStr.startswith v "video/" && (6 <? String.length v)%nat)
  || like "application/vnd.adobe.photoshop" v.


(** A date-time as [exiftool] prints it: [c] separates year, month
    and day. *)
Definition timestamp (c : ascii) (Y Mo D H Mi S : string) : string :=
  Y +:+ String c (Mo +:+ String c (D +:+ String " " (H +:+ String ":"
    (Mi +:+ String ":" S)))).

(** [s] starts with a UTC offset: a sign, two digits, a colon and two
    digits; [s] is such an offset; no offset starts anywhere in [s]. *)
Definition is_sign (c : ascii) : bool := Ascii.eqb c "+" || Ascii.eqb c "-".

Definition starts_offset (s : string) : bool :=
  match s with
  | String a (String b (String c (String d (String e (String f _))))) =>
      is_sign a && PyStr.is_digit b && PyStr.is_digit c && Ascii.eqb d ":"
      && PyStr.is_digit e && PyStr.is_digit f
  | _ => false
  end.

Definition utc_offset (s : string) : bool :=
  starts_offset s && (String.length s =? 6)%nat.

Fixpoint no_offset (s : string) : bool :=
  negb (starts_offset s) &&
  match s with
  | EmptyString => true
  | String _ s' => no_offset s'
  end.

(** The characters of a date-time and of an offset. *)
Definition stamp_char (c : ascii) : bool :=
  PyStr.is_digit c || is_sign c || Ascii.eqb c ":" || Ascii.eqb c " ".

(** ** Facts about texts and paths *)

Module StrFacts.
Import PyStr OsPath.

Lemma str_app_cons c s t : String c s +:+ t = String c (s +:+ t).
Proof. reflexivity. Qed.

Lemma str_app_nil_r s : s +:+ "" = s.
Proof. induction s as [|c s IH]; [done|]. by rewrite str_app_cons, IH. Qed.

Lemma str_app_assoc s t u : (s +:+ t) +:+ u = s +:+ (t +:+ u).
Proof. induction s as [|c s IH]; [done|]. by rewrite !str_app_cons, IH. Qed.

Lemma str_length_app s t :
  String.length (s +:+ t) = (String.length s + String.length t)%nat.
Proof. induction s as [|c s IH]; [done|]. rewrite str_app_cons. simpl. by rewrite IH. Qed.

Lemma str_app_inv_tail s1 s2 t : s1 +:+ t = s2 +:+ t -> s1 = s2.
Proof.
  revert s2. induction s1 as [|c s1 IH]; intros [|d s2] H.
  - done.
  - apply (f_equal String.length) in H.
    rewrite !str_length_app in H. simpl in H. lia.
  - apply (f_equal String.length) in H.
    rewrite !str_length_app in H. simpl in H. lia.
  - rewrite !str_app_cons in H. injection H as -> H. f_equal. by apply IH.
Qed.

Lemma endswith_cons c s suf :
  endswith (String c s) suf = String.eqb (String c s) suf || endswith s suf.
Proof. reflexivity. Qed.

Lemma endswith_refl s : endswith s s = true.
Proof. destruct s; [done|]. by rewrite endswith_cons, String.eqb_refl. Qed.

Lemma endswith_app a b : endswith (a +:+ b) b = true.
Proof.
  induction a as [|c a IH]; [apply endswith_refl|].
  rewrite str_app_cons, endswith_cons, IH. apply orb_true_r.
Qed.

Lemma endswith_inv s suf : endswith s suf = true -> exists a, s = a +:+ suf.
Proof.
  induction s as [|c s IH]; intros H.
  - destruct suf; [by exists ""|done].
  - rewrite endswith_cons in H. apply orb_true_iff in H as [H|H].
    + apply String.eqb_eq in H as <-. by exists "".
    + destruct (IH H) as [a ->]. by exists (String c a).
Qed.

(** No path with the sidecar extension is a path without it. *)
Lemma endswith_neq p q suf :
  endswith p suf = true -> endswith q suf = false -> p <> q.
Proof. intros Hp Hq ->. congruence. Qed.

Lemma rpartition_app ch s b a :
  rpartition ch s = Some (b, a) -> s = b +:+ String ch a.
Proof.
  revert b a. induction s as [|c s IH]; intros b a H; simpl in H; [done|].
  destruct (rpartition ch s) as [[b' a']|] eqn:E.
  - injection H as <- <-. rewrite str_app_cons. f_equal. by apply IH.
  - destruct (Ascii.eqb_spec c ch) as [->|]; [|done].
    by injection H as <- <-.
Qed.

Lemma splitext_app p : fst (splitext p) +:+ snd (splitext p) = p.
Proof.
  unfold splitext.
  destruct (rpartition "/" p) as [[b a]|] eqn:E.
  - apply rpartition_app in E.
    destruct (rpartition "." a) as [[b' a']|] eqn:E'; simpl;
      [|by rewrite str_app_nil_r].
    apply rpartition_app in E'.
    destruct (all_dots b'); simpl; [by rewrite str_app_nil_r|].
    subst. by rewrite !str_app_assoc.
  - destruct (rpartition "." p) as [[b' a']|] eqn:E'; simpl;
      [|by rewrite str_app_nil_r].
    apply rpartition_app in E'.
    destruct (all_dots b'); simpl; [by rewrite str_app_nil_r|].
    by subst.
Qed.

Lemma str_app_nonempty_length s t :
  s <> "" -> (String.length t < String.length (s +:+ t))%nat.
Proof. intros H. rewrite str_length_app. destruct s; [done|]. simpl. lia. Qed.

Lemma endswith_app_r a b suf :
  endswith b suf = true -> endswith (a +:+ b) suf = true.
Proof.
  intros [x ->]%endswith_inv. rewrite <- str_app_assoc. apply endswith_app.
Qed.

Lemma contains_app ch a b : contains ch (a +:+ b) = contains ch a || contains ch b.
Proof.
  induction a as [|c a IH]; [done|].
  rewrite str_app_cons. simpl. by rewrite IH, orb_assoc.
Qed.

Lemma rpartition_none ch s : contains ch s = false -> rpartition ch s = None.
Proof.
  induction s as [|c s IH]; [done|]. simpl.
  intros [H1 H2]%orb_false_iff. by rewrite IH, H1.
Qed.

Lemma rpartition_app_r ch a b :
  contains ch b = false ->
  rpartition ch (a +:+ b) =
    match rpartition ch a with
    | Some (x, y) => Some (x, y +:+ b)
    | None => None
    end.
Proof.
  intros Hb. induction a as [|c a IH]; [by apply rpartition_none|].
  rewrite str_app_cons. simpl. rewrite IH.
  destruct (rpartition ch a) as [[x y]|]; [done|].
  by destruct (Ascii.eqb c ch).
Qed.

Lemma basename_app_r a b :
  contains "/" b = false -> basename (a +:+ b) = basename a +:+ b.
Proof.
  intros Hb. unfold basename. rewrite rpartition_app_r by done.
  by destruct (rpartition "/" a) as [[x y]|].
Qed.

Lemma rstrip_char_app ch a b :
  rstrip_char ch b <> "" -> rstrip_char ch (a +:+ b) = a +:+ rstrip_char ch b.
Proof.
  intros Hb. induction a as [|c a IH]; [done|].
  rewrite !str_app_cons. simpl. rewrite IH.
  destruct (a +:+ rstrip_char ch b) eqn:E; [|done].
  destruct a; [|done]. by destruct Hb.
Qed.

Lemma endswith_join a b suf :
  endswith b suf = true -> endswith (OsPath.join a b) suf = true.
Proof.
  intros H. unfold OsPath.join.
  destruct (startswith b "/"); [done|].
  destruct (_ || _); [by apply endswith_app_r|].
  by apply endswith_app_r, endswith_app_r.
Qed.

(** Two ways to cut one text. *)
Lemma app_eq_app x y a b :
  x +:+ y = a +:+ b ->
  (exists z, y = z +:+ b /\ a = x +:+ z) \/ (exists z, b = z +:+ y /\ x = a +:+ z).
Proof.
  revert a. induction x as [|c x IH]; intros a H.
  - left. exists a. split; [exact H|reflexivity].
  - destruct a as [|d a].
    + right. exists (String c x). split; [symmetry; exact H|reflexivity].
    + rewrite !str_app_cons in H. injection H as <- H.
      destruct (IH _ H) as [(z & -> & ->)|(z & -> & ->)]; [left|right]; by exists z.
Qed.

Lemma all_of_app p a b : all_of p (a +:+ b) = all_of p a && all_of p b.
Proof.
  induction a as [|c a IH]; [done|].
  rewrite str_app_cons. simpl. by rewrite IH, andb_assoc.
Qed.

Lemma all_of_contains p ch s :
  all_of p s = true -> p ch = false -> contains ch s = false.
Proof.
  intros Ha Hp. induction s as [|c s IH]; [done|]. simpl in *.
  apply andb_true_iff in Ha as [Hc Hs]. rewrite IH by done.
  destruct (Ascii.eqb_spec c ch) as [->|]; [congruence|done].
Qed.

Lemma last_char_app a b : b <> "" -> last_char (a +:+ b) = last_char b.
Proof.
  intros Hb. induction a as [|c a IH]; [done|].
  rewrite str_app_cons. simpl. rewrite IH.
  destruct (a +:+ b) eqn:E; [|done]. destruct a, b; done.
Qed.

Lemma last_char_all_of p s c :
  all_of p s = true -> last_char s = Some c -> p c = true.
Proof.
  induction s as [|d s IH]; [done|]. simpl.
  intros [Hd Hs]%andb_true_iff. destruct s; [by intros [= <-]|by apply IH].
Qed.

(** *** Decimal numerals *)

Lemma pretty_N_char_digit x : is_digit (pretty_N_char x) = true.
Proof. unfold pretty_N_char. by repeat case_match. Qed.

Lemma pretty_N_go_digits x s :
  all_of is_digit s = true -> all_of is_digit (pretty_N_go x s) = true.
Proof.
  revert s. induction (N.lt_wf_0 x) as [x _ IH]; intros s Hs.
  assert (x = 0 \/ 0 < x)%N as [->|?] by lia; [by rewrite pretty_N_go_0|].
  rewrite pretty_N_go_step by done. apply IH; [by apply N.div_lt|].
  simpl. by rewrite pretty_N_char_digit.
Qed.

Lemma pretty_N_go_nonempty x s : s <> "" -> pretty_N_go x s <> "".
Proof.
  revert s. induction (N.lt_wf_0 x) as [x _ IH]; intros s Hs.
  assert (x = 0 \/ 0 < x)%N as [->|?] by lia; [by rewrite pretty_N_go_0|].
  rewrite pretty_N_go_step by done. apply IH; [by apply N.div_lt|done].
Qed.

Lemma pretty_nat_digits (k : nat) : all_of is_digit (pretty k) = true.
Proof.
  unfold pretty, pretty_nat, pretty, pretty_N.
  case_decide; [done|]. by apply pretty_N_go_digits.
Qed.

Lemma pretty_nat_nonempty (k : nat) : pretty k <> "".
Proof.
  unfold pretty, pretty_nat, pretty, pretty_N.
  case_decide as H; [done|].
  rewrite pretty_N_go_step by lia. by apply pretty_N_go_nonempty.
Qed.

(** *** The extension [splitext] cuts off *)

Lemma rpartition_after ch s b a :
  rpartition ch s = Some (b, a) -> contains ch a = false.
Proof.
  revert b. induction s as [|c s IH]; intros b H; simpl in H; [done|].
  destruct (rpartition ch s) as [[b' a']|] eqn:E.
  - injection H as <- <-. by eapply IH.
  - destruct (Ascii.eqb c ch); [|done]. injection H as <- <-.
    clear IH. induction s as [|d s IH]; [done|]. simpl in *.
    destruct (rpartition ch s) as [[??]|]; [done|].
    destruct (Ascii.eqb d ch); [done|]. by rewrite IH.
Qed.

Lemma rpartition_none_inv ch s : rpartition ch s = None -> contains ch s = false.
Proof.
  induction s as [|c s IH]; [done|]. simpl.
  destruct (rpartition ch s) as [[??]|]; [done|].
  destruct (Ascii.eqb c ch); [done|]. intros _. by rewrite IH.
Qed.

(** The extension is empty or a dot followed by a text without dot,
    and it holds no separator. *)
Lemma splitext_ext p :
  contains "/" (snd (splitext p)) = false
  /\ (snd (splitext p) = ""
      \/ exists a, snd (splitext p) = String "." a /\ contains "." a = false).
Proof.
  unfold splitext.
  assert (forall name d, contains "/" name = false ->
            let r := match rpartition "." name with
                     | Some (b, a) =>
                         if all_dots b then (p, "") else (d +:+ b, "." +:+ a)
                     | None => (p, "")
                     end in
            contains "/" (snd r) = false
            /\ (snd r = "" \/ exists a, snd r = String "." a
                                        /\ contains "." a = false)) as H.
  { intros name d Hn. destruct (rpartition "." name) as [[b a]|] eqn:E; simpl;
      [|by auto].
    destruct (all_dots b); simpl; [by auto|].
    pose proof (rpartition_after _ _ _ _ E) as Ha.
    apply rpartition_app in E. subst name.
    rewrite contains_app in Hn. apply orb_false_iff in Hn as [_ Hn].
    simpl in Hn. split; [done|]. right. by exists a. }
  destruct (rpartition "/" p) as [[b a]|] eqn:E.
  - apply H. by eapply rpartition_after.
  - apply H. by apply rpartition_none_inv.
Qed.



(** When [tp] has not the sidecar extension none of its candidates
    has. *)
Lemma candidate_not_xmp tp k :
  endswith tp ".xmp" = false -> endswith (candidate tp k) ".xmp" = false.
Proof.
  intros Ht. unfold candidate. destruct (k <=? 1)%nat; [done|]. unfold suffixed.
  apply not_true_is_false. intros E.
  destruct (splitext_ext tp) as [_ [He|(a & He & Ha)]].
  - rewrite He, str_app_nil_r in E.
    apply endswith_inv in E as [x E].
    apply (f_equal last_char) in E.
    rewrite <- !str_app_assoc in E.
    rewrite !last_char_app in E by (done || apply pretty_nat_nonempty).
    simpl in E.
    by pose proof (last_char_all_of _ _ _ (pretty_nat_digits k) E).
  - apply endswith_inv in E as [x E].
    rewrite <- !str_app_assoc in E.
    apply app_eq_app in E as [(z & Hz & _)|(z & Hz & _)].
    + rewrite <- (splitext_app tp), Hz in Ht.
      by rewrite endswith_app_r in Ht by apply endswith_app.
    + rewrite He in Hz. destruct z as [|c z].
      * injection Hz as <-. rewrite <- (splitext_app tp), He in Ht.
        by rewrite endswith_app in Ht.
      * rewrite str_app_cons in Hz. injection Hz as _ Hz.
        apply (f_equal (contains ".")) in Hz.
        rewrite contains_app in Hz. simpl in Hz.
        by rewrite orb_true_r in Hz.
Qed.

(** ** The candidate paths of one planned path are all different *)

Lemma suffixed_inj tp j k : suffixed tp j = suffixed tp k -> j = k.
Proof.
  unfold suffixed. intros H.
  apply (inj (String.app _)) in H. apply (inj (String.app _)) in H.
  apply str_app_inv_tail in H. by apply (inj pretty) in H.
Qed.

Lemma suffixed_neq tp k : suffixed tp k <> tp.
Proof.
  unfold suffixed. intros H.
  pose proof (splitext_app tp) as E.
  destruct (splitext tp) as [a b]. simpl in *.
  rewrite <- E in H. apply (f_equal String.length) in H.
  rewrite !str_length_app in H. simpl in H. lia.
Qed.

Lemma candidate_inj tp j k :
  (1 <= j)%nat -> (1 <= k)%nat -> candidate tp j = candidate tp k -> j = k.
Proof.
  unfold candidate. intros Hj Hk.
  destruct (Nat.leb_spec j 1), (Nat.leb_spec k 1); intros E.
  - lia.
  - symmetry in E. by apply suffixed_neq in E.
  - by apply suffixed_neq in E.
  - by apply suffixed_inj in E.
Qed.

Lemma startswith_app a b : startswith (a +:+ b) a = true.
Proof.
  induction a as [|c a IH]; [by destruct b|].
  rewrite str_app_cons. simpl. by rewrite Ascii.eqb_refl, IH.
Qed.

(** Every candidate starts with the planned path less its
    extension. *)
Lemma candidate_startswith tp k :
  startswith (candidate tp k) (fst (splitext tp)) = true.
Proof.
  unfold candidate. destruct (k <=? 1)%nat; [|apply startswith_app].
  rewrite <- (splitext_app tp) at 1. apply startswith_app.
Qed.

Lemma candidate_1 tp : candidate tp 1 = tp.
Proof. reflexivity. Qed.

End StrFacts.

(** ** Facts about the calls that change the tree *)

Module OsFacts.
Import PyStr OsPath Os StrFacts.

Lemma isfile_true p fs : isfile p fs = true <-> is_Some (files fs !! p).
Proof. unfold isfile. by rewrite bool_decide_eq_true. Qed.

Lemma isfile_false p fs : isfile p fs = false <-> files fs !! p = None.
Proof.
  unfold isfile. rewrite bool_decide_eq_false. by rewrite <- eq_None_not_Some.
Qed.

Lemma isfile_lookup p fs c : files fs !! p = Some c -> isfile p fs = true.
Proof. intros H. apply isfile_true. by exists c. Qed.

Lemma write_file_spec dst c fs :
  (write_file dst c fs = (fs, Raise OSError))
  \/ (write_file dst c fs = (mkFS (<[dst := c]> (files fs)) (dirs fs), Ok tt)
      /\ isdir dst fs = false /\ parent_exists dst fs = true).
Proof.
  unfold write_file.
  destruct (isdir dst fs); simpl; [by left|].
  destruct (parent_exists dst fs); simpl; [by right|by left].
Qed.

Lemma copy2_spec src dst fs :
  (exists e, copy2 src dst fs = (fs, Raise e))
  \/ (exists c, files fs !! src = Some c
        /\ src <> copy_dst src dst fs
        /\ isdir (copy_dst src dst fs) fs = false
        /\ parent_exists (copy_dst src dst fs) fs = true
        /\ copy2 src dst fs =
             (mkFS (<[copy_dst src dst fs := c]> (files fs)) (dirs fs), Ok tt)).
Proof.
  unfold copy2.
  destruct (files fs !! src) as [c|] eqn:E; [|left; eauto].
  destruct (String.eqb_spec src (copy_dst src dst fs)) as [Heq|Hne]; [left; eauto|].
  destruct (write_file_spec (copy_dst src dst fs) c fs) as [->|(-> & ? & ?)];
    [left; eauto|right]. exists c. done.
Qed.

Lemma rename_spec src dst fs :
  (exists e, rename src dst fs = (fs, Raise e))
  \/ (exists c, files fs !! src = Some c
        /\ isdir dst fs = false /\ parent_exists dst fs = true
        /\ rename src dst fs =
             (mkFS (<[dst := c]> (delete src (files fs))) (dirs fs), Ok tt)).
Proof.
  unfold rename.
  destruct (files fs !! src) as [c|] eqn:E; [|left; eauto].
  destruct (isdir dst fs); simpl; [left; eauto|].
  destruct (parent_exists dst fs); simpl; [right|left; eauto].
  exists c. done.
Qed.

Lemma move_spec src dst fs :
  (exists e, move src dst fs = (fs, Raise e))
  \/ (exists c, files fs !! src = Some c
        /\ isdir (move_dst src dst fs) fs = false
        /\ parent_exists (move_dst src dst fs) fs = true
        /\ (isdir dst fs = true -> files fs !! move_dst src dst fs = None)
        /\ move src dst fs =
             (mkFS (<[move_dst src dst fs := c]> (delete src (files fs))) (dirs fs),
              Ok tt)).
Proof.
  unfold move.
  destruct (isdir dst fs) eqn:Ed; simpl.
  - destruct (exists_ _ fs) eqn:Ex; [left; eauto|].
    apply orb_false_iff in Ex as [Ef _]. apply isfile_false in Ef.
    destruct (rename_spec src (move_dst src dst fs) fs)
      as [?|(c & ? & ? & ? & ?)]; [by left|right].
    exists c. done.
  - destruct (rename_spec src (move_dst src dst fs) fs)
      as [?|(c & ? & ? & ? & ?)]; [by left|right].
    exists c. done.
Qed.

(** A path with a prefix that no path of the tree has is free. *)
Lemma not_exists_by_prefix fs stem p :
  List.forallb (fun q => negb (startswith q stem)) (paths fs) = true ->
  startswith p stem = true -> exists_ p fs = false.
Proof.
  intros Hall Hp. rewrite List.forallb_forall in Hall.
  assert (p ∈ paths fs -> False) as Hn.
  { intros Hin. apply list_elem_of_In in Hin. apply Hall in Hin.
    by rewrite Hp in Hin. }
  unfold exists_, isfile, isdir, paths in *.
  apply orb_false_iff. split; apply bool_decide_eq_false; intros H; apply Hn.
  - destruct H as [c Hc]. apply elem_of_app. left.
    apply list_elem_of_fmap. exists (p, c). split; [done|].
    by apply elem_of_map_to_list.
  - apply elem_of_app. right. by apply elem_of_elements.
Qed.

End OsFacts.

(** ** Facts about the functions of the script *)

Section ScriptFacts.
Import PyStr OsPath Re Calendar Os StrFacts OsFacts.

Variable sha256 : string -> string.
Variable exiftool : FS -> string -> option string.
Variable strftime : datetime -> string -> option string.
Variable lower : string -> string.

Lemma exif_state file fs : fst (exif exiftool file fs) = fs.
Proof. unfold exif. by destruct (exiftool fs file). Qed.

Lemma fold_insert_nonempty (f : string -> string * string) (l : list string)
    (m : gmap string string) :
  l <> [] \/ m <> ∅ ->
  List.fold_left (fun d row => <[fst (f row) := snd (f row)]> d) l m <> ∅.
Proof.
  revert m. induction l as [|x l IH]; intros m H; simpl.
  - by destruct H.
  - apply IH. right. apply insert_non_empty.
Qed.

(** [exif] never returns an empty dictionary: [split] yields at least
    one row. *)
Lemma exif_nonempty file fs d :
  snd (exif exiftool file fs) = Ok (Some d) -> d <> ∅.
Proof.
  unfold exif. destruct (exiftool fs file) as [out|]; [|done]. simpl.
  intros [= <-].
  apply (fold_insert_nonempty
           (fun row => (strip (List.hd "" (split row ":")),
                        strip (PyStr.join ":" (List.tl (split row ":")))))).
  left. unfold split. by destruct (split_go _ _ _).
Qed.

Lemma get_output_dir_files date outputdir dir_format fs :
  files (fst (get_output_dir strftime date outputdir dir_format fs)) = files fs.
Proof.
  unfold get_output_dir.
  destruct (isdir _ fs); [done|].
  unfold makedirs. by destruct (_ || _).
Qed.

Lemma bind_files {A B : Type} (m : M A) (k : A -> M B) :
  (forall fs0, files (fst (m fs0)) = files fs0) ->
  (forall a fs0, files (fst (k a fs0)) = files fs0) ->
  forall fs, files (fst (bind m k fs)) = files fs.
Proof.
  intros Hm Hk fs. unfold bind. specialize (Hm fs).
  destruct (m fs) as [fs1 [a|e| |]]; simpl in *; [|done..].
  by rewrite Hk.
Qed.

Lemma plan_files source_file outputdir dir_format date_regex fs :
  files (fst (plan exiftool strftime lower source_file outputdir dir_format date_regex fs))
  = files fs.
Proof.
  unfold plan. revert fs.
  apply bind_files; [intros; by rewrite exif_state|]. intros exif_data.
  apply bind_files; [intros; by destruct (truthy exif_data)|]. intros [|].
  - apply bind_files; [done|]. intros date.
    apply bind_files; [apply get_output_dir_files|done].
  - apply bind_files; [apply get_output_dir_files|done].
Qed.

(** *** The sidecar only touches paths that end in [.xmp] *)

Lemma copy_dst_xmp orig path fs :
  endswith orig ".xmp" = true -> endswith path ".xmp" = true ->
  endswith (copy_dst orig path fs) ".xmp" = true.
Proof.
  intros [a ->]%endswith_inv Hp. unfold copy_dst.
  destruct (isdir path fs); [|done].
  apply endswith_join. rewrite basename_app_r by done. apply endswith_app.
Qed.

Lemma move_dst_xmp orig path fs :
  endswith orig ".xmp" = true -> endswith path ".xmp" = true ->
  endswith (move_dst orig path fs) ".xmp" = true.
Proof.
  intros [a ->]%endswith_inv Hp. unfold move_dst.
  destruct (isdir path fs); [|done].
  apply endswith_join. rewrite rstrip_char_app by done.
  change (rstrip_char "/" ".xmp") with ".xmp".
  rewrite basename_app_r by done. apply endswith_app.
Qed.

Lemma xmp_frame_refl fs : xmp_frame fs fs.
Proof. by split. Qed.

Lemma copy_or_move_xmp (move_files : bool) orig path fs :
  endswith orig ".xmp" = true -> endswith path ".xmp" = true ->
  xmp_frame fs (fst (if move_files then move orig path fs else copy2 orig path fs)).
Proof.
  intros Ho Hp. destruct move_files.
  - destruct (move_spec orig path fs) as [[e ->]|(c & _ & _ & _ & _ & ->)];
      [apply xmp_frame_refl|].
    split; [done|]. intros p Hn. simpl.
    rewrite lookup_insert_ne, lookup_delete_ne; [done|..].
    + eapply endswith_neq; eauto.
    + eapply endswith_neq; [|eauto]. by apply move_dst_xmp.
  - destruct (copy2_spec orig path fs) as [[e ->]|(c & _ & _ & _ & _ & ->)];
      [apply xmp_frame_refl|].
    split; [done|]. intros p Hn. simpl.
    rewrite lookup_insert_ne; [done|].
    eapply endswith_neq; [|eauto]. by apply copy_dst_xmp.
Qed.

Lemma handle_file_xmp_frame source_file photo_name suffix dir move_files fs :
  xmp_frame fs
    (fst (handle_file_xmp source_file photo_name suffix dir move_files fs)).
Proof.
  unfold handle_file_xmp.
  destruct (isfile (source_file +:+ ".xmp") fs).
  { apply copy_or_move_xmp; [apply endswith_app|]. simpl.
    rewrite <- !str_app_assoc. apply endswith_app. }
  destruct (isfile (fst (splitext source_file) +:+ ".xmp") fs);
    [|apply xmp_frame_refl].
  apply copy_or_move_xmp; [apply endswith_app|]. simpl.
  rewrite <- !str_app_assoc. apply endswith_app.
Qed.

(** *** The loop of [handle_file] *)

Lemma sha256_checksum_lookup p fs c :
  files fs !! p = Some c -> sha256_checksum sha256 p fs = (fs, Ok (sha256 c)).
Proof. unfold sha256_checksum. by intros ->. Qed.

(** A turn that finds another file at the candidate goes on with the
    next suffix. *)
Lemma place_next n src tp name dir mv k target fs c c' :
  files fs !! src = Some c -> files fs !! target = Some c' ->
  sha256 c <> sha256 c' ->
  place sha256 (S n) src tp name dir mv k target fs
  = place sha256 n src tp name dir mv (S k) (suffixed tp (S k)) fs.
Proof.
  intros Hs Ht Hne. simpl. rewrite (isfile_lookup _ _ _ Ht).
  unfold bind. rewrite (sha256_checksum_lookup _ _ _ Hs).
  rewrite (sha256_checksum_lookup _ _ _ Ht).
  by destruct (String.eqb_spec (sha256 c) (sha256 c')).
Qed.

(** A turn that finds the same content stops: nothing is written. *)
Lemma place_dup n src tp name dir mv k target fs c c' :
  files fs !! src = Some c -> files fs !! target = Some c' ->
  sha256 c = sha256 c' ->
  place sha256 (S n) src tp name dir mv k target fs = (fs, Ok duplicate).
Proof.
  intros Hs Ht He. simpl. rewrite (isfile_lookup _ _ _ Ht).
  unfold bind. rewrite (sha256_checksum_lookup _ _ _ Hs).
  rewrite (sha256_checksum_lookup _ _ _ Ht).
  by rewrite He, String.eqb_refl.
Qed.

(** A turn that finds the candidate free copies or moves the file,
    then its sidecar. *)
Lemma place_free n src tp name dir mv k target fs :
  files fs !! target = None ->
  place sha256 (S n) src tp name dir mv k target fs
  = (st <- copy_or_move mv src target ;;
     handle_file_xmp src name k dir mv ;;;
     ret st) fs.
Proof.
  intros Ht. simpl. by rewrite (proj2 (isfile_false _ _) Ht).
Qed.

Lemma copy_or_move_spec mv src dst fs :
  (exists e, copy_or_move mv src dst fs = (fs, Raise e))
  \/ (exists fs', copy_or_move mv src dst fs
                  = (fs', Ok (if mv then moved else copied))).
Proof.
  unfold copy_or_move, bind, ret. destruct mv.
  - destruct (move_spec src dst fs) as [[e ->]|(c & _ & _ & _ & _ & ->)]; eauto.
  - destruct (copy2_spec src dst fs) as [[e ->]|(c & _ & _ & _ & _ & ->)]; eauto.
Qed.

Lemma handle_file_xmp_result src name k dir mv fs :
  let r := snd (handle_file_xmp src name k dir mv fs) in
  r = Ok tt \/ exists e, r = Raise e.
Proof.
  unfold handle_file_xmp.
  assert (forall a b, let r := snd (if mv then move a b fs else copy2 a b fs) in
                      r = Ok tt \/ exists e, r = Raise e) as H.
  { intros a b. destruct mv.
    - destruct (move_spec a b fs) as [[e ->]|(c & _ & _ & _ & _ & ->)]; simpl; eauto.
    - destruct (copy2_spec a b fs) as [[e ->]|(c & _ & _ & _ & _ & ->)]; simpl; eauto. }
  destruct (isfile _ fs); [apply H|].
  destruct (isfile _ fs); [apply H|]. simpl. by left.
Qed.

(** The last turn never runs out of fuel. *)
Lemma place_free_finished src name dir mv k target fs :
  snd ((st <- copy_or_move mv src target ;;
        handle_file_xmp src name k dir mv ;;;
        ret st) fs) <> OutOfFuel.
Proof.
  unfold bind at 1.
  destruct (copy_or_move_spec mv src target fs) as [[e ->]|[fs' ->]]; [done|].
  unfold bind, ret.
  pose proof (handle_file_xmp_result src name k dir mv fs') as H.
  destruct (handle_file_xmp src name k dir mv fs') as [fs2 r]. simpl in H.
  destruct H as [->|[e ->]]; done.
Qed.

(** When the files that sit at later candidates all belong to a set
    of fewer than [n] paths, [n] turns are enough. *)
Lemma place_finished n src tp name dir mv k target fs (D : gset string) :
  (forall j, (k < j)%nat -> is_Some (files fs !! suffixed tp j) -> suffixed tp j ∈ D) ->
  (is_Some (files fs !! target) -> target ∈ D) ->
  (forall j, (k < j)%nat -> suffixed tp j <> target) ->
  (size D < n)%nat ->
  snd (place sha256 n src tp name dir mv k target fs) <> OutOfFuel.
Proof.
  revert k target D. induction n as [|n IH]; intros k target D HD Ht Hne Hsz; [lia|].
  destruct (files fs !! target) as [c'|] eqn:Et.
  2: { rewrite place_free by done. apply place_free_finished. }
  destruct (files fs !! src) as [c|] eqn:Es.
  2: { simpl. rewrite (isfile_lookup _ _ _ Et). unfold bind, sha256_checksum.
       by rewrite Es. }
  destruct (decide (sha256 c = sha256 c')) as [He|He].
  { by erewrite place_dup. }
  erewrite place_next by done.
  apply (IH _ _ (D ∖ {[ target ]})).
  - intros j Hj Hf. apply elem_of_difference. split; [apply HD; [lia|done]|].
    apply not_elem_of_singleton. apply Hne. lia.
  - intros Hf. apply elem_of_difference. split; [apply HD; [lia|done]|].
    apply not_elem_of_singleton. apply Hne. lia.
  - intros j Hj E. apply suffixed_inj in E. lia.
  - assert (target ∈ D) as Hin by (apply Ht; eauto).
    pose proof (size_difference D {[ target ]}) as Hd.
    rewrite size_singleton in Hd.
    rewrite Hd by (by apply singleton_subseteq_l).
    assert (size D <> 0)%nat.
    { intros Hz. apply size_empty_inv in Hz. set_solver. }
    lia.
Qed.

(** [handle_file] always leaves its loop. *)
Lemma place_file_finished src tp name dir mv fs :
  snd (place_file sha256 src tp name dir mv fs) <> OutOfFuel.
Proof.
  unfold place_file. apply (place_finished _ _ _ _ _ _ _ _ _ (dom (files fs))).
  - intros j _ Hf. by apply elem_of_dom.
  - intros Hf. by apply elem_of_dom.
  - intros j _. apply suffixed_neq.
  - rewrite size_dom. lia.
Qed.

(** More fuel than needed changes nothing. *)
Lemma place_fuel_mono n m src tp name dir mv k target fs :
  snd (place sha256 n src tp name dir mv k target fs) <> OutOfFuel ->
  place sha256 (n + m) src tp name dir mv k target fs
  = place sha256 n src tp name dir mv k target fs.
Proof.
  revert k target. induction n as [|n IH]; intros k target H; [done|].
  change (S n + m)%nat with (S (n + m)).
  destruct (files fs !! target) as [c'|] eqn:Et.
  2: { by rewrite !place_free. }
  destruct (files fs !! src) as [c|] eqn:Es.
  2: { simpl. rewrite (isfile_lookup _ _ _ Et). unfold bind, sha256_checksum.
       by rewrite Es. }
  destruct (decide (sha256 c = sha256 c')) as [He|He].
  { by erewrite !place_dup. }
  erewrite place_next in H by done. erewrite !place_next by done.
  by apply IH.
Qed.

(** So the loop may be followed with any amount of fuel that lets it
    finish. *)
Lemma place_file_eq n src tp name dir mv fs :
  snd (place sha256 n src tp name dir mv 1 tp fs) <> OutOfFuel ->
  place_file sha256 src tp name dir mv fs
  = place sha256 n src tp name dir mv 1 tp fs.
Proof.
  intros H.
  rewrite <- (place_fuel_mono n (S (size (files fs)))) by done.
  pose proof (place_file_finished src tp name dir mv fs) as H'.
  unfold place_file in *.
  rewrite <- (place_fuel_mono _ n) by done.
  f_equal. lia.
Qed.

End ScriptFacts.

(** ** Facts about the matcher and the default pattern *)

Module ReFacts.
Import PyStr OsPath Re Calendar StrFacts.

Lemma substring_app a s : String.substring 0 (String.length a) (a +:+ s) = a.
Proof.
  induction a as [|c a IH]; [by destruct s|].
  rewrite str_app_cons. simpl. by rewrite IH.
Qed.

Lemma consumed_app a s : consumed (a +:+ s) s = a.
Proof.
  unfold consumed. rewrite str_length_app.
  replace (String.length a + String.length s - String.length s)%nat
    with (String.length a) by lia.
  apply substring_app.
Qed.

Lemma rep_S n r : rep (S n) r = Cat r (rep n r).
Proof. reflexivity. Qed.

Lemma run_rep_digits {R : Type} n ds s g (k : groups -> string -> option R) :
  digits n ds -> run (rep n digit) (ds +:+ s) g k = k g s.
Proof.
  intros [Hl Hd]. revert ds Hl Hd. induction n as [|n IH]; intros ds Hl Hd.
  - by destruct ds.
  - destruct ds as [|c ds]; [done|]. simpl in Hl, Hd.
    apply andb_true_iff in Hd as [Hc Hd].
    rewrite rep_S, str_app_cons. simpl. rewrite Hc. apply IH; [lia|done].
Qed.

Lemma run_grp_digits {R : Type} name n ds s g (k : groups -> string -> option R) :
  digits n ds ->
  run (Grp name (rep n digit)) (ds +:+ s) g k = k ((name, ds) :: g) s.
Proof.
  intros H. simpl. rewrite run_rep_digits by done. by rewrite consumed_app.
Qed.


(** The greedy repetition gives back character by character. *)
Lemma star_app_some {R : Type} p pre s (k : string -> option R) r :
  all_of p pre = true -> star p s k = Some r -> star p (pre +:+ s) k = Some r.
Proof.
  intros Hp Hs. induction pre as [|c pre IH]; [done|].
  simpl in Hp. apply andb_true_iff in Hp as [Hc Hp].
  rewrite str_app_cons. simpl. by rewrite Hc, IH.
Qed.


Lemma is_digit_not_nl c : is_digit c = true -> not_nl c = true.
Proof.
  destruct c as [[] [] [] [] [] [] [] []]; by vm_compute.
Qed.


Lemma all_digits_not_nl ds : all_of is_digit ds = true -> all_of not_nl ds = true.
Proof.
  induction ds as [|c ds IH]; [done|]. simpl.
  intros [Hc Hd]%andb_true_iff. by rewrite is_digit_not_nl, IH.
Qed.







Lemma run_seq_cons {R : Type} r l s g (k : groups -> string -> option R) :
  run (seq (r :: l)) s g k = run r s g (fun g' s' => run (seq l) s' g' k).
Proof. reflexivity. Qed.

Lemma run_chr {R : Type} p c t g (k : groups -> string -> option R) :
  run (Chr p) (String c t) g k = if p c then k g t else None.
Proof. reflexivity. Qed.





Lemma star_cons {R : Type} p c t (k : string -> option R) :
  star p (String c t) k
  = if p c then match star p t k with
                | Some x => Some x
                | None => k (String c t)
                end
    else k (String c t).
Proof. reflexivity. Qed.


Lemma search_match r s m : rmatch r s = Some m -> search r s = Some m.
Proof. intros H. destruct s; simpl; by rewrite H. Qed.



(** *** What a match of the default pattern looks like *)








(** *** [int] on a text of digits *)

Lemma is_digit_not_space c : is_digit c = true -> is_space c = false.
Proof. destruct c as [[] [] [] [] [] [] [] []]; by vm_compute. Qed.

Lemma digit_val_range c : is_digit c = true -> 0 <= digit_val c <= 9.
Proof. destruct c as [[] [] [] [] [] [] [] []]; vm_compute; intuition congruence. Qed.

Lemma rstrip_digits ds : all_of is_digit ds = true -> rstrip ds = ds.
Proof.
  induction ds as [|c ds IH]; [done|]. simpl.
  intros [Hc Hd]%andb_true_iff. rewrite IH by done.
  destruct ds; [by rewrite is_digit_not_space|done].
Qed.

Lemma strip_digits ds : all_of is_digit ds = true -> strip ds = ds.
Proof.
  intros H. unfold strip.
  assert (lstrip ds = ds) as ->; [|by apply rstrip_digits].
  destruct ds as [|c ds]; [done|]. simpl in *.
  apply andb_true_iff in H as [Hc _]. by rewrite is_digit_not_space.
Qed.

Lemma int_digits_all acc b c ds :
  all_of is_digit (String c ds) = true ->
  int_digits acc b (String c ds) = Some (decimal_from acc (String c ds)).
Proof.
  revert acc b c. induction ds as [|d ds IH]; intros acc b c H; simpl in H.
  - apply andb_true_iff in H as [Hc _]. simpl. by rewrite Hc.
  - apply andb_true_iff in H as [Hc Hd].
    change (int_digits acc b (String c (String d ds)))
      with (if is_digit c
            then int_digits (10 * acc + digit_val c) true (String d ds)
            else if Ascii.eqb c "_" && b then
                   (if is_digit d then int_digits acc false (String d ds) else None)
                 else None).
    rewrite Hc. by rewrite IH.
Qed.

Lemma int_of_digits ds :
  all_of is_digit ds = true -> ds <> "" -> int ds = Some (decimal ds).
Proof.
  intros H Hne. unfold int. rewrite strip_digits by done.
  destruct ds as [|c ds]; [done|].
  pose proof (int_digits_all 0 false c ds H) as Hi.
  simpl in H. apply andb_true_iff in H as [Hc _].
  destruct c as [[] [] [] [] [] [] [] []]; try discriminate Hc; exact Hi.
Qed.

Lemma decimal_from_bound acc ds :
  all_of is_digit ds = true -> 0 <= acc ->
  0 <= decimal_from acc ds < (acc + 1) * 10 ^ Z.of_nat (String.length ds).
Proof.
  revert acc. induction ds as [|c ds IH]; intros acc H Ha.
  - simpl. lia.
  - simpl in H. apply andb_true_iff in H as [Hc Hd].
    pose proof (digit_val_range c Hc) as Hv.
    change (decimal_from acc (String c ds))
      with (decimal_from (10 * acc + digit_val c) ds).
    destruct (IH (10 * acc + digit_val c) Hd) as [H1 H2]; [lia|].
    split; [done|]. eapply Z.lt_le_trans; [exact H2|].
    change (String.length (String c ds)) with (S (String.length ds)).
    rewrite Nat2Z.inj_succ, Z.pow_succ_r by lia. nia.
Qed.

Lemma decimal_fits n ds :
  digits n ds -> (n <= 4)%nat -> fits_c_int (decimal ds) = true.
Proof.
  intros [Hl Hd] Hn. unfold fits_c_int, decimal.
  pose proof (decimal_from_bound 0 ds Hd) as [H1 H2]; [lia|].
  assert (10 ^ Z.of_nat (String.length ds) <= 10 ^ 4).
  { apply Z.pow_le_mono_r; lia. }
  apply andb_true_iff. split; [apply Z.leb_le|apply Z.ltb_lt]; lia.
Qed.

Lemma digits_nonempty n ds : digits (S n) ds -> ds <> "".
Proof. intros [Hl _] ->. done. Qed.

End ReFacts.

Section SubSeconds.
Import PyStr OsPath Re Calendar StrFacts.

Lemma split_go_dot_cons c s :
  split_go "." 0 (String c s)
  = if Ascii.eqb "." c
    then let '(f, r) := split_go "." 0 s in (EmptyString, f :: r)
    else let '(f, r) := split_go "." 0 s in (String c f, r).
Proof.
  cbn [split_go startswith String.length Nat.sub].
  assert (startswith s "" = true) as -> by (by destruct s).
  by rewrite andb_true_r.
Qed.

Lemma contains_cons ch c s : contains ch (String c s) = Ascii.eqb c ch || contains ch s.
Proof. reflexivity. Qed.

Lemma split_go_no_dot s : contains "." s = false -> split_go "." 0 s = (s, []).
Proof.
  induction s as [|c s IH]; [done|]. rewrite contains_cons.
  intros [Hc Hs]%orb_false_iff.
  rewrite split_go_dot_cons, Ascii.eqb_sym, Hc. by rewrite IH.
Qed.

Lemma split_at_dot d f :
  contains "." d = false -> contains "." f = false ->
  split (d +:+ String "." f) "." = [d; f].
Proof.
  intros Hd Hf. unfold split.
  assert (split_go "." 0 (d +:+ String "." f) = (d, [f])) as ->; [|done].
  induction d as [|c d IH].
  - change ("" +:+ String "." f) with (String "." f).
    rewrite split_go_dot_cons, Ascii.eqb_refl. by rewrite split_go_no_dot.
  - rewrite contains_cons in Hd. apply orb_false_iff in Hd as [Hc Hd].
    rewrite str_app_cons, split_go_dot_cons, Ascii.eqb_sym, Hc.
    by rewrite IH.
Qed.

(** Whatever follows the first dot of the metadata value is returned
    as sub-seconds, an offset included: line 182 looks for the offset
    in the part before the dot only. *)
Lemma get_date_subseconds_keep_what_follows_the_dot file exif_data user_regex
    umd d f :
  first_present (keys umd) exif_data = Some (d +:+ String "." f) ->
  contains "." d = false -> contains "." f = false ->
  exists parsed_date_time,
    get_date file exif_data user_regex umd
    = Ok (Some (mkResolved parsed_date_time f)).
Proof.
  intros H Hd Hf. unfold get_date. rewrite H.
  destruct (d +:+ String "." f) as [|c s] eqn:E.
  { destruct d; discriminate E. }
  rewrite <- E. rewrite split_at_dot by done. eauto.
Qed.

End SubSeconds.

(** ** Properties of classification and placement *)

Section Classification.
Import PyStr OsPath Re Calendar Os StrFacts OsFacts.

Variable sha256 : string -> string.
Variable exiftool : FS -> string -> option string.
Variable strftime : datetime -> string -> option string.
Variable lower : string -> string.

(** C7 (as amended): in timestamp mode a file whose name ends in
    [.xmp] is classified [other] at once: no metadata is read, no date
    is resolved, and the tree is left as it is, so the file is not
    placed anywhere. *)
Theorem C7_sidecar_is_other_and_stays source outputdir dir_format move_files
    date_regex fs :
  endswith source ".xmp" = true ->
  handle_file sha256 exiftool strftime lower source outputdir dir_format move_files
    date_regex fs = (fs, Ok other).
Proof. intros H. unfold handle_file. by rewrite H. Qed.

(** [is_image_or_video] raises [KeyError] on a dictionary that is not
    empty and has no ['MIME Type']. *)
Lemma is_image_or_video_no_mime d :
  d <> ∅ -> d !! "MIME Type" = None -> is_image_or_video (Some d) = Raise KeyError.
Proof.
  intros Hd Hm. unfold is_image_or_video, truthy.
  rewrite bool_decide_eq_false_2 by done. simpl. by rewrite Hm.
Qed.

(** C10: when [exif] succeeds for a file and its dictionary has no
    ['MIME Type'] key, [is_image_or_video] raises [KeyError]; both
    handlers raise without changing the tree, and the loop of [main]
    counts the file under [error], not under [other]. *)
Theorem C10_no_mime_type_counts_as_error source fs d :
  snd (exif exiftool source fs) = Ok (Some d) ->
  d !! "MIME Type" = None ->
  is_image_or_video (Some d) = Raise KeyError
  /\ (forall outputdir dir_format move_files date_regex,
        endswith source ".xmp" = false ->
        handle_file sha256 exiftool strftime lower source outputdir dir_format
          move_files date_regex fs = (fs, Raise KeyError))
  /\ (forall outputdir dir_format move_files date_regex,
        exists e, handle_file2 sha256 exiftool strftime source outputdir
                    dir_format move_files date_regex fs = (fs, Raise e))
  /\ (forall sha_rename root filename outputdir dir_format move_files
             date_regex count,
        source = OsPath.join root filename ->
        filename ∉ ignored_files ->
        (sha_rename = false -> endswith source ".xmp" = false) ->
        main_step sha256 exiftool strftime lower sha_rename root filename outputdir
          dir_format move_files date_regex count fs
        = (fs, Ok (incr count error))
        /\ incr count error error = S (count error)
        /\ incr count error other = count other).
Proof.
  intros He Hm.
  pose proof (exif_nonempty _ _ _ _ He) as Hd.
  pose proof (is_image_or_video_no_mime d Hd Hm) as Hk.
  pose proof (exif_state exiftool source fs) as Hs.
  assert (forall outputdir dir_format move_files date_regex,
            endswith source ".xmp" = false ->
            handle_file sha256 exiftool strftime lower source outputdir dir_format
              move_files date_regex fs = (fs, Raise KeyError)) as H1.
  { intros outputdir dir_format move_files date_regex Hx.
    unfold handle_file. rewrite Hx. unfold plan, bind at 1 2.
    destruct (exif exiftool source fs) as [fs1 r]. simpl in *. subst.
    unfold bind, lift. assert (truthy (Some d) = true) as ->.
    { unfold truthy. by rewrite bool_decide_eq_false_2. }
    by rewrite Hk. }
  assert (forall outputdir dir_format move_files date_regex,
            exists e, handle_file2 sha256 exiftool strftime source outputdir
                        dir_format move_files date_regex fs = (fs, Raise e)) as H2.
  { intros outputdir dir_format move_files date_regex.
    unfold handle_file2, plan2, bind at 1 2.
    destruct (exif exiftool source fs) as [fs1 r]. simpl in *. subst.
    unfold bind at 1. unfold sha256_checksum.
    destruct (files fs !! source); [|eauto].
    unfold bind, lift. rewrite Hk. eauto. }
  split; [done|]. split; [done|]. split; [done|].
  intros sha_rename root filename outputdir dir_format move_files date_regex
    count -> Hi Hx.
  split; [|split].
  - unfold main_step. rewrite bool_decide_eq_false_2 by done.
    destruct sha_rename.
    + by destruct (H2 outputdir dir_format move_files date_regex) as [e ->].
    + by rewrite H1 by auto.
  - unfold incr. by rewrite decide_True.
  - unfold incr. by rewrite decide_False.
Qed.

End Classification.

Section UndatedMedia.
Import PyStr OsPath Re Calendar Os StrFacts OsFacts.

Variable sha256 : string -> string.
Variable exiftool : FS -> string -> option string.
Variable strftime : datetime -> string -> option string.
Variable lower : string -> string.




End UndatedMedia.

Section Duplicates.
Import PyStr OsPath Re Calendar Os StrFacts OsFacts.

Variable sha256 : string -> string.
Variable exiftool : FS -> string -> option string.
Variable strftime : datetime -> string -> option string.
Variable lower : string -> string.

(** *** What a [duplicate] outcome of the loop means *)

Lemma place_free_not_duplicate src name dir mv k target fs :
  snd ((st <- copy_or_move mv src target ;;
        handle_file_xmp src name k dir mv ;;;
        ret st) fs) <> Ok duplicate.
Proof.
  unfold bind at 1.
  destruct (copy_or_move_spec mv src target fs) as [[e ->]|[fs' ->]]; [done|].
  unfold bind, ret.
  destruct (handle_file_xmp src name k dir mv fs') as [fs2 [[]|e| |]]; simpl;
    try done; by destruct mv.
Qed.

Lemma place_duplicate_inv n src tp name dir mv k target fs fs' :
  place sha256 n src tp name dir mv k target fs = (fs', Ok duplicate) ->
  fs' = fs
  /\ exists j c c', (k <= j)%nat
       /\ files fs !! src = Some c
       /\ files fs !! (if decide (j = k) then target else suffixed tp j) = Some c'
       /\ sha256 c = sha256 c'.
Proof.
  revert k target. induction n as [|n IH]; intros k target H; [done|].
  destruct (files fs !! target) as [c'|] eqn:Et.
  2: { rewrite place_free in H by done.
       pose proof (place_free_not_duplicate src name dir mv k target fs) as Hn.
       by rewrite H in Hn. }
  destruct (files fs !! src) as [c|] eqn:Es.
  2: { simpl in H. rewrite (isfile_lookup _ _ _ Et) in H.
       unfold bind, sha256_checksum in H. by rewrite Es in H. }
  destruct (decide (sha256 c = sha256 c')) as [He|He].
  - erewrite place_dup in H by done. injection H as <-.
    split; [done|]. exists k, c, c'. by rewrite decide_True.
  - erewrite place_next in H by done.
    destruct (IH _ _ H) as (-> & j & c1 & c2 & Hj & H1 & H2 & H3).
    split; [done|]. exists (if decide (j = S k) then S k else j), c1, c2.
    destruct (decide (j = S k)) as [->|Hne].
    + rewrite decide_False by lia. split; [lia|]. split; [congruence|]. done.
    + rewrite decide_False by lia. split; [lia|]. split; [congruence|]. done.
Qed.

Lemma sha256_checksum_state p fs : fst (sha256_checksum sha256 p fs) = fs.
Proof. unfold sha256_checksum. by destruct (files fs !! p). Qed.

Lemma plan2_files source outputdir dir_format date_regex fs :
  files (fst (plan2 sha256 exiftool strftime source outputdir dir_format
                date_regex fs)) = files fs.
Proof.
  unfold plan2. revert fs.
  apply bind_files; [intros; by rewrite exif_state|]. intros exif_data.
  apply bind_files; [intros; by rewrite sha256_checksum_state|]. intros sha.
  apply bind_files; [done|]. intros [|].
  - apply bind_files; [done|]. intros date.
    apply bind_files; [apply get_output_dir_files|done].
  - apply bind_files; [apply get_output_dir_files|done].
Qed.

(** In digest-rename mode the planned name of a picture or video is
    the digest of its content followed by its extension. *)
Lemma plan2_media source outputdir dir_format date_regex fs x fs1 output_dir name :
  snd (exif exiftool source fs) = Ok x ->
  is_image_or_video x = Ok true ->
  plan2 sha256 exiftool strftime source outputdir dir_format date_regex fs
    = (fs1, Ok (output_dir, name)) ->
  exists c, files fs !! source = Some c
            /\ name = sha256 c +:+ snd (splitext (basename source)).
Proof.
  intros He Hm. pose proof (exif_state exiftool source fs) as Hs.
  unfold plan2, bind at 1.
  destruct (exif exiftool source fs) as [fs0 r]. simpl in *. subst.
  unfold bind at 1. unfold sha256_checksum.
  destruct (files fs !! source) as [c|]; [|done].
  unfold bind at 1. unfold lift at 1. rewrite Hm.
  unfold bind at 1. unfold lift at 1.
  destruct (get_date _ _ _ _) as [date|e| |]; [|done..].
  unfold bind, ret.
  destruct (get_output_dir _ _ _ _ _) as [fs2 [od|e| |]]; [|done..].
  intros [= <- <- <-]. by exists c.
Qed.

(** C3 (as amended): in timestamp mode [duplicate] is returned only
    when the digest of the source equals the digest of the file found
    at the candidate path where the loop stopped; in digest-rename mode
    it is returned for a picture or video only when a file is present
    at the planned path, whose name is the digest of the source
    followed by its extension, and the contents are not compared
    again; in both modes a [duplicate] outcome leaves every file of
    the tree as it was. *)
Theorem C3_duplicate_only_on_equal_digest_or_digest_name source outputdir
    dir_format move_files date_regex fs fs' :
  (handle_file sha256 exiftool strftime lower source outputdir dir_format move_files
     date_regex fs = (fs', Ok duplicate) ->
   files fs' = files fs
   /\ exists output_dir name k c c',
        snd (plan exiftool strftime lower source outputdir dir_format date_regex fs)
          = Ok (output_dir, name)
        /\ (1 <= k)%nat
        /\ files fs !! source = Some c
        /\ files fs !! candidate (PyStr.join OsPath.sep [output_dir; name]) k = Some c'
        /\ sha256 c = sha256 c')
  /\ (handle_file2 sha256 exiftool strftime source outputdir dir_format
        move_files date_regex fs = (fs', Ok duplicate) ->
      files fs' = files fs
      /\ forall x, snd (exif exiftool source fs) = Ok x ->
                   is_image_or_video x = Ok true ->
          exists output_dir c,
            snd (plan2 sha256 exiftool strftime source outputdir dir_format
                   date_regex fs)
              = Ok (output_dir, sha256 c +:+ snd (splitext (basename source)))
            /\ files fs !! source = Some c
            /\ is_Some (files fs !! PyStr.join OsPath.sep
                          [output_dir;
                           sha256 c +:+ snd (splitext (basename source))])).
Proof.
  split.
  - unfold handle_file. destruct (endswith source ".xmp"); [done|].
    unfold bind.
    pose proof (plan_files exiftool strftime lower source outputdir dir_format
                  date_regex fs) as Hf.
    destruct (plan _ _ _ _ _ _ _ _) as [fs1 [[output_dir name]|e| |]]; [|done..].
    simpl in *. unfold place_file. intros H.
    apply place_duplicate_inv in H as (-> & j & c & c' & Hj & H1 & H2 & H3).
    split; [done|]. exists output_dir, name, j, c, c'.
    rewrite <- Hf. repeat split; try done.
    unfold candidate. destruct (decide (j = 1%nat)) as [->|]; [done|].
    by rewrite (proj2 (Nat.leb_gt j 1)) by lia.
  - unfold handle_file2, bind.
    pose proof (plan2_files source outputdir dir_format date_regex fs) as Hf.
    destruct (plan2 _ _ _ _ _ _ _ _) as [fs1 [[output_dir name]|e| |]] eqn:Ep;
      [|done..].
    simpl in Hf. cbv beta iota. change (fst (output_dir, name)) with output_dir.
    change (snd (output_dir, name)) with name.
    destruct (isfile _ fs1) eqn:Ei.
    + intros [= <-]. split; [done|]. intros x Hx Hm.
      destruct (plan2_media _ _ _ _ _ _ _ _ _ Hx Hm Ep) as (c & Hc & ->).
      exists output_dir, c. repeat split; try done.
      rewrite <- Hf. by apply isfile_true.
    + intros H.
      destruct (copy_or_move_spec move_files source
                  (PyStr.join OsPath.sep [output_dir; name]) fs1)
        as [[e He]|[fs2 He]]; rewrite He in H; [done|]. by destruct move_files.
Qed.

End Duplicates.

Section SourceAfterPlacement.
Import PyStr OsPath Re Calendar Os StrFacts OsFacts.

Variable sha256 : string -> string.
Variable exiftool : FS -> string -> option string.
Variable strftime : datetime -> string -> option string.
Variable lower : string -> string.

(** *** The source under copy and under move *)

Lemma copy2_src src dst fs :
  files (fst (copy2 src dst fs)) !! src = files fs !! src.
Proof.
  destruct (copy2_spec src dst fs) as [[e ->]|(c & _ & Hne & _ & _ & ->)]; [done|].
  simpl. by rewrite lookup_insert_ne.
Qed.

Lemma move_src src dst fs fs' :
  move src dst fs = (fs', Ok tt) -> files fs !! dst = None ->
  files fs' !! src = None.
Proof.
  intros H Hd.
  destruct (move_spec src dst fs) as [[e He]|(c & Hs & _ & _ & Hdir & He)];
    rewrite He in H; [done|].
  injection H as <-. simpl.
  rewrite lookup_insert_ne; [apply lookup_delete_eq|].
  intros E. destruct (isdir dst fs) eqn:Ed.
  - specialize (Hdir eq_refl). rewrite E in Hdir. congruence.
  - unfold move_dst in E. rewrite Ed in E. subst. congruence.
Qed.

Lemma place_copy_src n src tp name dir k target fs :
  endswith src ".xmp" = false ->
  files (fst (place sha256 n src tp name dir false k target fs)) !! src
  = files fs !! src.
Proof.
  intros Hx. revert k target. induction n as [|n IH]; intros k target; [done|].
  destruct (files fs !! target) as [c'|] eqn:Et.
  - destruct (files fs !! src) as [c|] eqn:Es.
    2: { simpl. rewrite (isfile_lookup _ _ _ Et). unfold bind, sha256_checksum.
         by rewrite Es. }
    destruct (decide (sha256 c = sha256 c')) as [He|He].
    + by erewrite place_dup.
    + erewrite place_next by done. by rewrite IH.
  - rewrite place_free by done. unfold copy_or_move, bind at 1 2.
    pose proof (copy2_src src target fs) as Hc.
    destruct (copy2 src target fs) as [fs1 [[]|e| |]]; simpl in Hc; [|done..].
    unfold ret at 1. unfold bind, ret.
    pose proof (handle_file_xmp_frame src name k dir false fs1) as [_ Hf].
    destruct (handle_file_xmp src name k dir false fs1) as [fs2 [[]|e| |]];
      simpl in *; by rewrite Hf.
Qed.

Lemma place_move_src n src tp name dir k target fs fs' :
  endswith src ".xmp" = false ->
  place sha256 n src tp name dir true k target fs = (fs', Ok moved) ->
  files fs' !! src = None.
Proof.
  intros Hx. revert k target. induction n as [|n IH]; intros k target H; [done|].
  destruct (files fs !! target) as [c'|] eqn:Et.
  - destruct (files fs !! src) as [c|] eqn:Es.
    2: { simpl in H. rewrite (isfile_lookup _ _ _ Et) in H.
         unfold bind, sha256_checksum in H. by rewrite Es in H. }
    destruct (decide (sha256 c = sha256 c')) as [He|He].
    + by erewrite place_dup in H.
    + erewrite place_next in H by done. by eapply IH.
  - rewrite place_free in H by done. unfold copy_or_move, bind at 1 2 in H.
    destruct (move src target fs) as [fs1 [[]|e| |]] eqn:Em; [|done..].
    apply move_src in Em; [|done].
    unfold ret at 1 in H. unfold bind, ret in H.
    pose proof (handle_file_xmp_frame src name k dir true fs1) as [_ Hf].
    destruct (handle_file_xmp src name k dir true fs1) as [fs2 [[]|e| |]];
      simpl in *; [|done..].
    injection H as <-. by rewrite Hf.
Qed.

(** C6: copy mode leaves the content at the source path as it was,
    whatever the outcome; when move mode ends with [moved], no file is
    left at the source path.  Both hold for [handle_file] and for
    [handle_file2]. *)
Theorem C6_copy_keeps_source_move_removes_it source outputdir dir_format
    date_regex fs :
  files (fst (handle_file sha256 exiftool strftime lower source outputdir dir_format
                false date_regex fs)) !! source = files fs !! source
  /\ files (fst (handle_file2 sha256 exiftool strftime source outputdir
                   dir_format false date_regex fs)) !! source = files fs !! source
  /\ (forall fs',
        handle_file sha256 exiftool strftime lower source outputdir dir_format true
          date_regex fs = (fs', Ok moved) ->
        is_Some (files fs !! source) /\ files fs' !! source = None)
  /\ (forall fs',
        handle_file2 sha256 exiftool strftime source outputdir dir_format true
          date_regex fs = (fs', Ok moved) ->
        is_Some (files fs !! source) /\ files fs' !! source = None).
Proof.
  pose proof (plan_files exiftool strftime lower source outputdir dir_format
                date_regex fs) as Hf.
  pose proof (plan2_files sha256 exiftool strftime source outputdir dir_format
                date_regex fs) as Hf2.
  repeat split.
  - unfold handle_file. destruct (endswith source ".xmp") eqn:Ex; [done|].
    unfold bind.
    destruct (plan _ _ _ _ _ _ _ _) as [fs1 [[output_dir name]|e| |]];
      simpl in Hf; [|simpl; by rewrite Hf..].
    unfold place_file. rewrite place_copy_src by done. by rewrite Hf.
  - unfold handle_file2, bind.
    destruct (plan2 _ _ _ _ _ _ _ _) as [fs1 [[output_dir name]|e| |]];
      simpl in Hf2; [|simpl; by rewrite Hf2..].
    destruct (isfile _ fs1); [simpl; by rewrite Hf2|].
    unfold copy_or_move, bind.
    pose proof (copy2_src source (PyStr.join OsPath.sep
                  [(output_dir, name).1; (output_dir, name).2]) fs1) as Hc.
    destruct (copy2 _ _ fs1) as [fs2 [[]|e| |]]; simpl in *; by rewrite Hc, Hf2.
  - revert H. unfold handle_file. destruct (endswith source ".xmp") eqn:Ex; [done|].
    unfold bind.
    destruct (plan _ _ _ _ _ _ _ _) as [fs1 [[output_dir name]|e| |]];
      simpl in Hf; [|done..].
    unfold place_file. intros H.
    destruct (files fs !! source) eqn:Es; [done|].
    rewrite <- Hf in Es.
    clear Hf. revert H. generalize (S (size (files fs1))). intros n.
    generalize 1%nat at 1. generalize (PyStr.join OsPath.sep
      [(output_dir, name).1; (output_dir, name).2]) at 2.
    induction n as [|n IH]; intros target k H; [done|].
    destruct (files fs1 !! target) as [c'|] eqn:Et.
    + simpl in H. rewrite (isfile_lookup _ _ _ Et) in H.
      unfold bind, sha256_checksum in H. by rewrite Es in H.
    + rewrite place_free in H by done. unfold copy_or_move, bind at 1 2 in H.
      destruct (move_spec source target fs1) as [[e He]|(c & Hs & _)];
        [by rewrite He in H|congruence].
  - revert H. unfold handle_file. destruct (endswith source ".xmp") eqn:Ex; [done|].
    unfold bind.
    destruct (plan _ _ _ _ _ _ _ _) as [fs1 [[output_dir name]|e| |]]; [|done..].
    unfold place_file. intros H. by eapply place_move_src.
  - revert H. unfold handle_file2, bind.
    destruct (plan2 _ _ _ _ _ _ _ _) as [fs1 [[output_dir name]|e| |]];
      simpl in Hf2; [|done..].
    destruct (isfile _ fs1) eqn:Ei; [done|].
    unfold copy_or_move, bind. intros H.
    destruct (move_spec source (PyStr.join OsPath.sep
                [(output_dir, name).1; (output_dir, name).2]) fs1)
      as [[e He]|(c & Hs & _)]; [by rewrite He in H|].
    rewrite <- Hf2. eauto.
  - revert H. unfold handle_file2, bind.
    destruct (plan2 _ _ _ _ _ _ _ _) as [fs1 [[output_dir name]|e| |]]; [|done..].
    destruct (isfile _ fs1) eqn:Ei; [done|].
    apply isfile_false in Ei.
    unfold copy_or_move, bind. intros H.
    destruct (move source _ fs1) as [fs2 [[]|e| |]] eqn:Em; [|done..].
    injection H as <-. by eapply move_src.
Qed.

End SourceAfterPlacement.

Section Idempotence.
Import PyStr OsPath Re Calendar Os StrFacts OsFacts.

Variable sha256 : string -> string.
Variable exiftool : FS -> string -> option string.
Variable strftime : datetime -> string -> option string.
Variable lower : string -> string.

(** *** Walking along the candidates *)

Lemma candidate_next tp k : (1 <= k)%nat -> suffixed tp (S k) = candidate tp (S k).
Proof. intros H. unfold candidate. by rewrite (proj2 (Nat.leb_gt (S k) 1)) by lia. Qed.


(** When the candidates up to one that holds the content of the
    source are all taken, the loop stops with [duplicate]. *)
Lemma place_finds_duplicate m n src tp name dir mv k fs c c' :
  (1 <= k)%nat -> (m < n)%nat ->
  files fs !! src = Some c ->
  (forall j, (k <= j < k + m)%nat -> is_Some (files fs !! candidate tp j)) ->
  files fs !! candidate tp (k + m) = Some c' -> sha256 c = sha256 c' ->
  place sha256 n src tp name dir mv k (candidate tp k) fs = (fs, Ok duplicate).
Proof.
  revert n k. induction m as [|m IH]; intros n k Hk Hn Hs Hc Hd He.
  - destruct n as [|n]; [lia|]. rewrite Nat.add_0_r in Hd. by erewrite place_dup.
  - destruct n as [|n]; [lia|].
    destruct (Hc k) as [c1 Hc1]; [lia|].
    destruct (decide (sha256 c = sha256 c1)) as [E|E]; [by erewrite place_dup|].
    erewrite place_next by done. rewrite candidate_next by done.
    apply IH; [lia|lia|done| |by replace (S k + m)%nat with (k + S m)%nat by lia|done].
    intros j Hj. apply Hc. lia.
Qed.

(** C9: in copy mode, when the tree already holds the content of the
    source at a candidate of its planned path and the candidates before
    it are taken (so in particular when it holds it at the planned path
    itself), [handle_file] returns [duplicate] and no file of the tree
    is added or changed. *)
Theorem C9_placing_again_is_duplicate source outputdir dir_format date_regex
    fs fs1 output_dir name k c :
  endswith source ".xmp" = false ->
  plan exiftool strftime lower source outputdir dir_format date_regex fs
    = (fs1, Ok (output_dir, name)) ->
  files fs !! source = Some c ->
  (1 <= k)%nat ->
  files fs !! candidate (PyStr.join OsPath.sep [output_dir; name]) k = Some c ->
  (forall j, (1 <= j < k)%nat ->
     is_Some (files fs !! candidate (PyStr.join OsPath.sep [output_dir; name]) j)) ->
  handle_file sha256 exiftool strftime lower source outputdir dir_format false
    date_regex fs = (fs1, Ok duplicate)
  /\ files fs1 = files fs.
Proof.
  intros Hx Hp Hs Hk Hc Hb.
  pose proof (plan_files exiftool strftime lower source outputdir dir_format
                date_regex fs) as Hf.
  rewrite Hp in Hf. simpl in Hf. split; [|done].
  unfold handle_file. rewrite Hx. unfold bind. rewrite Hp.
  cbv beta iota. change (fst (output_dir, name)) with output_dir.
  change (snd (output_dir, name)) with name.
  set (tp := PyStr.join OsPath.sep [output_dir; name]) in *.
  assert (place sha256 k source tp name output_dir false 1 (candidate tp 1) fs1
          = (fs1, Ok duplicate)) as H.
  { apply (place_finds_duplicate (k - 1) k _ _ _ _ _ _ _ c c); try done; try lia.
    - by rewrite Hf.
    - intros j Hj. rewrite Hf. apply Hb. lia.
    - rewrite Hf. by replace (1 + (k - 1))%nat with k by lia. }
  rewrite candidate_1 in H.
  rewrite (place_file_eq sha256 k); [done|]. by rewrite H.
Qed.

End Idempotence.

Section Chains.
Import PyStr OsPath Re Calendar Os StrFacts OsFacts.

Variable sha256 : string -> string.

(** *** A chain of candidates filled by a sequence of files *)



Section Chain.
Variables (tp name dir : string) (mv : bool) (fs0 : FS).

(** At the start nothing sits at a candidate, the directory of [tp]
    is there, and [tp] has not the sidecar extension. *)
Hypothesis candidates_free :
  forall k, (1 <= k)%nat -> exists_ (candidate tp k) fs0 = false.
Hypothesis parent_there : parent_exists tp fs0 = true.
Hypothesis tp_not_xmp : endswith tp ".xmp" = false.









End Chain.
End Chains.

Section DefaultPattern.
Import PyStr OsPath Re Calendar StrFacts ReFacts.




End DefaultPattern.

(** ** Outcomes, termination and the counts of [main] *)

Section Outcomes.
Import PyStr OsPath Re Calendar Os StrFacts OsFacts.

Variable sha256 : string -> string.
Variable exiftool : FS -> string -> option string.
Variable strftime : datetime -> string -> option string.
Variable lower : string -> string.

(** The loop of [handle_file] ends with [duplicate] or with the
    outcome of the mode. *)
Lemma place_outcome n src tp name dir mv k target fs fs' st :
  place sha256 n src tp name dir mv k target fs = (fs', Ok st) ->
  st = duplicate \/ st = (if mv then moved else copied).
Proof.
  revert k target. induction n as [|n IH]; intros k target H; [done|].
  destruct (files fs !! target) as [c'|] eqn:Et.
  - destruct (files fs !! src) as [c|] eqn:Es.
    2: { simpl in H. rewrite (isfile_lookup _ _ _ Et) in H.
         unfold bind, sha256_checksum in H. by rewrite Es in H. }
    destruct (decide (sha256 c = sha256 c')) as [He|He].
    + erewrite place_dup in H by done. injection H as <- <-. by left.
    + erewrite place_next in H by done. by eapply IH.
  - rewrite place_free in H by done. unfold bind at 1 in H.
    destruct (copy_or_move_spec mv src target fs) as [[e He]|[fs1 He]];
      rewrite He in H; [done|].
    unfold bind, ret in H.
    destruct (handle_file_xmp src name k dir mv fs1) as [fs2 [[]|e| |]];
      [|done..].
    injection H as <- <-. by right.
Qed.

Lemma handle_file_outcome source outputdir dir_format move_files date_regex
    fs fs' st :
  handle_file sha256 exiftool strftime lower source outputdir dir_format move_files
    date_regex fs = (fs', Ok st) ->
  (endswith source ".xmp" = true /\ st = other)
  \/ (endswith source ".xmp" = false
      /\ (st = duplicate \/ st = (if move_files then moved else copied))).
Proof.
  unfold handle_file. destruct (endswith source ".xmp") eqn:Ex.
  - intros [= <- <-]. by left.
  - intros H. right. split; [done|]. unfold bind in H.
    destruct (plan _ _ _ _ _ _ _ _) as [fs1 [p|e| |]]; [|done..].
    unfold place_file in H. by eapply place_outcome.
Qed.

Lemma handle_file2_outcome source outputdir dir_format move_files date_regex
    fs fs' st :
  handle_file2 sha256 exiftool strftime source outputdir dir_format move_files
    date_regex fs = (fs', Ok st) ->
  st = duplicate \/ st = (if move_files then moved else copied).
Proof.
  unfold handle_file2, bind at 1.
  destruct (plan2 _ _ _ _ _ _ _ _) as [fs1 [p|e| |]]; [|done..].
  destruct (isfile _ fs1).
  - intros [= <- <-]. by left.
  - intros H.
    destruct (copy_or_move_spec move_files source
                (PyStr.join OsPath.sep [fst p; snd p]) fs1) as [[e He]|[fs2 He]];
      rewrite He in H; [done|].
    injection H as <- <-. by right.
Qed.

(** *** Every call comes to an end *)

Lemma ints_of_finished l : ints_of l <> OutOfFuel /\ ints_of l <> SysExit.
Proof.
  induction l as [|[a [x|]] l [IH1 IH2]]; simpl; [done| |done].
  destruct (int x); [|done]. by destruct (ints_of l).
Qed.

Lemma item_finished l k : item l k <> OutOfFuel /\ item l k <> SysExit.
Proof. unfold item. by destruct (List.find _ _) as [[]|]. Qed.

Lemma datetime_new_finished y mo d h mi sc :
  datetime_new y mo d h mi sc <> OutOfFuel /\ datetime_new y mo d h mi sc <> SysExit.
Proof.
  unfold datetime_new. destruct (negb _); [done|]. by destruct (valid_datetime _ _ _ _ _ _).
Qed.

Lemma res_bind_finished {A B : Type} (m : res A) (k : A -> res B) :
  (m <> OutOfFuel /\ m <> SysExit) ->
  (forall a, k a <> OutOfFuel /\ k a <> SysExit) ->
  res_bind m k <> OutOfFuel /\ res_bind m k <> SysExit.
Proof. intros [H1 H2] Hk. destruct m; simpl; auto. Qed.

(** [get_date] returns or raises: it has no loop of its own and
    never ends the program. *)
Lemma get_date_finished file exif_data user_regex umd :
  get_date file exif_data user_regex umd <> OutOfFuel
  /\ get_date file exif_data user_regex umd <> SysExit.
Proof.
  unfold get_date.
  assert (forall g regex,
    let date :=
      res_bind (ints_of (groupdict regex g)) (fun match_dir =>
      res_bind (item match_dir "year") (fun y =>
      res_bind (item match_dir "month") (fun mo =>
      res_bind (item match_dir "day") (fun d =>
      res_bind (item match_dir "hour") (fun h =>
      res_bind (item match_dir "minute") (fun mi =>
      res_bind (item match_dir "second") (fun sc =>
      datetime_new y mo d h mi sc))))))) in
    date <> OutOfFuel /\ date <> SysExit) as Hd.
  { intros g regex.
    apply res_bind_finished; [apply ints_of_finished|]. intros l.
    repeat (apply res_bind_finished; [apply item_finished|]; intros ?).
    apply datetime_new_finished. }
  destruct (first_present _ _) as [[|c s]|]; try done;
    (destruct (search _ _) as [[g r]|]; [|done]);
    specialize (Hd g (default default_regex user_regex)); simpl in Hd;
    destruct Hd as [H1 H2];
    (destruct (res_bind _ _) as [x|[]| |]; done).
Qed.

Lemma get_output_dir_result date outputdir dir_format fs :
  let r := snd (get_output_dir strftime date outputdir dir_format fs) in
  (exists p, r = Ok p) \/ r = SysExit.
Proof.
  unfold get_output_dir. destruct (isdir _ fs); [left; eauto|].
  destruct (makedirs _ fs); [left; eauto|by right].
Qed.

Lemma get_output_dir_finished date outputdir dir_format fs :
  snd (get_output_dir strftime date outputdir dir_format fs) <> OutOfFuel.
Proof.
  destruct (get_output_dir_result date outputdir dir_format fs) as [[p ->]| ->]; done.
Qed.

Lemma is_image_or_video_finished x :
  is_image_or_video x <> OutOfFuel.
Proof.
  unfold is_image_or_video. destruct (truthy x); [|done].
  by destruct (_ !! "MIME Type").
Qed.

Lemma bind_finished {A B : Type} (m : M A) (k : A -> M B) fs :
  snd (m fs) <> OutOfFuel ->
  (forall a fs1, snd (k a fs1) <> OutOfFuel) ->
  snd (bind m k fs) <> OutOfFuel.
Proof.
  intros Hm Hk. unfold bind. destruct (m fs) as [fs1 [a|e| |]]; simpl in *; auto.
Qed.

Lemma plan_finished source outputdir dir_format date_regex fs :
  snd (plan exiftool strftime lower source outputdir dir_format date_regex fs)
  <> OutOfFuel.
Proof.
  unfold plan.
  apply bind_finished; [unfold exif; by destruct (exiftool fs source)|].
  intros exif_data fs1.
  apply bind_finished.
  { destruct (truthy exif_data); [apply is_image_or_video_finished|done]. }
  intros [|] fs2.
  - apply bind_finished; [apply get_date_finished|]. intros date fs3.
    apply bind_finished; [apply get_output_dir_finished|done].
  - apply bind_finished; [apply get_output_dir_finished|done].
Qed.

Lemma plan2_finished source outputdir dir_format date_regex fs :
  snd (plan2 sha256 exiftool strftime source outputdir dir_format date_regex fs)
  <> OutOfFuel.
Proof.
  unfold plan2.
  apply bind_finished; [unfold exif; by destruct (exiftool fs source)|].
  intros exif_data fs1.
  apply bind_finished.
  { unfold sha256_checksum. by destruct (files fs1 !! source). }
  intros sha fs2.
  apply bind_finished; [apply is_image_or_video_finished|].
  intros [|] fs3.
  - apply bind_finished; [apply get_date_finished|]. intros date fs4.
    apply bind_finished; [apply get_output_dir_finished|done].
  - apply bind_finished; [apply get_output_dir_finished|done].
Qed.

Lemma handle_file_finished source outputdir dir_format move_files date_regex fs :
  snd (handle_file sha256 exiftool strftime lower source outputdir dir_format
         move_files date_regex fs) <> OutOfFuel.
Proof.
  unfold handle_file. destruct (endswith source ".xmp"); [done|].
  apply bind_finished; [apply plan_finished|]. intros p fs1.
  apply place_file_finished.
Qed.

Lemma handle_file2_finished source outputdir dir_format move_files date_regex fs :
  snd (handle_file2 sha256 exiftool strftime source outputdir dir_format
         move_files date_regex fs) <> OutOfFuel.
Proof.
  unfold handle_file2.
  apply bind_finished; [apply plan2_finished|]. intros p fs1.
  destruct (isfile _ fs1); [done|].
  by destruct (copy_or_move_spec move_files source
                 (PyStr.join OsPath.sep [fst p; snd p]) fs1) as [[e ->]|[fs2 ->]].
Qed.

(** One turn of the loop of [main] gives the new counts or ends the
    program; the counts go up by one, or stay for an ignored name. *)
Lemma main_step_result sha_rename root filename outputdir dir_format move_files
    date_regex count fs :
  let r := snd (main_step sha256 exiftool strftime lower sha_rename root filename
                  outputdir dir_format move_files date_regex count fs) in
  r = SysExit
  \/ ((filename ∈ ignored_files) /\ r = Ok count)
  \/ ((filename ∉ ignored_files) /\ exists st, r = Ok (incr count st)).
Proof.
  unfold main_step. destruct (bool_decide_reflect (filename ∈ ignored_files)) as [Hi|Hi].
  { right. left. done. }
  pose proof (handle_file_finished (OsPath.join root filename) outputdir
                dir_format move_files date_regex fs) as H1.
  pose proof (handle_file2_finished (OsPath.join root filename) outputdir
                dir_format move_files date_regex fs) as H2.
  destruct sha_rename.
  - destruct (handle_file2 _ _ _ _ _ _ _ _ _) as [fs1 [st|e| |]]; simpl in *;
      [right; right; eauto|right; right; eauto|by left|done].
  - destruct (handle_file _ _ _ _ _ _ _ _ _ _) as [fs1 [st|e| |]]; simpl in *;
      [right; right; eauto|right; right; eauto|by left|done].
Qed.

Lemma processed_incr count st : processed (incr count st) = S (processed count).
Proof.
  unfold processed, statuses, incr.
  destruct st; simpl; repeat (rewrite decide_True by done || rewrite decide_False by done);
    lia.
Qed.

Lemma incr_le count st k : (count k <= incr count st k)%nat.
Proof. unfold incr. destruct (decide (k = st)); lia. Qed.

Lemma main_files_result sha_rename root files outputdir dir_format move_files
    date_regex count fs :
  let r := snd (main_files sha256 exiftool strftime lower sha_rename root files
                  outputdir dir_format move_files date_regex count fs) in
  r = SysExit
  \/ exists count', r = Ok count'
       /\ processed count' = (processed count + length (handled files))%nat
       /\ (forall k, (count k <= count' k)%nat)
       /\ (handled files = [] -> count' = count).
Proof.
  revert count fs. induction files as [|filename files IH]; intros count fs.
  { right. exists count. simpl. repeat split; try done; lia. }
  simpl. unfold bind.
  pose proof (main_step_result sha_rename root filename outputdir dir_format
                move_files date_regex count fs) as Hs.
  destruct (main_step _ _ _ _ _ _ _ _ _ _ _ _ _) as [fs1 r]. simpl in Hs.
  destruct Hs as [->|[[Hi ->]|[Hi [st ->]]]]; [by left|..].
  - destruct (IH count fs1) as [H|(count' & H & Hp & Hle & He)]; [by left|right].
    exists count'. unfold handled in *. simpl.
    rewrite bool_decide_eq_true_2 by done. simpl. done.
  - destruct (IH (incr count st) fs1) as [H|(count' & H & Hp & Hle & He)];
      [by left|right].
    exists count'. unfold handled in *. simpl.
    rewrite bool_decide_eq_false_2 by done. simpl.
    split; [done|]. split; [rewrite Hp, processed_incr; lia|].
    split; [|done].
    intros k. specialize (Hle k). pose proof (incr_le count st k). lia.
Qed.

(** X1: timestamp mode counts a file under [other] exactly when its name
    ends in [.xmp]: a file that is no picture or video is copied or
    moved to the [unknown] bucket like any other.  Digest-rename mode
    never counts a file under [other].  Neither handler returns
    [error], which only an exception gives, and [copied] and [moved]
    are the outcomes of their modes only. *)
Theorem outcomes_of_the_handlers source outputdir dir_format move_files
    date_regex fs fs' st :
  (handle_file sha256 exiftool strftime lower source outputdir dir_format move_files
     date_regex fs = (fs', Ok st) ->
   st <> error
   /\ (st = other <-> endswith source ".xmp" = true)
   /\ (st = copied -> move_files = false)
   /\ (st = moved -> move_files = true))
  /\ (handle_file2 sha256 exiftool strftime source outputdir dir_format
        move_files date_regex fs = (fs', Ok st) ->
      st <> error /\ st <> other
      /\ (st = copied -> move_files = false)
      /\ (st = moved -> move_files = true)).
Proof.
  split; intros H.
  - apply handle_file_outcome in H as [[Hx ->]|[Hx [->| ->]]].
    + repeat split; try done.
    + repeat split; try done. by rewrite Hx.
    + destruct move_files; repeat split; try done; by rewrite Hx.
  - apply handle_file2_outcome in H as [->| ->].
    + repeat split; done.
    + destruct move_files; repeat split; done.
Qed.

(** X2: the loop of [handle_file] always comes to an end: one turn more
    than the tree has files is enough for every tree, so neither
    handler, nor the loop of [main] over the files of a directory is
    ever cut short by the step bound. *)
Theorem the_handlers_terminate sha_rename root files source outputdir dir_format
    move_files date_regex count fs :
  snd (handle_file sha256 exiftool strftime lower source outputdir dir_format
         move_files date_regex fs) <> OutOfFuel
  /\ snd (handle_file2 sha256 exiftool strftime source outputdir dir_format
            move_files date_regex fs) <> OutOfFuel
  /\ snd (main_files sha256 exiftool strftime lower sha_rename root files outputdir
            dir_format move_files date_regex count fs) <> OutOfFuel.
Proof.
  split; [apply handle_file_finished|]. split; [apply handle_file2_finished|].
  by destruct (main_files_result sha_rename root files outputdir dir_format
                 move_files date_regex count fs) as [->|(count' & -> & _)].
Qed.

(** X3: no exception of a handler leaves the loop of [main]: over the
    files of a directory it ends the program ([sys.exit], when an
    output directory cannot be made) or returns the counts, and then
    the sum of the counts has grown by the number of names that are
    not ignored, one per file whatever happened to it, and no count
    has gone down. *)
Theorem main_counts_every_file_once sha_rename root files outputdir dir_format
    move_files date_regex count fs :
  let r := snd (main_files sha256 exiftool strftime lower sha_rename root files
                  outputdir dir_format move_files date_regex count fs) in
  r = SysExit
  \/ exists count', r = Ok count'
       /\ processed count' = (processed count + length (handled files))%nat
       /\ forall k, (count k <= count' k)%nat.
Proof.
  destruct (main_files_result sha_rename root files outputdir dir_format
              move_files date_regex count fs) as [H|(count' & H & Hp & Hle & _)];
    [by left|right]. by exists count'.
Qed.

End Outcomes.

Section SummaryFacts.
Import PyStr OsPath Re Calendar Os StrFacts OsFacts.

Variable sha256 : string -> string.
Variable exiftool : FS -> string -> option string.
Variable strftime : datetime -> string -> option string.
Variable lower : string -> string.
Variable format_quotient : nat -> nat -> string.

Lemma print_summary_end summary :
  snd (print_summary format_quotient summary)
  = if (processed summary =? 0)%nat then ZeroDivisionError else Returned.
Proof.
  unfold print_summary, processed. by destruct (_ =? 0)%nat.
Qed.

(** X4: after the loop of [main] over the files of a directory, started
    with all counts at zero, [print_summary] raises
    [ZeroDivisionError] exactly when every name of the listing is
    ignored, so in particular for an empty directory; it then has
    written the line of the total only.  Otherwise it returns, with a
    line for the total and one for each of the five counts. *)
Theorem summary_divides_by_zero_without_files sha_rename root files outputdir
    dir_format move_files date_regex fs fs' count :
  main_files sha256 exiftool strftime lower sha_rename root files outputdir
    dir_format move_files date_regex zero_count fs = (fs', Ok count) ->
  (handled files = [] ->
     fs' = fs
     /\ print_summary format_quotient count
        = (["total:" +:+ TAB +:+ "0" +:+ TAB +:+ "100%"], ZeroDivisionError))
  /\ (handled files <> [] ->
        snd (print_summary format_quotient count) = Returned
        /\ length (fst (print_summary format_quotient count)) = 6%nat).
Proof.
  intros H.
  destruct (main_files_result sha256 exiftool strftime lower sha_rename root files
              outputdir dir_format move_files date_regex zero_count fs)
    as [Hr|(count' & Hr & Hp & _ & He)]; rewrite H in Hr; simpl in Hr; [done|].
  injection Hr as <-. split.
  - intros Hh. split.
    + clear -H Hh. revert fs H. induction files as [|f files IH]; intros fs H.
      { by injection H. }
      unfold handled in Hh. simpl in Hh.
      destruct (bool_decide_reflect (f ∈ ignored_files)) as [Hi|Hi]; [|done].
      simpl in H. unfold bind, main_step in H.
      rewrite bool_decide_eq_true_2 in H by done. by apply IH.
    + by rewrite (He Hh).
  - intros Hh. rewrite print_summary_end, Hp.
    assert (length (handled files) <> 0)%nat as Hl by (by destruct (handled files)).
    change (processed zero_count) with 0%nat.
    destruct (0 + length (handled files) =? 0)%nat eqn:E;
      [apply Nat.eqb_eq in E; lia|].
    split; [done|]. unfold print_summary.
    change (sum_list (count <$> statuses)) with (processed count).
    rewrite Hp. change (processed zero_count) with 0%nat. by rewrite E.
Qed.

End SummaryFacts.

(** ** The directory template of the [--date] option *)

Section DateFormat.
Import PyStr OsPath StrFacts.

Lemma replace_go_cons old new c s :
  replace_go old new 0 (String c s)
  = if startswith (String c s) old
    then new +:+ replace_go old new (String.length old - 1) s
    else String c (replace_go old new 0 s).
Proof. reflexivity. Qed.

Lemma replace_go_skip old new k c s :
  replace_go old new (S k) (String c s) = replace_go old new k s.
Proof. reflexivity. Qed.

Lemma startswith_nil s : startswith s "" = true.
Proof. by destruct s. Qed.

Lemma startswith_cons c s d p :
  startswith (String c s) (String d p) = Ascii.eqb d c && startswith s p.
Proof. reflexivity. Qed.

Lemma startswith_length s p :
  startswith s p = true -> (String.length p <= String.length s)%nat.
Proof.
  revert p. induction s as [|c s IH]; intros [|d p] H; simpl in *; try done; try lia.
  apply andb_true_iff in H as [_ H]. apply IH in H. lia.
Qed.

(** A text that lacks [ch] starts [a ++ ch ++ b] only if it starts
    [a]. *)
Lemma startswith_before ch old a b :
  contains ch old = false ->
  startswith (a +:+ String ch b) old = startswith a old.
Proof.
  revert old. induction a as [|c a IH]; intros [|d old] H.
  - done.
  - change ("" +:+ String ch b) with (String ch b).
    rewrite startswith_cons. simpl in H. apply orb_false_iff in H as [H _].
    by rewrite H.
  - done.
  - rewrite str_app_cons, !startswith_cons. simpl in H.
    apply orb_false_iff in H as [_ H]. by rewrite IH.
Qed.

(** Replacing a text that lacks [ch] goes through the parts that [ch]
    separates. *)
Lemma replace_go_before ch old new skip a b :
  old <> "" -> contains ch old = false ->
  (skip <= String.length a)%nat ->
  replace_go old new skip (a +:+ String ch b)
  = replace_go old new skip a +:+ String ch (replace_go old new 0 b).
Proof.
  intros Ho Hc. revert skip. induction a as [|c a IH]; intros skip Hs.
  - simpl in Hs. assert (skip = 0)%nat as -> by lia.
    change ("" +:+ String ch b) with (String ch b).
    rewrite replace_go_cons.
    destruct old as [|d old]; [done|]. rewrite startswith_cons.
    simpl in Hc. apply orb_false_iff in Hc as [Hc _]. by rewrite Hc.
  - rewrite str_app_cons. destruct skip as [|k].
    + rewrite !replace_go_cons. rewrite <- str_app_cons.
      rewrite startswith_before by done.
      destruct (startswith (String c a) old) eqn:E.
      * apply startswith_length in E. simpl in E.
        rewrite IH by lia. by rewrite str_app_assoc.
      * rewrite IH by lia. by rewrite str_app_cons.
    + rewrite !replace_go_skip. apply IH. simpl in Hs. lia.
Qed.

Lemma replace_before ch old new a b :
  old <> "" -> contains ch old = false ->
  replace (a +:+ String ch b) old new
  = replace a old new +:+ String ch (replace b old new).
Proof. intros Ho Hc. unfold replace. apply replace_go_before; [done..|lia]. Qed.

(** Replacing one character goes through every concatenation. *)
Lemma replace_char_cons ch new c s :
  replace (String c s) (String ch "") new
  = (if Ascii.eqb ch c then new else String c "") +:+ replace s (String ch "") new.
Proof.
  unfold replace. rewrite replace_go_cons, startswith_cons, startswith_nil.
  rewrite andb_true_r. by destruct (Ascii.eqb ch c).
Qed.

Lemma replace_char_app ch new a b :
  replace (a +:+ b) (String ch "") new
  = replace a (String ch "") new +:+ replace b (String ch "") new.
Proof.
  induction a as [|c a IH]; [done|].
  rewrite str_app_cons, !replace_char_cons, IH. by rewrite str_app_assoc.
Qed.

Lemma replace_char_same ch s : replace s (String ch "") (String ch "") = s.
Proof.
  induction s as [|c s IH]; [done|]. rewrite replace_char_cons, IH.
  destruct (Ascii.eqb_spec ch c) as [->|]; done.
Qed.

Lemma replace_char_gone ch new s :
  contains ch new = false -> contains ch (replace s (String ch "") new) = false.
Proof.
  intros Hn. induction s as [|c s IH]; [done|].
  rewrite replace_char_cons, contains_app, IH, orb_false_r.
  destruct (Ascii.eqb_spec ch c) as [->|Hne]; [done|]. simpl.
  rewrite orb_false_r. by apply Ascii.eqb_neq.
Qed.

(** X5: the template is translated part by part: a character that is no
    letter of a directive ([Y], [M], [m], [D]) separates two parts
    that are translated on their own, and stays between them, except
    that the backslash becomes the separator of paths, as the slash
    is.  A translated template holds no backslash. *)
Theorem parse_date_format_by_parts a ch b :
  contains ch "YMmD" = false ->
  parse_date_format (a +:+ String ch b)
  = parse_date_format a
    +:+ String (if Ascii.eqb ch "\" then "/" else ch) (parse_date_format b)
  /\ contains "\" (parse_date_format a) = false.
Proof.
  intros H. simpl in H.
  apply orb_false_iff in H as [HY H]. apply orb_false_iff in H as [HM H].
  apply orb_false_iff in H as [Hm H]. apply orb_false_iff in H as [HD _].
  split.
  - unfold parse_date_format, OsPath.sep.
    rewrite (replace_before ch "YYYY") by (by simpl; rewrite ?HY).
    rewrite (replace_before ch "YY") by (by simpl; rewrite ?HY).
    rewrite (replace_before ch "m") by (by simpl; rewrite ?Hm).
    rewrite (replace_before ch "MM") by (by simpl; rewrite ?HM).
    rewrite (replace_before ch "M") by (by simpl; rewrite ?HM).
    rewrite (replace_before ch "DDD") by (by simpl; rewrite ?HD).
    rewrite (replace_before ch "DD") by (by simpl; rewrite ?HD).
    rewrite !replace_char_same.
    rewrite (replace_char_app "\"). f_equal.
    rewrite replace_char_cons. rewrite Ascii.eqb_sym.
    by destruct (Ascii.eqb ch "\").
  - unfold parse_date_format, OsPath.sep. rewrite replace_char_same.
    by apply replace_char_gone.
Qed.

End DateFormat.

(** ** The output directory and the order of the date sources *)

Section Directories.
Import PyStr OsPath Re Calendar Os StrFacts OsFacts.

Variable strftime : datetime -> string -> option string.

Lemma drop_last_app s c : drop_last (s +:+ String c "") = s.
Proof.
  induction s as [|d s IH]; [done|]. rewrite str_app_cons. simpl. rewrite IH.
  by destruct s.
Qed.

(** X6: [get_output_dir] returns a path only when it is, or has become,
    a directory: then no file of the tree has changed, no directory
    is gone, and asking again gives the same path without changing
    the tree.  Otherwise it ends the program and leaves the tree as it
    was; it never raises.  One separator at the end of the output root
    makes no difference. *)
Theorem get_output_dir_gives_a_directory date outputdir dir_format fs :
  let r := get_output_dir strftime date outputdir dir_format fs in
  files (fst r) = files fs
  /\ dirs fs ⊆ dirs (fst r)
  /\ ((exists p, snd r = Ok p
         /\ isdir p (fst r) = true
         /\ get_output_dir strftime date outputdir dir_format (fst r) = (fst r, Ok p))
      \/ (snd r = SysExit /\ fst r = fs))
  /\ (endswith outputdir "/" = false ->
      get_output_dir strftime date (outputdir +:+ "/") dir_format fs = r).
Proof.
  cbv zeta. split; [apply get_output_dir_files|].
  split; [|split].
  - unfold get_output_dir. destruct (isdir _ fs); [done|].
    unfold makedirs. destruct (_ || _); [done|]. simpl. set_solver.
  - unfold get_output_dir.
    set (p := PyStr.join OsPath.sep _).
    destruct (isdir p fs) eqn:Ed.
    + left. exists p. simpl. by rewrite Ed.
    + destruct (makedirs p fs) as [fs'|] eqn:Em; [left|by right].
      exists p. simpl.
      assert (isdir p fs' = true) as Hd.
      { unfold makedirs in Em. destruct (_ || _); [done|]. injection Em as <-.
        unfold isdir. simpl. apply bool_decide_eq_true. set_solver. }
      by rewrite Hd.
  - intros He. unfold get_output_dir, OsPath.sep.
    rewrite endswith_app, He. by rewrite drop_last_app.
Qed.

(** X7: when a date key is present with a value that is not empty,
    [get_date] returns a dictionary made from that value alone: the
    name of the file, the pattern and the keys that come later are not
    looked at, also when the value is no date-time. *)
Theorem get_date_first_key_decides file file' exif_data exif_data' user_regex
    user_regex' umd umd' v :
  first_present (keys umd) exif_data = Some v ->
  first_present (keys umd') exif_data' = Some v ->
  v <> "" ->
  get_date file exif_data user_regex umd
  = get_date file' exif_data' user_regex' umd'
  /\ exists parsed_date_time subseconds,
       get_date file exif_data user_regex umd
       = Ok (Some (mkResolved parsed_date_time subseconds)).
Proof.
  intros H H' Hv. unfold get_date. rewrite H, H'.
  destruct v as [|c v]; [done|]. split; [done|]. eauto.
Qed.

End Directories.

(** ** Reading the output of [exiftool] *)

Section Metadata.
Import PyStr OsPath Re Calendar Os StrFacts OsFacts.

Variable exiftool : FS -> string -> option string.












End Metadata.

(** ** The MIME types that count as picture or video *)

Section MediaTypes.
Import PyStr OsPath Re Calendar Os StrFacts OsFacts ReFacts.

Lemma run_text_cons {R : Type} c t s g (k : groups -> string -> option R) :
  run (text (String c t)) s g k
  = match s with
    | String d s' =>
        if (if Ascii.eqb c "." then not_nl d else Ascii.eqb c d)
        then run (text t) s' g k else None
    | EmptyString => None
    end.
Proof. simpl. destruct (Ascii.eqb c "."); reflexivity. Qed.

Lemma like_cons p pat c s :
  like (String p pat) (String c s) = (Ascii.eqb p "." || Ascii.eqb p c) && like pat s.
Proof. reflexivity. Qed.

(** A text of the shape of [t] is matched by [text t]. *)
Lemma run_text_intro {R : Type} t a rest g (k : groups -> string -> option R) :
  like t a = true -> all_of not_nl a = true ->
  run (text t) (a +:+ rest) g k = k g rest.
Proof.
  revert a. induction t as [|c t IH]; intros [|d a] Hl Hn; try done.
  rewrite like_cons in Hl. apply andb_true_iff in Hl as [Hc Hl].
  simpl in Hn. apply andb_true_iff in Hn as [Hd Hn].
  rewrite str_app_cons, run_text_cons.
  destruct (Ascii.eqb c ".").
  - rewrite Hd. by apply IH.
  - simpl in Hc. rewrite Hc. by apply IH.
Qed.

(** What [text t] matches has the shape of [t]. *)
Lemma run_text_inv {R : Type} t s g (k : groups -> string -> option R) x :
  run (text t) s g k = Some x ->
  exists a rest, s = a +:+ rest /\ like t a = true /\ k g rest = Some x.
Proof.
  revert s. induction t as [|c t IH]; intros s H.
  - exists "", s. done.
  - rewrite run_text_cons in H. destruct s as [|d s]; [done|].
    destruct (if Ascii.eqb c "." then not_nl d else Ascii.eqb c d) eqn:E; [|done].
    destruct (IH _ H) as (a & rest & -> & Hl & Hk).
    exists (String d a), rest. split; [done|]. split; [|done].
    rewrite like_cons, Hl, andb_true_r.
    destruct (Ascii.eqb c "."); [done|]. by rewrite E.
Qed.

(** Without a dot in it, a shape is a text. *)
Lemma like_plain t a : contains "." t = false -> like t a = true -> a = t.
Proof.
  revert a. induction t as [|c t IH]; intros [|d a] Hc Hl; try done.
  rewrite like_cons in Hl. apply andb_true_iff in Hl as [Hd Hl].
  simpl in Hc. apply orb_false_iff in Hc as [Hc1 Hc2].
  rewrite Hc1 in Hd. simpl in Hd. apply Ascii.eqb_eq in Hd as <-.
  f_equal. by apply IH.
Qed.

Lemma like_refl t : like t t = true.
Proof.
  induction t as [|c t IH]; [done|].
  by rewrite like_cons, IH, Ascii.eqb_refl, orb_true_r.
Qed.

Lemma startswith_inv s p : startswith s p = true -> exists rest, s = p +:+ rest.
Proof.
  revert p. induction s as [|c s IH]; intros [|d p] H; try done.
  - by exists "".
  - by exists (String c s).
  - simpl in H. apply andb_true_iff in H as [Hc H].
    apply Ascii.eqb_eq in Hc as ->. destruct (IH _ H) as [rest ->].
    by exists rest.
Qed.

Lemma all_of_not_nl s : contains nl s = false -> all_of not_nl s = true.
Proof.
  induction s as [|c s IH]; [done|]. simpl. intros [Hc Hs]%orb_false_iff.
  unfold not_nl at 1. by rewrite Hc, IH.
Qed.

(** [image/] or [video/] and what has to follow it: one character and
    then any text, up to the end. *)
Lemma run_kind_intro {R : Type} kind c rest g (k : groups -> string -> option R) x :
  all_of not_nl (kind +:+ String c rest) = true ->
  k g "" = Some x ->
  run (Cat (text kind) (Cat dot (Star not_nl))) (kind +:+ String c rest) g k
  = Some x.
Proof.
  intros Hn Hk. rewrite all_of_app in Hn. apply andb_true_iff in Hn as [Hn1 Hn2].
  simpl in Hn2. apply andb_true_iff in Hn2 as [Hc Hr].
  cbn [run]. rewrite run_text_intro; [|apply like_refl|done].
  cbn [run dot]. rewrite Hc.
  rewrite <- (str_app_nil_r rest). by apply star_app_some.
Qed.

Lemma run_kind_inv {R : Type} kind s g (k : groups -> string -> option R) x :
  contains "." kind = false ->
  run (Cat (text kind) (Cat dot (Star not_nl))) s g k = Some x ->
  exists c rest, s = kind +:+ String c rest.
Proof.
  intros Hk H. cbn [run] in H.
  apply run_text_inv in H as (a & rest & -> & Hl & H).
  apply like_plain in Hl as ->; [|done].
  destruct rest as [|c rest]; [done|]. eauto.
Qed.

Lemma rmatch_mime v :
  rmatch mime_pattern v
  = let k := fun g s =>
        run Eol s (("1", consumed v s) :: g) (fun g' s' => Some (g', s')) in
    match run (Cat (text "image/") (Cat dot (Star not_nl))) v [] k with
    | Some x => Some x
    | None =>
        match run (Cat (text "video/") (Cat dot (Star not_nl))) v [] k with
        | Some x => Some x
        | None => run (text "application/vnd.adobe.photoshop") v [] k
        end
    end.
Proof. reflexivity. Qed.

Lemma startswith_longer s p :
  startswith s p = true -> (String.length p < String.length s)%nat ->
  exists c rest, s = p +:+ String c rest.
Proof.
  intros [rest ->]%startswith_inv Hl. rewrite str_length_app in Hl.
  destruct rest as [|c rest]; [simpl in Hl; lia|]. eauto.
Qed.

Lemma mime_pattern_media_type v :
  contains nl v = false ->
  bool_decide (is_Some (rmatch mime_pattern v)) = media_type v.
Proof.
  intros Hv. pose proof (all_of_not_nl v Hv) as Hn.
  rewrite rmatch_mime. cbv zeta.
  set (k := fun g s => run Eol s (("1", consumed v s) :: g)
                         (fun g' s' => Some (g', s'))).
  assert (forall g, k g "" = Some (("1", consumed v "") :: g, "")) as Hk by done.
  destruct (media_type v) eqn:Em.
  - apply bool_decide_eq_true. unfold media_type in Em.
    apply orb_true_iff in Em as [Em|Em]; [apply orb_true_iff in Em as [Em|Em]|].
    + apply andb_true_iff in Em as [Hs Hl]. apply Nat.ltb_lt in Hl.
      destruct (startswith_longer v "image/" Hs Hl) as (c & rest & E).
      rewrite E at 1. rewrite E in Hn.
      by erewrite run_kind_intro.
    + apply andb_true_iff in Em as [Hs Hl]. apply Nat.ltb_lt in Hl.
      destruct (startswith_longer v "video/" Hs Hl) as (c & rest & E).
      destruct (run (Cat (text "image/") _) v [] k); [done|].
      rewrite E at 1. rewrite E in Hn.
      by erewrite run_kind_intro.
    + destruct (run (Cat (text "image/") _) v [] k); [done|].
      destruct (run (Cat (text "video/") _) v [] k); [done|].
      rewrite <- (str_app_nil_r v) at 1.
      rewrite run_text_intro by done. by rewrite Hk.
  - apply bool_decide_eq_false. intros [x Hx].
    assert (media_type v = true) as Ht; [|congruence].
    clear Em. unfold media_type.
    destruct (run (Cat (text "image/") _) v [] k) as [y|] eqn:E1.
    { apply run_kind_inv in E1 as (c & rest & ->); [|done].
      assert ((6 <? String.length ("image/" +:+ String c rest))%nat = true) as Hlt.
      { rewrite str_length_app. apply Nat.ltb_lt. simpl. lia. }
      by rewrite startswith_app, Hlt. }
    destruct (run (Cat (text "video/") _) v [] k) as [y|] eqn:E2.
    { apply run_kind_inv in E2 as (c & rest & ->); [|done].
      assert ((6 <? String.length ("video/" +:+ String c rest))%nat = true) as Hlt.
      { rewrite str_length_app. apply Nat.ltb_lt. simpl. lia. }
      rewrite startswith_app, Hlt. by destruct (startswith _ "image/"). }
    apply run_text_inv in Hx as (a & rest & E & Hl & Hx).
    unfold k in Hx. cbn [run] in Hx.
    destruct (String.eqb_spec rest "") as [->|Hr].
    + rewrite str_app_nil_r in E. subst a. rewrite Hl. apply orb_true_r.
    + destruct (String.eqb_spec rest NL) as [->|Hr2]; [|done].
      rewrite E, contains_app in Hv. apply orb_false_iff in Hv as [_ Hv].
      vm_compute in Hv. discriminate.
Qed.

(** X9: A file counts as picture or video exactly when its MIME type is
    [image/] or [video/] followed by at least one character, or has
    the shape of [application/vnd.adobe.photoshop] with any character
    in the place of each dot: the pattern of line 273 does not escape
    its dots.  The value is one line, as every value that [exif]
    returns is. *)
Theorem picture_or_video_by_mime_type exif_data v :
  exif_data !! "MIME Type" = Some v -> contains nl v = false ->
  is_image_or_video (Some exif_data) = Ok (media_type v).
Proof.
  intros Hm Hv. unfold is_image_or_video, truthy.
  rewrite bool_decide_eq_false_2.
  - simpl. rewrite Hm. by rewrite mime_pattern_media_type.
  - intros ->. by rewrite lookup_empty in Hm.
Qed.

End MediaTypes.

(** ** What placement leaves alone and where the file arrives *)

Section Frame.
Import PyStr OsPath Re Calendar Os StrFacts OsFacts.

Variable sha256 : string -> string.
Variable exiftool : FS -> string -> option string.
Variable strftime : datetime -> string -> option string.
Variable lower : string -> string.




(** *** Where a placed file is *)

Lemma endswith_after ch a b suf :
  contains ch suf = false -> suf <> "" ->
  endswith (a +:+ String ch b) suf = endswith b suf.
Proof.
  intros Hc Hs. destruct (endswith b suf) eqn:Eb.
  - change (String ch b) with (String ch "" +:+ b).
    rewrite <- str_app_assoc. by apply endswith_app_r.
  - apply not_true_is_false. intros [x Hx]%endswith_inv.
    apply app_eq_app in Hx as [(z & Hz & _)|(z & Hz & _)].
    + destruct z as [|d z].
      * change ("" +:+ suf) with suf in Hz. rewrite <- Hz in Hc.
        simpl in Hc. by rewrite Ascii.eqb_refl in Hc.
      * rewrite str_app_cons in Hz. injection Hz as _ ->.
        by rewrite endswith_app in Eb.
    + rewrite Hz, contains_app in Hc. apply orb_false_iff in Hc as [_ Hc].
      simpl in Hc. by rewrite Ascii.eqb_refl in Hc.
Qed.

Lemma place_arrives n src tp name dir mv k fs fs' st :
  endswith tp ".xmp" = false -> (1 <= k)%nat ->
  place sha256 n src tp name dir mv k (candidate tp k) fs = (fs', Ok st) ->
  st <> duplicate ->
  exists k' c, (k <= k')%nat
    /\ files fs !! src = Some c
    /\ (forall j, (k <= j < k')%nat ->
          exists c', files fs !! candidate tp j = Some c' /\ sha256 c <> sha256 c')
    /\ files fs !! candidate tp k' = None
    /\ (isdir (candidate tp k') fs = false ->
        files fs' !! candidate tp k' = Some c
        /\ dirs fs' = dirs fs
        /\ forall p, endswith p ".xmp" = false -> p <> candidate tp k' ->
             p <> src -> files fs' !! p = files fs !! p).
Proof.
  intros Hx. revert k. induction n as [|n IH]; intros k Hk H Hst; [done|].
  destruct (files fs !! candidate tp k) as [c'|] eqn:Et.
  - destruct (files fs !! src) as [c|] eqn:Es.
    2: { simpl in H. rewrite (isfile_lookup _ _ _ Et) in H.
         unfold bind, sha256_checksum in H. by rewrite Es in H. }
    destruct (decide (sha256 c = sha256 c')) as [He|He].
    + erewrite place_dup in H by done. by injection H as <- <-.
    + erewrite place_next in H by done.
      assert (suffixed tp (S k) = candidate tp (S k)) as Hs.
      { unfold candidate. by rewrite (proj2 (Nat.leb_gt (S k) 1)) by lia. }
      rewrite Hs in H.
      destruct (IH (S k) ltac:(lia) H Hst) as (k' & c0 & Hk' & Hs0 & Hb & Hf & Ha).
      exists k', c0. split; [lia|]. split; [done|]. split; [|done].
      intros j Hj. destruct (decide (j = k)) as [->|Hne].
      * exists c'. split; [done|]. congruence.
      * apply Hb. lia.
  - exists k. rewrite place_free in H by done. unfold bind at 1 in H.
    unfold copy_or_move, bind, ret in H.
    assert (exists c fs1, files fs !! src = Some c
              /\ (isdir (candidate tp k) fs = false ->
                  files fs1 !! candidate tp k = Some c
                  /\ dirs fs1 = dirs fs
                  /\ forall p, p <> candidate tp k -> p <> src ->
                       files fs1 !! p = files fs !! p)
              /\ (let '(fs2, r) := handle_file_xmp src name k dir mv fs1 in
                  match r with
                  | Ok _ => (fs2, Ok (if mv then moved else copied))
                  | Raise e => (fs2, Raise e)
                  | SysExit => (fs2, SysExit)
                  | OutOfFuel => (fs2, OutOfFuel)
                  end) = (fs', Ok st)) as (c & fs1 & Hs & Hc & H').
    { destruct mv.
      - destruct (move_spec src (candidate tp k) fs)
          as [[e He]|(c & Hs & _ & _ & _ & He)]; rewrite He in H; [done|].
        exists c. eexists. split; [done|]. split; [|exact H].
        intros Hd. unfold move_dst. rewrite Hd. simpl.
        split; [apply lookup_insert_eq|]. split; [done|]. intros p Hp1 Hp2.
        by rewrite lookup_insert_ne, lookup_delete_ne.
      - destruct (copy2_spec src (candidate tp k) fs)
          as [[e He]|(c & Hs & _ & _ & _ & He)]; rewrite He in H; [done|].
        exists c. eexists. split; [done|]. split; [|exact H].
        intros Hd. unfold copy_dst. rewrite Hd. simpl.
        split; [apply lookup_insert_eq|]. split; [done|]. intros p Hp1 Hp2.
        by rewrite lookup_insert_ne. }
    exists c. split; [lia|]. split; [done|]. split; [intros j Hj; lia|].
    split; [done|]. intros Hd.
    pose proof (handle_file_xmp_frame src name k dir mv fs1) as [Hfd Hf].
    destruct (handle_file_xmp src name k dir mv fs1) as [fs2 [[]|e| |]];
      [|done..].
    injection H' as <- _. simpl in Hf, Hfd.
    destruct (Hc Hd) as (Hc1 & Hc2 & Hc3).
    split; [rewrite Hf; [done|by apply candidate_not_xmp]|].
    split; [congruence|].
    intros p Hp0 Hp1 Hp2. rewrite Hf by done. by apply Hc3.
Qed.

(** X11: A file that [handle_file] reports as copied or moved is at the
    first candidate of its planned path that held no file: the
    candidates before it hold files of other digests, and afterwards
    the candidate holds the content of the source, unchanged (if a
    directory stands at the candidate the file goes into it).  The
    planned name is supposed not to have the sidecar extension. *)
Theorem placed_file_is_at_the_first_free_candidate source outputdir dir_format
    move_files date_regex fs fs1 output_dir name fs' st :
  plan exiftool strftime lower source outputdir dir_format date_regex fs
    = (fs1, Ok (output_dir, name)) ->
  endswith name ".xmp" = false ->
  handle_file sha256 exiftool strftime lower source outputdir dir_format move_files
    date_regex fs = (fs', Ok st) ->
  st = copied \/ st = moved ->
  let tp := PyStr.join OsPath.sep [output_dir; name] in
  exists k c, (1 <= k)%nat
    /\ files fs !! source = Some c
    /\ (forall j, (1 <= j < k)%nat ->
          exists c', files fs !! candidate tp j = Some c' /\ sha256 c <> sha256 c')
    /\ files fs !! candidate tp k = None
    /\ (isdir (candidate tp k) fs1 = false -> files fs' !! candidate tp k = Some c).
Proof.
  intros Hp Hn H Hst. cbv zeta.
  pose proof (plan_files exiftool strftime lower source outputdir dir_format
                date_regex fs) as Hf.
  rewrite Hp in Hf. simpl in Hf.
  unfold handle_file in H. destruct (endswith source ".xmp").
  { injection H as _ <-. by destruct Hst. }
  unfold bind in H. rewrite Hp in H. unfold place_file in H.
  change (fst (output_dir, name)) with output_dir in H.
  change (snd (output_dir, name)) with name in H.
  set (tp := PyStr.join OsPath.sep [output_dir; name]) in *.
  assert (endswith tp ".xmp" = false) as Hx.
  { unfold tp, OsPath.sep.
    change (PyStr.join "/" [output_dir; name]) with (output_dir +:+ String "/" name).
    by rewrite endswith_after. }
  rewrite <- (candidate_1 tp) in H at 2.
  apply place_arrives in H; [|done|lia|by destruct Hst as [->| ->]].
  destruct H as (k & c & Hk & Hs & Hb & Hfree & Ha).
  exists k, c. rewrite <- Hf. repeat split; try done.
  intros Hd. by apply Ha.
Qed.

(** *** Running again *)

Lemma get_output_dir_again date outputdir dir_format fs fs1 p fs2 :
  get_output_dir strftime date outputdir dir_format fs = (fs1, Ok p) ->
  dirs fs2 = dirs fs1 ->
  get_output_dir strftime date outputdir dir_format fs2 = (fs2, Ok p).
Proof.
  unfold get_output_dir. set (q := PyStr.join OsPath.sep _). intros H Hd.
  assert (p = q /\ isdir q fs1 = true) as [-> Hq].
  { destruct (isdir q fs) eqn:E.
    - by injection H as <- <-.
    - destruct (makedirs q fs) as [fs0|] eqn:Em; [|done].
      injection H as <- <-. split; [done|].
      unfold makedirs in Em. destruct (_ || _); [done|]. injection Em as <-.
      unfold isdir. simpl. apply bool_decide_eq_true.
      apply elem_of_union. left. apply elem_of_union. right.
      by apply elem_of_singleton. }
  unfold isdir in *. rewrite Hd. by rewrite Hq.
Qed.

Lemma plan_again source outputdir dir_format date_regex fs fs1 p fs2 :
  plan exiftool strftime lower source outputdir dir_format date_regex fs = (fs1, Ok p) ->
  exiftool fs2 source = exiftool fs source ->
  dirs fs2 = dirs fs1 ->
  plan exiftool strftime lower source outputdir dir_format date_regex fs2 = (fs2, Ok p).
Proof.
  intros H He Hd. revert H. unfold plan, exif, bind, lift, ret. rewrite He.
  assert (forall date x,
            (let '(fs0, r) := get_output_dir strftime date outputdir dir_format fs in
             match r with
             | Ok a => (fs0, Ok (a, x))
             | Raise e => (fs0, Raise e)
             | SysExit => (fs0, SysExit)
             | OutOfFuel => (fs0, OutOfFuel)
             end) = (fs1, Ok p) ->
            (let '(fs0, r) := get_output_dir strftime date outputdir dir_format fs2 in
             match r with
             | Ok a => (fs0, Ok (a, x))
             | Raise e => (fs0, Raise e)
             | SysExit => (fs0, SysExit)
             | OutOfFuel => (fs0, OutOfFuel)
             end) = (fs2, Ok p)) as Hg.
  { intros date x.
    destruct (get_output_dir strftime date outputdir dir_format fs)
      as [fs0 [od|e| |]] eqn:Eg; try done.
    intros [= <- <-]. by erewrite get_output_dir_again. }
  destruct (exiftool fs source) as [out|].
  - destruct (truthy _).
    + destruct (is_image_or_video _) as [[|]|e| |]; try done.
      * destruct (get_date _ _ _ _) as [d|e| |]; try done. apply Hg.
      * apply Hg.
    + apply Hg.
  - simpl. apply Hg.
Qed.

(** X12: organizing twice: when [handle_file] has copied a file, a second
    call on the tree it left returns [duplicate] and changes nothing
    more.  The metadata of the source is supposed to read the same in
    both trees, no directory to stand at a candidate path, and the
    planned name not to have the sidecar extension. *)
Theorem copying_again_is_duplicate source outputdir dir_format date_regex
    fs fs1 output_dir name fs' :
  plan exiftool strftime lower source outputdir dir_format date_regex fs
    = (fs1, Ok (output_dir, name)) ->
  endswith name ".xmp" = false ->
  (forall k, isdir (candidate (PyStr.join OsPath.sep [output_dir; name]) k) fs1
             = false) ->
  handle_file sha256 exiftool strftime lower source outputdir dir_format false
    date_regex fs = (fs', Ok copied) ->
  exiftool fs' source = exiftool fs source ->
  handle_file sha256 exiftool strftime lower source outputdir dir_format false
    date_regex fs' = (fs', Ok duplicate).
Proof.
  intros Hp Hn Hnd H He.
  pose proof (plan_files exiftool strftime lower source outputdir dir_format
                date_regex fs) as Hf.
  rewrite Hp in Hf. simpl in Hf.
  unfold handle_file in H |- *. destruct (endswith source ".xmp") eqn:Ex; [done|].
  unfold bind in H |- *. rewrite Hp in H. unfold place_file in H.
  change (fst (output_dir, name)) with output_dir in H.
  change (snd (output_dir, name)) with name in H.
  set (tp := PyStr.join OsPath.sep [output_dir; name]) in *.
  assert (endswith tp ".xmp" = false) as Hx.
  { unfold tp, OsPath.sep.
    change (PyStr.join "/" [output_dir; name]) with (output_dir +:+ String "/" name).
    by rewrite endswith_after. }
  pose proof (place_copy_src sha256 (S (size (files fs1))) source tp name
                output_dir 1 tp fs1 Ex) as Hsrc.
  rewrite H in Hsrc. simpl in Hsrc.
  rewrite <- (candidate_1 tp) in H at 2.
  apply place_arrives in H; [|done|lia|done].
  destruct H as (k & c & Hk & Hs & Hb & Hfree & Ha).
  destruct (Ha (Hnd k)) as (Hc & Hd & Hfr).
  rewrite (plan_again source outputdir dir_format date_regex fs fs1
             (output_dir, name) fs' Hp He Hd).
  change (fst (output_dir, name)) with output_dir.
  change (snd (output_dir, name)) with name. fold tp.
  assert (place sha256 k source tp name output_dir false 1 (candidate tp 1) fs'
          = (fs', Ok duplicate)) as Hdup.
  { apply (place_finds_duplicate sha256 (k - 1) k _ _ _ _ _ _ _ c c);
      try done; try lia.
    - congruence.
    - intros j Hj. destruct (Hb j) as (c' & Hc' & Hne); [lia|].
      exists c'. rewrite Hfr; [done| | |].
      + by apply candidate_not_xmp.
      + intros E. apply candidate_inj in E; lia.
      + intros E. congruence.
    - by replace (1 + (k - 1))%nat with k by lia. }
  rewrite candidate_1 in Hdup.
  rewrite (place_file_eq sha256 k); [done|]. by rewrite Hdup.
Qed.

End Frame.

(** ** Date-times of the metadata *)

Section Timestamps.
Import PyStr OsPath Re Calendar Os StrFacts OsFacts ReFacts.

Lemma is_digit_cases c :
  is_digit c = true ->
  c ∈ ["0"; "1"; "2"; "3"; "4"; "5"; "6"; "7"; "8"; "9"]%char.
Proof.
  destruct c as [[] [] [] [] [] [] [] []]; intros H; try discriminate H;
    repeat (first [by apply list_elem_of_here|apply list_elem_of_further]).
Qed.

Lemma two_digits X :
  digits 2 X -> exists a b, X = String a (String b "")
                            /\ is_digit a = true /\ is_digit b = true.
Proof.
  intros [Hl Hd]. destruct X as [|a [|b [|? ?]]]; try discriminate Hl.
  simpl in Hd. apply andb_true_iff in Hd as [Ha Hd].
  apply andb_true_iff in Hd as [Hb _]. eauto.
Qed.

(** A group whose pattern reads [X] and goes on. *)
Lemma run_grp_some {R : Type} name r X rest g (k : groups -> string -> option R) x :
  k ((name, X) :: g) rest = Some x ->
  (forall K : groups -> string -> option R,
     K g rest = Some x -> run r (X +:+ rest) g K = Some x) ->
  run (Grp name r) (X +:+ rest) g k = Some x.
Proof. intros Hk Hr. cbn [run]. apply Hr. by rewrite consumed_app. Qed.

Ltac by_digits X HX Hr :=
  let a := fresh "a" in let b := fresh "b" in
  let Ha := fresh "Ha" in let Hb := fresh "Hb" in
  destruct (two_digits X HX) as (a & b & -> & Ha & Hb);
  apply is_digit_cases in Ha; apply is_digit_cases in Hb;
  repeat (apply elem_of_cons in Ha as [->|Ha]);
  try (by apply elem_of_nil in Ha);
  repeat (apply elem_of_cons in Hb as [->|Hb]);
  try (by apply elem_of_nil in Hb);
  try (exfalso; vm_compute in Hr; destruct Hr as [Hr1 Hr2];
       first [by apply Hr1|by apply Hr2]).

(** The groups of [%m], [%d], [%H], [%M] and [%S] read two digits of
    their range. *)
Lemma run_month {R : Type} X rest g (k : groups -> string -> option R) x :
  digits 2 X -> 1 <= decimal X <= 12 ->
  k (("m", X) :: g) rest = Some x ->
  run (Grp "m" (Alt (Cat (chr "1") (between "0" "2"))
               (Alt (Cat (chr "0") (between "1" "9"))
                    (between "1" "9")))) (X +:+ rest) g k = Some x.
Proof.
  intros HX Hr Hk. apply run_grp_some; [done|]. clear Hk. intros K HK.
  by_digits X HX Hr; vm_compute; by rewrite HK.
Qed.

Lemma run_day {R : Type} X rest g (k : groups -> string -> option R) x :
  digits 2 X -> 1 <= decimal X <= 31 ->
  k (("d", X) :: g) rest = Some x ->
  run (Grp "d" (Alt (Cat (chr "3") (between "0" "1"))
               (Alt (Cat (between "1" "2") digit)
               (Alt (Cat (chr "0") (between "1" "9"))
               (Alt (between "1" "9")
                    (Cat (chr " ") (between "1" "9"))))))) (X +:+ rest) g k
  = Some x.
Proof.
  intros HX Hr Hk. apply run_grp_some; [done|]. clear Hk. intros K HK.
  by_digits X HX Hr; vm_compute; by rewrite HK.
Qed.

Lemma run_hour {R : Type} X rest g (k : groups -> string -> option R) x :
  digits 2 X -> 0 <= decimal X <= 23 ->
  k (("H", X) :: g) rest = Some x ->
  run (Grp "H" (Alt (Cat (chr "2") (between "0" "3"))
               (Alt (Cat (between "0" "1") digit)
                    digit))) (X +:+ rest) g k = Some x.
Proof.
  intros HX Hr Hk. apply run_grp_some; [done|]. clear Hk. intros K HK.
  by_digits X HX Hr; vm_compute; by rewrite HK.
Qed.

Lemma run_minute {R : Type} X rest g (k : groups -> string -> option R) x :
  digits 2 X -> 0 <= decimal X <= 59 ->
  k (("M", X) :: g) rest = Some x ->
  run (Grp "M" (Alt (Cat (between "0" "5") digit) digit)) (X +:+ rest) g k
  = Some x.
Proof.
  intros HX Hr Hk. apply run_grp_some; [done|]. clear Hk. intros K HK.
  by_digits X HX Hr; vm_compute; by rewrite HK.
Qed.

Lemma run_second {R : Type} X rest g (k : groups -> string -> option R) x :
  digits 2 X -> 0 <= decimal X <= 59 ->
  k (("S", X) :: g) rest = Some x ->
  run (Grp "S" (Alt (Cat (chr "6") (between "0" "1"))
               (Alt (Cat (between "0" "5") digit)
                    digit))) (X +:+ rest) g k = Some x.
Proof.
  intros HX Hr Hk. apply run_grp_some; [done|]. clear Hk. intros K HK.
  by_digits X HX Hr; vm_compute; by rewrite HK.
Qed.

Lemma star_space_digits {R : Type} n ds rest (k : string -> option R) :
  digits (S n) ds -> star is_space (ds +:+ rest) k = k (ds +:+ rest).
Proof.
  intros [Hl Hd]. destruct ds as [|c ds]; [done|]. simpl in Hd.
  apply andb_true_iff in Hd as [Hc _].
  rewrite str_app_cons, star_cons. by rewrite is_digit_not_space.
Qed.

Lemma days_in_month_le y m : days_in_month y m <= 31.
Proof.
  unfold days_in_month. destruct (m =? 2); [by destruct (is_leap y)|].
  by destruct (_ || _).
Qed.

Lemma valid_datetime_ranges y mo d h mi sc :
  valid_datetime y mo d h mi sc = true ->
  1 <= mo <= 12 /\ 1 <= d <= 31 /\ 0 <= h <= 23 /\ 0 <= mi <= 59 /\ 0 <= sc <= 59.
Proof.
  unfold valid_datetime. rewrite !andb_true_iff, !Z.leb_le.
  pose proof (days_in_month_le y mo). lia.
Qed.

(** The pattern of [strptime] reads a date-time of the calendar. *)
Lemma rmatch_timestamp c Y Mo D H Mi S rest :
  digits 4 Y -> digits 2 Mo -> digits 2 D ->
  digits 2 H -> digits 2 Mi -> digits 2 S ->
  valid_datetime (decimal Y) (decimal Mo) (decimal D)
    (decimal H) (decimal Mi) (decimal S) = true ->
  rmatch (strptime_regex c)
    (Y +:+ String c (Mo +:+ String c (D +:+ String " " (H +:+ String ":"
       (Mi +:+ String ":" (S +:+ rest))))))
  = Some ([("S", S); ("M", Mi); ("H", H); ("d", D); ("m", Mo); ("Y", Y)], rest).
Proof.
  intros HY HMo HD HH HMi HS Hv.
  destruct (valid_datetime_ranges _ _ _ _ _ _ Hv) as (Rmo & Rd & Rh & Rmi & Rs).
  unfold rmatch, strptime_regex, chr.
  rewrite run_seq_cons, run_grp_digits by done.
  rewrite run_seq_cons, run_chr, Ascii.eqb_refl.
  rewrite run_seq_cons. apply run_month; [done..|].
  rewrite run_seq_cons, run_chr, Ascii.eqb_refl.
  rewrite run_seq_cons. apply run_day; [done..|].
  rewrite run_seq_cons, run_chr.
  change (is_space " ") with true. cbv iota.
  rewrite run_seq_cons. cbn [run]. rewrite (star_space_digits 1) by done.
  rewrite run_seq_cons. apply run_hour; [done..|].
  rewrite run_seq_cons, run_chr, Ascii.eqb_refl.
  rewrite run_seq_cons. apply run_minute; [done..|].
  rewrite run_seq_cons, run_chr, Ascii.eqb_refl.
  rewrite run_seq_cons. apply run_second; [done..|].
  reflexivity.
Qed.

Lemma strptime_timestamp c Y Mo D H Mi S :
  digits 4 Y -> digits 2 Mo -> digits 2 D ->
  digits 2 H -> digits 2 Mi -> digits 2 S ->
  valid_datetime (decimal Y) (decimal Mo) (decimal D)
    (decimal H) (decimal Mi) (decimal S) = true ->
  strptime c (timestamp c Y Mo D H Mi S)
  = Some (mk_datetime (decimal Y) (decimal Mo) (decimal D)
            (decimal H) (decimal Mi) (decimal S)).
Proof.
  intros HY HMo HD HH HMi HS Hv. unfold strptime, timestamp.
  rewrite <- (str_app_nil_r S) at 1.
  rewrite rmatch_timestamp by done.
  unfold group_int, group.
  cbn [List.find fst snd String.eqb Ascii.eqb Bool.eqb fmap option_fmap option_map
       mbind option_bind].
  rewrite !int_of_digits by (first [apply HY|apply HMo|apply HD|apply HH|apply HMi
                                    |apply HS|by eapply digits_nonempty]).
  unfold datetime_new. cbn [List.forallb].
  rewrite (decimal_fits 4 Y), (decimal_fits 2 Mo), (decimal_fits 2 D),
    (decimal_fits 2 H), (decimal_fits 2 Mi), (decimal_fits 2 S) by (done || lia).
  cbn [andb negb]. by rewrite Hv.
Qed.

(** With dashes in the date the first format does not fit. *)
Lemma strptime_colon_dash Y Mo D H Mi S :
  digits 4 Y -> strptime ":" (timestamp "-" Y Mo D H Mi S) = None.
Proof.
  intros HY. unfold strptime, timestamp, rmatch, strptime_regex, chr.
  rewrite run_seq_cons, run_grp_digits by done.
  by rewrite run_seq_cons, run_chr.
Qed.

(** *** The offset *)

Lemma offset_group_none {R : Type} s g (k : groups -> string -> option R) :
  starts_offset s = false ->
  run (Grp "2" (seq [Chr (fun c => Ascii.eqb c "+" || Ascii.eqb c "-");
                     digit; digit; chr ":"; digit; digit])) s g k = None.
Proof.
  intros H. cbn [run]. unfold seq, digit, chr. cbn [List.fold_right run].
  destruct s as [|a [|b [|c [|d [|e [|f s]]]]]];
    try (repeat (match goal with
                 | |- (if ?x then _ else _) = None => destruct x; [|done]
                 end); done).
  cbn [starts_offset] in H. unfold is_sign in H.
  destruct (Ascii.eqb a "+" || Ascii.eqb a "-") eqn:E1; [|done].
  destruct (is_digit b) eqn:E2; [|done].
  destruct (is_digit c) eqn:E3; [|done].
  destruct (Ascii.eqb ":" d) eqn:E4; [|done].
  destruct (is_digit e) eqn:E5; [|done].
  destruct (is_digit f) eqn:E6; [|done].
  rewrite Ascii.eqb_sym, E4 in H. done.
Qed.

Lemma no_offset_cons c s :
  no_offset (String c s) = negb (starts_offset (String c s)) && no_offset s.
Proof. reflexivity. Qed.

Lemma rmatch_tz s :
  rmatch tz_search s
  = star not_nl s (fun s' =>
      run (Grp "2" (seq [Chr (fun c => Ascii.eqb c "+" || Ascii.eqb c "-");
                         digit; digit; chr ":"; digit; digit]))
        s' [("1", consumed s s')] (fun g' s'' => Some (g', s''))).
Proof. reflexivity. Qed.

Lemma star_no_offset {R : Type} s (k : string -> option R) :
  no_offset s = true ->
  (forall s', starts_offset s' = false -> k s' = None) ->
  star not_nl s k = None.
Proof.
  intros Hs Hk. induction s as [|c s IH]; [by apply Hk|].
  rewrite no_offset_cons in Hs. apply andb_true_iff in Hs as [Hc Hs].
  apply negb_true_iff in Hc.
  rewrite star_cons, IH by done. rewrite Hk by done. by destruct (not_nl c).
Qed.

Lemma rmatch_tz_none s t :
  no_offset s = true ->
  star not_nl s (fun s' =>
      run (Grp "2" (seq [Chr (fun c => Ascii.eqb c "+" || Ascii.eqb c "-");
                         digit; digit; chr ":"; digit; digit]))
        s' [("1", consumed t s')] (fun g' s'' => Some (g', s''))) = None.
Proof.
  intros Hs. apply star_no_offset; [done|]. intros s' H.
  by apply offset_group_none.
Qed.

(** No offset is found in a text in which none starts. *)
Lemma search_tz_none s : no_offset s = true -> search tz_search s = None.
Proof.
  induction s as [|c s IH]; intros Hs.
  - reflexivity.
  - cbn [search]. rewrite rmatch_tz, rmatch_tz_none by done.
    apply IH. rewrite no_offset_cons in Hs. by apply andb_true_iff in Hs as [_ Hs].
Qed.

Lemma no_offset_not_sign c s :
  is_sign c = false -> no_offset (String c s) = no_offset s.
Proof.
  intros H. rewrite no_offset_cons.
  assert (starts_offset (String c s) = false) as ->; [|done].
  destruct s as [|b [|c' [|d [|e [|f s]]]]]; cbn [starts_offset]; try done.
  by rewrite H.
Qed.

Lemma is_digit_not_sign c : is_digit c = true -> is_sign c = false.
Proof. destruct c as [[] [] [] [] [] [] [] []]; by vm_compute. Qed.

Lemma no_offset_digits ds s :
  all_of is_digit ds = true -> no_offset (ds +:+ s) = no_offset s.
Proof.
  intros H. induction ds as [|c ds IH]; [done|]. simpl in H.
  apply andb_true_iff in H as [Hc H].
  rewrite str_app_cons, no_offset_not_sign by (by apply is_digit_not_sign).
  by apply IH.
Qed.

(** In a date with dashes the dash is followed by two digits and a
    dash or a space, not by a colon. *)
Lemma no_offset_dash X c s :
  digits 2 X -> c <> ":"%char ->
  no_offset (String "-" (X +:+ String c s)) = no_offset (String c s).
Proof.
  intros HX Hc. destruct (two_digits X HX) as (a & b & -> & Ha & Hb).
  rewrite no_offset_cons.
  assert (starts_offset (String "-" (String a (String b "") +:+ String c s)) = false)
    as ->.
  { change (String a (String b "") +:+ String c s)
      with (String a (String b (String c s))).
    destruct s as [|e [|f s]]; cbn [starts_offset]; try done.
    rewrite (proj2 (Ascii.eqb_neq c ":") Hc). by rewrite !andb_false_r. }
  cbn [negb andb].
  change (String a (String b "") +:+ String c s)
    with (String a (String b "") +:+ String c s).
  apply no_offset_digits. simpl. by rewrite Ha, Hb.
Qed.

Lemma no_offset_timestamp c Y Mo D H Mi S :
  c = ":"%char \/ c = "-"%char ->
  digits 4 Y -> digits 2 Mo -> digits 2 D ->
  digits 2 H -> digits 2 Mi -> digits 2 S ->
  no_offset (timestamp c Y Mo D H Mi S) = true.
Proof.
  intros Hc [_ HY] HMo HD [_ HH] [_ HMi] [_ HS]. unfold timestamp.
  rewrite no_offset_digits by done.
  assert (no_offset (String " " (H +:+ String ":" (Mi +:+ String ":" S))) = true)
    as Ht.
  { rewrite no_offset_not_sign by done. rewrite no_offset_digits by done.
    rewrite no_offset_not_sign by done. rewrite no_offset_digits by done.
    rewrite no_offset_not_sign by done.
    rewrite <- (str_app_nil_r S). by rewrite no_offset_digits. }
  destruct Hc as [->| ->].
  - rewrite no_offset_not_sign by done. rewrite no_offset_digits by apply HMo.
    rewrite no_offset_not_sign by done. by rewrite no_offset_digits by apply HD.
  - rewrite no_offset_dash by done. rewrite no_offset_dash by done. exact Ht.
Qed.

(** An offset at the end is found, and taken away. *)
Lemma rmatch_tz_offset T off :
  all_of not_nl T = true -> utc_offset off = true ->
  rmatch tz_search (T +:+ off) = Some ([("2", off); ("1", T)], "").
Proof.
  intros HT Ho. unfold utc_offset in Ho. apply andb_true_iff in Ho as [Hs Hl].
  apply Nat.eqb_eq in Hl.
  destruct off as [|a [|b [|c [|d [|e [|f [|? ?]]]]]]]; try discriminate Hl.
  cbn [starts_offset] in Hs. rewrite !andb_true_iff in Hs.
  destruct Hs as (((((Ha & Hb) & Hc) & Hd) & He) & Hf).
  apply Ascii.eqb_eq in Hd as ->.
  rewrite rmatch_tz. apply star_app_some; [done|].
  set (off := String a (String b (String c (String ":" (String e (String f "")))))).
  assert (not_nl a = true) as Hna.
  { unfold is_sign in Ha. apply orb_true_iff in Ha as [Ha|Ha];
      apply Ascii.eqb_eq in Ha as ->; reflexivity. }
  unfold off at 1. rewrite star_cons, Hna. fold off.
  rewrite rmatch_tz_none.
  2: { rewrite no_offset_not_sign by (by apply is_digit_not_sign).
       rewrite no_offset_not_sign by (by apply is_digit_not_sign).
       rewrite no_offset_not_sign by done.
       rewrite no_offset_not_sign by (by apply is_digit_not_sign).
       by rewrite no_offset_not_sign by (by apply is_digit_not_sign). }
  rewrite consumed_app.
  cbn [run]. unfold seq, digit, chr, off. cbn [List.fold_right run].
  unfold is_sign in Ha. rewrite Ha, Hb, Hc, He, Hf. cbn [Ascii.eqb Bool.eqb].
  reflexivity.
Qed.

Lemma sub_tz_offset T off :
  all_of not_nl T = true -> utc_offset off = true ->
  sub tz_search (fun g => default "" (group g "1")) (T +:+ off) = T.
Proof.
  intros HT Ho. unfold sub. cbn [sub_go].
  rewrite rmatch_tz_offset by done.
  assert ((String.length "" <? String.length (T +:+ off))%nat = true) as ->.
  { apply Nat.ltb_lt. rewrite str_length_app.
    unfold utc_offset in Ho. apply andb_true_iff in Ho as [_ Hl].
    apply Nat.eqb_eq in Hl. rewrite Hl. simpl. lia. }
  assert (sub_go (String.length (T +:+ off)) tz_search
            (fun g => default "" (group g "1")) "" = "") as ->.
  { by destruct (String.length (T +:+ off)). }
  unfold group. simpl. apply str_app_nil_r.
Qed.

(** *** The value of a date key *)

Lemma all_of_impl (p q : ascii -> bool) s :
  (forall c, p c = true -> q c = true) -> all_of p s = true -> all_of q s = true.
Proof.
  intros Hpq. induction s as [|c s IH]; [done|]. simpl.
  intros [Hc Hs]%andb_true_iff. by rewrite (Hpq _ Hc), IH.
Qed.

Lemma stamp_char_digit c : is_digit c = true -> stamp_char c = true.
Proof. intros H. unfold stamp_char. by rewrite H. Qed.

Lemma stamp_char_not_nl c : stamp_char c = true -> not_nl c = true.
Proof. destruct c as [[] [] [] [] [] [] [] []]; by vm_compute. Qed.

Lemma stamp_chars_timestamp c Y Mo D H Mi S :
  c = ":"%char \/ c = "-"%char ->
  digits 4 Y -> digits 2 Mo -> digits 2 D ->
  digits 2 H -> digits 2 Mi -> digits 2 S ->
  all_of stamp_char (timestamp c Y Mo D H Mi S) = true.
Proof.
  intros Hc [_ HY] [_ HMo] [_ HD] [_ HH] [_ HMi] [_ HS]. unfold timestamp.
  assert (stamp_char c = true) as Hsc by (by destruct Hc as [->| ->]).
  repeat (rewrite all_of_app; apply andb_true_iff; split;
          [apply (all_of_impl is_digit); [exact stamp_char_digit|done]|];
          cbn [all_of]; apply andb_true_iff; split; [done|]).
  apply (all_of_impl is_digit); [exact stamp_char_digit|done].
Qed.

Lemma stamp_chars_offset off : utc_offset off = true -> all_of stamp_char off = true.
Proof.
  intros Ho. unfold utc_offset in Ho. apply andb_true_iff in Ho as [Hs Hl].
  apply Nat.eqb_eq in Hl.
  destruct off as [|a [|b [|c [|d [|e [|f [|? ?]]]]]]]; try discriminate Hl.
  cbn [starts_offset] in Hs. rewrite !andb_true_iff in Hs.
  destruct Hs as (((((Ha & Hb) & Hc) & Hd) & He) & Hf).
  cbn [all_of]. unfold stamp_char. rewrite Ha, Hb, Hc, Hd, He, Hf.
  by rewrite !orb_true_r.
Qed.

(** X13: A date key whose value is a date-time of the calendar, written
    with colons or with dashes in the date, then possibly an offset
    from UTC and possibly a dot and a sub-second fragment, gives that
    date-time, without the offset, and the fragment. *)
Theorem get_date_reads_the_timestamp file exif_data user_regex umd
    c Y Mo D H Mi S off frac subsec :
  first_present (keys umd) exif_data
    = Some ((timestamp c Y Mo D H Mi S +:+ off) +:+ frac) ->
  c = ":"%char \/ c = "-"%char ->
  digits 4 Y -> digits 2 Mo -> digits 2 D ->
  digits 2 H -> digits 2 Mi -> digits 2 S ->
  valid_datetime (decimal Y) (decimal Mo) (decimal D)
    (decimal H) (decimal Mi) (decimal S) = true ->
  off = "" \/ utc_offset off = true ->
  (frac = "" /\ subsec = "")
  \/ (frac = String "." subsec /\ contains "." subsec = false) ->
  get_date file exif_data user_regex umd
  = Ok (Some (mkResolved
                (Some (mk_datetime (decimal Y) (decimal Mo) (decimal D)
                         (decimal H) (decimal Mi) (decimal S))) subsec)).
Proof.
  intros Hf Hc HY HMo HD HH HMi HS Hv Ho Hfr.
  set (T := timestamp c Y Mo D H Mi S) in *.
  pose proof (stamp_chars_timestamp c Y Mo D H Mi S Hc HY HMo HD HH HMi HS) as HT.
  fold T in HT.
  assert (all_of stamp_char off = true) as Hoff.
  { destruct Ho as [->|Ho]; [done|by apply stamp_chars_offset]. }
  assert (contains "." (T +:+ off) = false) as Hdot.
  { apply (all_of_contains stamp_char); [|done]. by rewrite all_of_app, HT, Hoff. }
  assert (split ((T +:+ off) +:+ frac) "."
          = (T +:+ off) :: (if String.eqb frac "" then [] else [subsec])) as Hsplit.
  { destruct Hfr as [[-> ->]|[-> Hs]].
    - rewrite str_app_nil_r. unfold split. by rewrite split_go_no_dot.
    - by rewrite split_at_dot. }
  assert (match search tz_search (T +:+ off) with
          | Some _ => sub tz_search (fun g => default "" (group g "1")) (T +:+ off)
          | None => T +:+ off
          end = T) as Htz.
  { destruct Ho as [->|Ho].
    - rewrite str_app_nil_r. unfold T.
      by rewrite search_tz_none by (by apply no_offset_timestamp).
    - assert (all_of not_nl T = true) as Hn
        by (apply (all_of_impl stamp_char); [exact stamp_char_not_nl|done]).
      rewrite (search_match _ _ _ (rmatch_tz_offset T off Hn Ho)).
      by apply sub_tz_offset. }
  assert (match strptime ":" T with
          | Some d => Some d
          | None => strptime "-" T
          end = Some (mk_datetime (decimal Y) (decimal Mo) (decimal D)
                        (decimal H) (decimal Mi) (decimal S))) as Hp.
  { unfold T. destruct Hc as [->| ->].
    - by rewrite strptime_timestamp.
    - rewrite strptime_colon_dash by done. by rewrite strptime_timestamp. }
  unfold get_date. rewrite Hf.
  destruct ((T +:+ off) +:+ frac) as [|ch s] eqn:E.
  { exfalso. apply (f_equal String.length) in E.
    rewrite !str_length_app in E. unfold T, timestamp in E.
    rewrite str_length_app in E. destruct HY as [HY _]. rewrite HY in E.
    simpl in E. lia. }
  rewrite <- E in Hsplit |- *. cbv zeta. rewrite Hsplit. cbn [List.hd].
  rewrite Htz, Hp.
  destruct Hfr as [[-> ->]|[-> Hs]]; reflexivity.
Qed.

End Timestamps.

(** ** The theorems on the sample world *)

Import PyStr OsPath Re Calendar Os Sample StrFacts OsFacts.

(** C1: on the value of the claim [get_date] parses the date-time but
    leaves the offset in the sub-second fragment, which is
    ["500+02:00"] and not ["500"]: the offset is looked for before the
    dot only. *)
Theorem C1_offset_stays_in_subseconds :
  get_date "in/a.jpg" (<["Create Date" := "2021:05:04 10:11:12.500+02:00"]> ∅)
    None false
  = Ok (Some (mkResolved (Some (mk_datetime 2021 5 4 10 11 12)) "500+02:00"))
  /\ "500+02:00" <> "500".
Proof. split; [vm_compute; reflexivity|discriminate]. Qed.



(** The claim C3 as first stated fails in digest-rename mode: the
    picture is classified [duplicate] because a file has the name its
    digest gives, though that file has another content and another
    digest. *)
Lemma C3_counterexample :
  let target := "out/unknown/" +:+ hex_digest picture_undated +:+ ".jpg" in
  run_handle_file2 "in/a.jpg" "out" "%Y/%m/%d" false None tree_foreign
    = (tree_foreign, Ok duplicate)
  /\ files tree_foreign !! "in/a.jpg" = Some picture_undated
  /\ files tree_foreign !! target = Some plain_text
  /\ hex_digest picture_undated <> hex_digest plain_text.
Proof. vm_compute. repeat split; discriminate. Qed.

Lemma C3_witness :
  run_handle_file "in/a.jpg" "out" "%Y/%m/%d" false None tree_placed
    = (tree_placed, Ok duplicate)
  /\ exists output_dir name k c c',
       snd (plan printed_metadata ymd ascii_lower "in/a.jpg" "out" "%Y/%m/%d" None tree_placed)
         = Ok (output_dir, name)
       /\ (1 <= k)%nat
       /\ files tree_placed !! "in/a.jpg" = Some c
       /\ files tree_placed !! candidate (PyStr.join OsPath.sep [output_dir; name]) k
          = Some c'
       /\ hex_digest c = hex_digest c'.
Proof.
  assert (run_handle_file "in/a.jpg" "out" "%Y/%m/%d" false None tree_placed
          = (tree_placed, Ok duplicate)) as H by (vm_compute; reflexivity).
  split; [exact H|].
  exact (proj2 (proj1 (C3_duplicate_only_on_equal_digest_or_digest_name
                         hex_digest printed_metadata ymd ascii_lower "in/a.jpg" "out"
                         "%Y/%m/%d" false None tree_placed tree_placed) H)).
Defined.

(** C5: on the example of the claim, with the second [photo.jpg]
    placed as [photo-2.jpg], the sidecar [photo.jpg.xmp] is copied to
    [photo.jpg-2.xmp] and not to [photo-2.jpg.xmp]: the suffix is put
    after the whole name of the picture, not before its extension, so
    that neither of the two names under which [handle_file_xmp] looks
    for the sidecar of [photo-2.jpg] exists. *)
Theorem C5_sidecar_suffix_after_extension :
  let fs1 := fst (handle_file hex_digest no_metadata ymd ascii_lower "a/photo.jpg" "out"
                    "%Y/%m/%d" false None tree_photos) in
  let r := handle_file hex_digest no_metadata ymd ascii_lower "b/photo.jpg" "out"
             "%Y/%m/%d" false None fs1 in
  files fs1 !! "out/unknown/photo.jpg" = Some "first"
  /\ snd r = Ok copied
  /\ files (fst r) !! "out/unknown/photo-2.jpg" = Some "second"
  /\ files (fst r) !! "out/unknown/photo.jpg-2.xmp" = Some "notes"
  /\ files (fst r) !! "out/unknown/photo-2.jpg.xmp" = None
  /\ files (fst r) !! "out/unknown/photo-2.xmp" = None
  /\ fst (handle_file_xmp "b/photo.jpg" "photo.jpg" 2 "out/unknown" false tree_photos)
     = mkFS (<["out/unknown/photo.jpg-2.xmp" := "notes"]> (files tree_photos))
         (dirs tree_photos).
Proof. vm_compute. repeat split. Qed.

Lemma C6_witness :
  run_handle_file "in/IMG.JPG" "out" "%Y/%m/%d" true None tree_undated
    = (fst (run_handle_file "in/IMG.JPG" "out" "%Y/%m/%d" true None tree_undated),
       Ok moved)
  /\ is_Some (files tree_undated !! "in/IMG.JPG")
  /\ files (fst (run_handle_file "in/IMG.JPG" "out" "%Y/%m/%d" true None
                   tree_undated)) !! "in/IMG.JPG" = None.
Proof.
  assert (run_handle_file "in/IMG.JPG" "out" "%Y/%m/%d" true None tree_undated
          = (fst (run_handle_file "in/IMG.JPG" "out" "%Y/%m/%d" true None
                    tree_undated), Ok moved)) as H by (vm_compute; reflexivity).
  split; [exact H|].
  exact (proj1 (proj2 (proj2 (C6_copy_keeps_source_move_removes_it hex_digest
           printed_metadata ymd ascii_lower "in/IMG.JPG" "out" "%Y/%m/%d" None tree_undated)))
           _ H).
Defined.

Lemma C7_witness :
  endswith "in/a.xmp" ".xmp" = true
  /\ run_handle_file "in/a.xmp" "out" "%Y/%m/%d" false None tree_sidecar
     = (tree_sidecar, Ok other).
Proof.
  split; [reflexivity|].
  apply C7_sidecar_is_other_and_stays. reflexivity.
Defined.

(** The claim C7 as first stated fails: the sidecar is not put into
    the [unknown] bucket, which is not even made; the tree holds the
    one file it held. *)
Lemma C7_counterexample :
  let r := run_handle_file "in/a.xmp" "out" "%Y/%m/%d" false None tree_sidecar in
  snd r = Ok other
  /\ files (fst r) !! "out/unknown/a.xmp" = None
  /\ isdir "out/unknown" (fst r) = false
  /\ map_to_list (files (fst r)) = [("in/a.xmp", "x")].
Proof. vm_compute. repeat split. Qed.


Lemma C9_witness :
  run_handle_file "in/a.jpg" "out" "%Y/%m/%d" false None tree_placed
    = (tree_placed, Ok duplicate)
  /\ files tree_placed = files tree_placed.
Proof.
  apply (C9_placing_again_is_duplicate hex_digest printed_metadata ymd ascii_lower "in/a.jpg"
           "out" "%Y/%m/%d" None tree_placed tree_placed "out/2021/05/04"
           "20210504-101112.jpg" 1 picture_may).
  - reflexivity.
  - vm_compute. reflexivity.
  - vm_compute. reflexivity.
  - lia.
  - vm_compute. reflexivity.
  - intros j Hj. lia.
Defined.

Lemma C10_witness :
  snd (exif printed_metadata "in/a.bin" tree_no_mime)
    = Ok (Some (<["File Size" := "12 kB"]> ∅))
  /\ main_step hex_digest printed_metadata ymd ascii_lower false "in" "a.bin" "out" "%Y/%m/%d"
       false None (fun _ => 0%nat) tree_no_mime
     = (tree_no_mime, Ok (incr (fun _ => 0%nat) error)).
Proof.
  assert (snd (exif printed_metadata "in/a.bin" tree_no_mime)
          = Ok (Some (<["File Size" := "12 kB"]> ∅))) as H
    by (vm_compute; reflexivity).
  split; [exact H|].
  assert (<["File Size" := "12 kB"]> (∅ : gmap string string) !! "MIME Type" = None)
    as Hm by (vm_compute; reflexivity).
  destruct (C10_no_mime_type_counts_as_error hex_digest printed_metadata ymd ascii_lower
              "in/a.bin" tree_no_mime (<["File Size" := "12 kB"]> ∅) H Hm)
    as (_ & _ & _ & Hmain).
  apply (Hmain false "in" "a.bin" "out" "%Y/%m/%d" false None (fun _ => 0%nat)).
  - reflexivity.
  - unfold ignored_files. intros Hin.
    repeat (apply elem_of_cons in Hin as [Hin|Hin]; [discriminate|]).
    by apply elem_of_nil in Hin.
  - reflexivity.
Defined.


(** ** Further theorems on the sample world *)

Lemma outcomes_of_the_handlers_witness :
  run_handle_file "in/IMG.JPG" "out" "%Y/%m/%d" true None tree_undated
    = (fst (run_handle_file "in/IMG.JPG" "out" "%Y/%m/%d" true None tree_undated),
       Ok moved)
  /\ moved <> error
  /\ (moved = other <-> endswith "in/IMG.JPG" ".xmp" = true)
  /\ (moved = copied -> true = false)
  /\ (moved = moved -> true = true).
Proof.
  assert (run_handle_file "in/IMG.JPG" "out" "%Y/%m/%d" true None tree_undated
          = (fst (run_handle_file "in/IMG.JPG" "out" "%Y/%m/%d" true None
                    tree_undated), Ok moved)) as H by (vm_compute; reflexivity).
  split; [exact H|].
  exact (proj1 (outcomes_of_the_handlers hex_digest printed_metadata ymd ascii_lower
                  "in/IMG.JPG" "out" "%Y/%m/%d" true None tree_undated _ moved) H).
Defined.

Lemma summary_divides_by_zero_without_files_witness :
  main_files hex_digest printed_metadata ymd ascii_lower false "in" ["Thumbs.db"] "out"
    "%Y/%m/%d" false None zero_count tree_undated = (tree_undated, Ok zero_count)
  /\ handled ["Thumbs.db"] = []
  /\ print_summary rounded_quotient zero_count
     = (["total:" +:+ TAB +:+ "0" +:+ TAB +:+ "100%"], ZeroDivisionError).
Proof.
  assert (main_files hex_digest printed_metadata ymd ascii_lower false "in" ["Thumbs.db"]
            "out" "%Y/%m/%d" false None zero_count tree_undated
          = (tree_undated, Ok zero_count)) as H by (vm_compute; reflexivity).
  assert (handled ["Thumbs.db"] = []) as Hh by (vm_compute; reflexivity).
  split; [exact H|]. split; [exact Hh|].
  exact (proj2 (proj1 (summary_divides_by_zero_without_files hex_digest
                         printed_metadata ymd ascii_lower rounded_quotient false "in"
                         ["Thumbs.db"] "out" "%Y/%m/%d" false None tree_undated
                         tree_undated zero_count H) Hh)).
Defined.

Lemma parse_date_format_by_parts_witness :
  contains "/" "YMmD" = false
  /\ parse_date_format "YYYY/MM" = parse_date_format "YYYY" +:+ "/" +:+ parse_date_format "MM".
Proof.
  split; [reflexivity|].
  exact (proj1 (parse_date_format_by_parts "YYYY" "/" "MM" eq_refl)).
Defined.

Lemma get_output_dir_gives_a_directory_witness :
  endswith "out" "/" = false
  /\ get_output_dir ymd None "out/" "%Y/%m/%d" tree_undated
     = get_output_dir ymd None "out" "%Y/%m/%d" tree_undated.
Proof.
  split; [reflexivity|].
  exact (proj2 (proj2 (proj2 (get_output_dir_gives_a_directory ymd None "out"
                                "%Y/%m/%d" tree_undated))) eq_refl).
Defined.

Lemma get_date_first_key_decides_witness :
  get_date "in/IMG_20160915_123456.jpg"
    (<["Create Date" := "0000:00:00 00:00:00"]> ∅) None false
  = get_date "in/a.jpg"
      (<["Create Date" := "0000:00:00 00:00:00"]>
         (<["File Modification Date/Time" := "2021:05:04 10:11:12"]> ∅))
      None true.
Proof.
  refine (proj1 (get_date_first_key_decides "in/IMG_20160915_123456.jpg" "in/a.jpg"
                   (<["Create Date" := "0000:00:00 00:00:00"]> ∅)
                   (<["Create Date" := "0000:00:00 00:00:00"]>
                      (<["File Modification Date/Time" := "2021:05:04 10:11:12"]> ∅))
                   None None false true "0000:00:00 00:00:00" _ _ _)).
  - vm_compute. reflexivity.
  - vm_compute. reflexivity.
  - discriminate.
Defined.


Lemma placed_file_is_at_the_first_free_candidate_witness :
  let fs1 := fst (handle_file hex_digest no_metadata ymd ascii_lower "a/photo.jpg" "out"
                    "%Y/%m/%d" false None tree_photos) in
  let r := handle_file hex_digest no_metadata ymd ascii_lower "b/photo.jpg" "out"
             "%Y/%m/%d" false None fs1 in
  let tp := "out/unknown/photo.jpg" in
  snd r = Ok copied
  /\ exists k c, (1 <= k)%nat
       /\ files fs1 !! "b/photo.jpg" = Some c
       /\ (forall j, (1 <= j < k)%nat ->
             exists c', files fs1 !! candidate tp j = Some c'
                        /\ hex_digest c <> hex_digest c')
       /\ files fs1 !! candidate tp k = None
       /\ (isdir (candidate tp k) fs1 = false ->
           files (fst r) !! candidate tp k = Some c).
Proof.
  intros fs1 r tp.
  assert (plan no_metadata ymd ascii_lower "b/photo.jpg" "out" "%Y/%m/%d" None fs1
          = (fs1, Ok ("out/unknown", "photo.jpg"))) as Hp
    by (vm_compute; reflexivity).
  assert (r = (fst r, Ok copied)) as Hr by (vm_compute; reflexivity).
  split; [vm_compute; reflexivity|].
  exact (placed_file_is_at_the_first_free_candidate hex_digest no_metadata ymd ascii_lower
           "b/photo.jpg" "out" "%Y/%m/%d" false None fs1 fs1 "out/unknown"
           "photo.jpg" (fst r) copied Hp eq_refl Hr (or_introl eq_refl)).
Defined.

Lemma copying_again_is_duplicate_witness :
  let r := run_handle_file "in/IMG.JPG" "out" "%Y/%m/%d" false None tree_undated in
  snd r = Ok copied
  /\ run_handle_file "in/IMG.JPG" "out" "%Y/%m/%d" false None (fst r)
     = (fst r, Ok duplicate).
Proof.
  intros r.
  set (fs1 := fst (plan printed_metadata ymd ascii_lower "in/IMG.JPG" "out" "%Y/%m/%d" None
                     tree_undated)).
  assert (plan printed_metadata ymd ascii_lower "in/IMG.JPG" "out" "%Y/%m/%d" None tree_undated
          = (fs1, Ok ("out/unknown", "img.jpg"))) as Hp
    by (vm_compute; reflexivity).
  assert (r = (fst r, Ok copied)) as Hr by (vm_compute; reflexivity).
  assert (forall k, isdir (candidate (PyStr.join OsPath.sep ["out/unknown"; "img.jpg"]) k)
                      fs1 = false) as Hd.
  { intros k.
    assert (exists_ (candidate "out/unknown/img.jpg" k) fs1 = false) as He.
    { apply (not_exists_by_prefix _ (fst (splitext "out/unknown/img.jpg")));
        [vm_compute; reflexivity|apply candidate_startswith]. }
    by apply orb_false_iff in He as [_ He]. }
  split; [vm_compute; reflexivity|].
  exact (copying_again_is_duplicate hex_digest printed_metadata ymd ascii_lower "in/IMG.JPG"
           "out" "%Y/%m/%d" None tree_undated fs1 "out/unknown" "img.jpg" (fst r)
           Hp eq_refl Hd Hr ltac:(vm_compute; reflexivity)).
Defined.


Lemma picture_or_video_by_mime_type_witness :
  is_image_or_video (Some (<["MIME Type" := "application/vnd-adobe-photoshop"]> ∅))
  = Ok true.
Proof.
  assert ((<["MIME Type" := "application/vnd-adobe-photoshop"]> ∅ : gmap string string)
          !! "MIME Type" = Some "application/vnd-adobe-photoshop") as H
    by (vm_compute; reflexivity).
  exact (picture_or_video_by_mime_type _ _ H eq_refl).
Defined.

Lemma get_date_reads_the_timestamp_witness :
  get_date "in/a.jpg" (<["Create Date" := "2021-05-04 10:11:12+02:00.500"]> ∅)
    None false
  = Ok (Some (mkResolved (Some (mk_datetime 2021 5 4 10 11 12)) "500")).
Proof.
  refine (get_date_reads_the_timestamp "in/a.jpg"
            (<["Create Date" := "2021-05-04 10:11:12+02:00.500"]> ∅) None false
            "-" "2021" "05" "04" "10" "11" "12" "+02:00" ".500" "500"
            _ _ _ _ _ _ _ _ _ _ _).
  - vm_compute. reflexivity.
  - by right.
  - by split.
  - by split.
  - by split.
  - by split.
  - by split.
  - by split.
  - reflexivity.
  - right. reflexivity.
  - right. by split.
Defined.
